(** * The LLM orchestration service (src/llm_service.py)

    A shallow embedding of [LLMService] and of its five provider adapters.

    Conventions of the embedding:
    - a Python [str] is a [string], one [ascii] per character;
    - a Python [int] is a [Z], a counter that starts at 0 and is only ever
      incremented is an [N], a Python [float] is idealised as a rational [Q];
    - a method that mutates [self] and may raise is a computation in the
      monad [M], whose state survives a raised exception, as it does in
      Python;
    - the langchain clients, the wall clock and the [json] module are the
      environment [Env]: the developments are parametric in it;
    - calls to [logger] have no effect on the state and are left out, except
      where the logged expression itself can raise. *)

From Stdlib Require Import String Ascii List Bool Arith ZArith NArith QArith Lia.
Import ListNotations.

Local Close Scope Q_scope.
Local Open Scope nat_scope.
Local Open Scope list_scope.
Local Open Scope string_scope.

(** ** Python preliminaries *)

Definition dquote : string := String "034"%char EmptyString.
Definition newline : string := String "010"%char EmptyString.

(** Truthiness of the values the service tests with [if x:] or [x or y]. *)
Definition truthy_str (s : string) : bool :=
  match s with EmptyString => false | _ => true end.

Definition truthy_opt_str (o : option string) : bool :=
  match o with Some s => truthy_str s | None => false end.

Definition truthy_opt_Z (o : option Z) : bool :=
  match o with Some z => negb (z =? 0)%Z | None => false end.

Definition Q_is_zero (q : Q) : bool := (Qnum q =? 0)%Z.

Definition truthy_opt_Q (o : option Q) : bool :=
  match o with Some q => negb (Q_is_zero q) | None => false end.

(** [x or y] on an optional string. *)
Definition py_or (x : option string) (y : string) : string :=
  match x with
  | Some s => if truthy_str s then s else y
  | None => y
  end.

(** [d.get(k, default)] on a field that is absent. *)
Definition get_default {A} (o : option A) (d : A) : A :=
  match o with Some a => a | None => d end.

(** [repr] of a list of plain strings, as an f-string prints it. *)
Definition repr_str_list (l : list string) : string :=
  "[" ++ String.concat ", " (map (fun s => "'" ++ s ++ "'") l) ++ "]".

(** [range(start, stop, step)] for a positive step. *)
Definition range3 (start stop step : nat) : list nat :=
  map (fun k => start + k * step) (seq 0 ((stop - start + step - 1) / step)).

(** The slice [s[i:j]]. *)
Definition slice (s : string) (i j : nat) : string := substring i (j - i) s.

(** ** Exceptions and the result of a call *)

Inductive Exception : Type :=
| RuntimeError (msg : string)
| ValueError (msg : string)
| ImportError (msg : string)
| AttributeError (msg : string)
| IndexError (msg : string)
| TypeError (msg : string)
| JSONDecodeError (msg : string)
| KeyError (msg : string)
| ClientError (msg : string).  (* whatever a langchain client raises *)

Definition exc_str (e : Exception) : string :=
  match e with
  | RuntimeError m | ValueError m | ImportError m | AttributeError m
  | IndexError m | TypeError m | JSONDecodeError m | KeyError m
  | ClientError m => m
  end.

Inductive Result (A : Type) : Type :=
| Return (a : A)
| Raise (e : Exception).
Arguments Return {A} a.
Arguments Raise {A} e.

(** ** The state-and-exception monad *)

Definition M (S A : Type) : Type := S -> Result A * S.

Definition ret {S A} (a : A) : M S A := fun s => (Return a, s).
Definition raise {S A} (e : Exception) : M S A := fun s => (Raise e, s).

Definition bind {S A B} (m : M S A) (k : A -> M S B) : M S B :=
  fun s =>
    match m s with
    | (Return a, s') => k a s'
    | (Raise e, s') => (Raise e, s')
    end.

(** [try: m except Exception as e: h e]; the handler sees the state the
    body left behind. *)
Definition try_except {S A} (m : M S A) (h : Exception -> M S A) : M S A :=
  fun s =>
    match m s with
    | (Return a, s') => (Return a, s')
    | (Raise e, s') => h e s'
    end.

Definition get {S} : M S S := fun s => (Return s, s).
Definition put {S} (s : S) : M S unit := fun _ => (Return tt, s).
Definition modify {S} (f : S -> S) : M S unit := fun s => (Return tt, f s).

Declare Scope py_scope.
Delimit Scope py_scope with py.
Notation "x <- m ;; k" := (bind m (fun x => k))
  (at level 61, m at next level, right associativity) : py_scope.
Notation "m ;;; k" := (bind m (fun _ => k))
  (at level 61, right associativity) : py_scope.

(** ** Ordered dictionaries

    [self.providers] is a [dict]: iteration follows insertion order, an
    assignment to a present key keeps its position. *)

Section Dict.
Context {V : Type}.

Definition dict := list (string * V).

Definition keys (d : dict) : list string := map fst d.

Fixpoint dict_get (d : dict) (k : string) : option V :=
  match d with
  | [] => None
  | (k', v) :: d' => if String.eqb k' k then Some v else dict_get d' k
  end.

Definition dict_mem (d : dict) (k : string) : bool :=
  match dict_get d k with Some _ => true | None => false end.

(** [d[k] = v] *)
Fixpoint dict_set (d : dict) (k : string) (v : V) : dict :=
  match d with
  | [] => [(k, v)]
  | (k', v') :: d' =>
      if String.eqb k' k then (k', v) :: d' else (k', v') :: dict_set d' k v
  end.
End Dict.
Arguments dict V : clear implicits.

(** ** JSON values and a reference decoder

    [JSON] is the type of the Python objects [json.loads] builds.  The
    decoder below follows the grammar CPython's [json] module accepts (RFC
    8259 plus [NaN], [Infinity] and [-Infinity]); it serves to run the
    service on concrete texts.  A backslash-u escape is checked and kept as
    written; the other escapes are decoded. *)

#[warnings="-register-all"]
Inductive JSON : Type :=
| JNull
| JBool (b : bool)
| JInt (z : Z)
| JFloat (lexeme : string)
| JStr (s : string)
| JList (l : list JSON)
| JDict (d : list (string * JSON)).

Module json.

Local Open Scope char_scope.

Definition is_ws (c : ascii) : bool :=
  Ascii.eqb c " " || Ascii.eqb c "009" || Ascii.eqb c "010" || Ascii.eqb c "013".

Fixpoint skip_ws (s : list ascii) : list ascii :=
  match s with
  | c :: r => if is_ws c then skip_ws r else s
  | [] => []
  end.

Definition is_digit (c : ascii) : bool :=
  ((48 <=? nat_of_ascii c) && (nat_of_ascii c <=? 57))%nat.

Definition is_hex (c : ascii) : bool :=
  let n := nat_of_ascii c in
  is_digit c || ((65 <=? n) && (n <=? 70))%nat || ((97 <=? n) && (n <=? 102))%nat.

(** The longest run of digits at the head of [s], and what follows it. *)
Fixpoint span_digits (s : list ascii) : list ascii * list ascii :=
  match s with
  | c :: r =>
      if is_digit c then let (ds, r') := span_digits r in (c :: ds, r')
      else ([], s)
  | [] => ([], [])
  end.

Definition digits_value (ds : list ascii) : Z :=
  fold_left (fun acc c => (10 * acc + Z.of_nat (nat_of_ascii c - 48)%nat)%Z) ds 0%Z.

(** The integer part: an optional minus, then 0 or a run of digits that
    does not start with 0. *)
Definition scan_int (s : list ascii) : option (list ascii * list ascii) :=
  let '(sign, s1) :=
    match s with "-" :: r => (["-"], r) | _ => ([], s) end in
  match s1 with
  | "0" :: r => Some ((sign ++ ["0"])%list, r)
  | c :: r =>
      if is_digit c then
        let (ds, r') := span_digits r in Some ((sign ++ c :: ds)%list, r')
      else None
  | [] => None
  end.

(** The optional fraction: a dot and at least one digit. *)
Definition scan_frac (s : list ascii) : list ascii * list ascii :=
  match s with
  | "." :: r =>
      match span_digits r with
      | ([], _) => ([], s)
      | (ds, r') => ("." :: ds, r')
      end
  | _ => ([], s)
  end.

(** The optional exponent: e or E, an optional sign, at least one digit. *)
Definition scan_exp (s : list ascii) : list ascii * list ascii :=
  match s with
  | e :: r =>
      if Ascii.eqb e "e" || Ascii.eqb e "E" then
        let '(sg, r1) :=
          match r with
          | "-" :: r1 => (["-"], r1)
          | "+" :: r1 => (["+"], r1)
          | _ => ([], r)
          end in
        match span_digits r1 with
        | ([], _) => ([], s)
        | (ds, r') => ((e :: sg ++ ds)%list, r')
        end
      else ([], s)
  | [] => ([], s)
  end.

Definition int_value (lexeme : list ascii) : Z :=
  match lexeme with
  | "-" :: ds => (- digits_value ds)%Z
  | ds => digits_value ds
  end.

Definition scan_number (s : list ascii) : option (JSON * list ascii) :=
  match scan_int s with
  | None => None
  | Some (i, r) =>
      let (f, r1) := scan_frac r in
      let (e, r2) := scan_exp r1 in
      match f, e with
      | [], [] => Some (JInt (int_value i), r2)
      | _, _ => Some (JFloat (string_of_list_ascii (i ++ f ++ e)%list), r2)
      end
  end.

(** [py_scanstring] in strict mode, entered after the opening quote. *)
Fixpoint scanstring (s : list ascii) : option (list ascii * list ascii) :=
  match s with
  | [] => None
  | "034" :: r => Some ([], r)
  | "\" :: e :: r =>
      let simple (c : ascii) :=
        match scanstring r with
        | Some (t, r') => Some (c :: t, r')
        | None => None
        end in
      if Ascii.eqb e "034" then simple "034"
      else if Ascii.eqb e "\" then simple "\"
      else if Ascii.eqb e "/" then simple "/"
      else if Ascii.eqb e "b" then simple "008"
      else if Ascii.eqb e "f" then simple "012"
      else if Ascii.eqb e "n" then simple "010"
      else if Ascii.eqb e "r" then simple "013"
      else if Ascii.eqb e "t" then simple "009"
      else if Ascii.eqb e "u" then
        match r with
        | h1 :: h2 :: h3 :: h4 :: r4 =>
            if is_hex h1 && is_hex h2 && is_hex h3 && is_hex h4 then
              match scanstring r4 with
              | Some (t, r') => Some ("\" :: "u" :: h1 :: h2 :: h3 :: h4 :: t, r')
              | None => None
              end
            else None
        | _ => None
        end
      else None
  | c :: r =>
      if (nat_of_ascii c <? 32)%nat then None
      else match scanstring r with
           | Some (t, r') => Some (c :: t, r')
           | None => None
           end
  end.

Definition strip_prefix (p : string) (s : list ascii) : option (list ascii) :=
  let n := String.length p in
  if list_eq_dec Ascii.ascii_dec (firstn n s) (list_ascii_of_string p)
  then Some (skipn n s) else None.

(** [scan_once]: one value at the head of [s].  [array_items] and
    [object_items] are the loops of [JSONArray] and [JSONObject], entered
    where an item is expected. *)
Fixpoint scan_once (fuel : nat) (s : list ascii) {struct fuel}
  : option (JSON * list ascii) :=
  match fuel with
  | O => None
  | S fuel' =>
      match s with
      | "034" :: r =>
          match scanstring r with
          | Some (t, r') => Some (JStr (string_of_list_ascii t), r')
          | None => None
          end
      | "{" :: r =>
          match skip_ws r with
          | "}" :: r' => Some (JDict [], r')
          | r' =>
              match object_items fuel' r' with
              | Some (d, r'') => Some (JDict d, r'')
              | None => None
              end
          end
      | "[" :: r =>
          match skip_ws r with
          | "]" :: r' => Some (JList [], r')
          | r' =>
              match array_items fuel' r' with
              | Some (l, r'') => Some (JList l, r'')
              | None => None
              end
          end
      | _ =>
          match strip_prefix "null" s with
          | Some r => Some (JNull, r)
          | None =>
          match strip_prefix "true" s with
          | Some r => Some (JBool true, r)
          | None =>
          match strip_prefix "false" s with
          | Some r => Some (JBool false, r)
          | None =>
          match scan_number s with
          | Some v => Some v
          | None =>
          match strip_prefix "NaN" s with
          | Some r => Some (JFloat "NaN", r)
          | None =>
          match strip_prefix "Infinity" s with
          | Some r => Some (JFloat "Infinity", r)
          | None =>
          match strip_prefix "-Infinity" s with
          | Some r => Some (JFloat "-Infinity", r)
          | None => None
          end end end end end end end
      end
  end

with array_items (fuel : nat) (s : list ascii) {struct fuel}
  : option (list JSON * list ascii) :=
  match fuel with
  | O => None
  | S fuel' =>
      match scan_once fuel' s with
      | None => None
      | Some (v, r) =>
          match skip_ws r with
          | "]" :: r' => Some ([v], r')
          | "," :: r' =>
              match array_items fuel' (skip_ws r') with
              | Some (l, r'') => Some (v :: l, r'')
              | None => None
              end
          | _ => None
          end
      end
  end

with object_items (fuel : nat) (s : list ascii) {struct fuel}
  : option (list (string * JSON) * list ascii) :=
  match fuel with
  | O => None
  | S fuel' =>
      match s with
      | "034" :: r =>
          match scanstring r with
          | None => None
          | Some (k, r1) =>
              match skip_ws r1 with
              | ":" :: r2 =>
                  match scan_once fuel' (skip_ws r2) with
                  | None => None
                  | Some (v, r3) =>
                      let key := string_of_list_ascii k in
                      match skip_ws r3 with
                      | "}" :: r' => Some ([(key, v)], r')
                      | "," :: r' =>
                          match object_items fuel' (skip_ws r') with
                          | Some (d, r'') => Some ((key, v) :: d, r'')
                          | None => None
                          end
                      | _ => None
                      end
                  end
              | _ => None
              end
          end
      | _ => None
      end
  end.

(** A Python [dict] keeps the first position and the last value of a
    repeated key. *)
Definition as_dict (members : list (string * JSON)) : list (string * JSON) :=
  fold_left (fun d kv => dict_set d (fst kv) (snd kv)) members [].

Fixpoint normalise (fuel : nat) (v : JSON) : JSON :=
  match fuel with
  | O => v
  | S fuel' =>
      match v with
      | JList l => JList (map (normalise fuel') l)
      | JDict d => JDict (as_dict (map (fun kv => (fst kv, normalise fuel' (snd kv))) d))
      | _ => v
      end
  end.

(** [json.loads]: [None] stands for [JSONDecodeError]. *)
Definition loads (text : string) : option JSON :=
  let s := list_ascii_of_string text in
  let fuel := 2 * List.length s + 2 in
  match scan_once fuel (skip_ws s) with
  | Some (v, r) =>
      match skip_ws r with
      | [] => Some (normalise fuel v)
      | _ => None
      end
  | None => None
  end.

End json.

(** ** Data model *)

(** [class LLMProvider(str, Enum)] *)
Inductive LLMProvider : Type :=
| OPENAI
| AZURE_OPENAI
| GOOGLE_GEMINI
| ANTHROPIC_CLAUDE
| OLLAMA.

(** [LLMProvider.X.value] *)
Definition value (p : LLMProvider) : string :=
  match p with
  | OPENAI => "openai"
  | AZURE_OPENAI => "azure"
  | GOOGLE_GEMINI => "gemini"
  | ANTHROPIC_CLAUDE => "claude"
  | OLLAMA => "ollama"
  end.

Definition LLMProvider_eqb (a b : LLMProvider) : bool :=
  match a, b with
  | OPENAI, OPENAI | AZURE_OPENAI, AZURE_OPENAI | GOOGLE_GEMINI, GOOGLE_GEMINI
  | ANTHROPIC_CLAUDE, ANTHROPIC_CLAUDE | OLLAMA, OLLAMA => true
  | _, _ => false
  end.

(** A provider configuration: the dictionary handed to an adapter's
    constructor, one optional field per key the adapters read.  A key that
    is absent and a key bound to [None] both read as [None]; the settings
    never bind a key with a default ([model], [deployment_name], ...) to
    [None]. *)
Record Config : Type := {
  cfg_api_key : option string;
  cfg_model : option string;
  cfg_temperature : option Q;
  cfg_max_tokens : option Z;
  cfg_endpoint : option string;
  cfg_deployment_name : option string;
  cfg_api_version : option string;
  cfg_base_url : option string
}.

Definition empty_config : Config :=
  {| cfg_api_key := None; cfg_model := None; cfg_temperature := None;
     cfg_max_tokens := None; cfg_endpoint := None; cfg_deployment_name := None;
     cfg_api_version := None; cfg_base_url := None |}.

(** The fields of [settings] (src/config.py) the service reads. *)
Record Settings : Type := {
  DEFAULT_LLM_PROVIDER : string;
  OPENAI_API_KEY : option string;
  OPENAI_MODEL : string;
  OPENAI_TEMPERATURE : Q;
  AZURE_OPENAI_API_KEY : option string;
  AZURE_OPENAI_ENDPOINT : option string;
  AZURE_OPENAI_DEPLOYMENT_NAME : option string;
  AZURE_OPENAI_API_VERSION : string;
  GEMINI_API_KEY : option string;
  GEMINI_MODEL : string;
  CLAUDE_API_KEY : option string;
  CLAUDE_MODEL : string;
  OLLAMA_BASE_URL : string;
  OLLAMA_MODEL : string
}.

(** The [llm_output] of a langchain result, as far as the adapters look
    into it: whether it has a ["token_usage"] entry and what that entry
    binds ["total_tokens"] to. *)
Record TokenUsage : Type := { total_tokens_reported : option Z }.
Record LLMOutput : Type := { token_usage : option TokenUsage }.

Record Generation : Type := { text : string }.
Record LLMResult : Type := {
  generations : list (list Generation);
  llm_output : option LLMOutput
}.

(** [@dataclass class LLMResponse] *)
Record LLMResponse : Type := {
  content : string;
  provider : string;
  model : string;
  tokens_used : option Z;
  cost : option Q;
  latency : option Q;
  metadata : option LLMOutput
}.

Definition datetime : Type := Q.

(** [@dataclass class LLMUsageStats] *)
Record LLMUsageStats : Type := {
  total_requests : N;
  total_tokens : Z;
  total_cost : Q;
  average_latency : Q;
  error_count : N;
  last_request : option datetime
}.

(** [LLMUsageStats()] *)
Definition LLMUsageStats_new : LLMUsageStats :=
  {| total_requests := 0; total_tokens := 0; total_cost := 0;
     average_latency := 0; error_count := 0; last_request := None |}.

(** The langchain chat client an adapter holds in [self.chat_model]: the
    arguments it was constructed with and the two attributes the adapters
    assign before a call. *)
Record ChatModel : Type := {
  cm_class : LLMProvider;
  cm_credentials : Config;
  cm_model_name : string;
  cm_temperature : Q;
  cm_max_tokens : option Z
}.

Inductive Message : Type :=
| SystemMessage (content : string)
| HumanMessage (content : string).

(** One round trip to a backend: the client as it stood and what it was
    sent. *)
Inductive Call : Type :=
| APredict (cm : ChatModel) (prompt : string)
| AGenerate (cm : ChatModel) (messages : list Message)
| AStream (cm : ChatModel) (messages : list Message).

(** What a consumer sees of an async generator: the fragments it yielded,
    in order, and the exception that ended it, if one did. *)
Record Stream : Type := {
  fragments : list string;
  failure : option Exception
}.

(** ** The environment

    The backends answer a call according to the whole history of calls
    ([journal], oldest first, the call being answered last); the clock is
    read by [time.time()] and [datetime.utcnow()], one reading per call. *)
Record Env : Type := {
  installed : LLMProvider -> bool;
  apredict : list Call -> Result string;
  agenerate : list Call -> Result LLMResult;
  astream : list Call -> Stream;
  clock : nat -> Q;
  json_loads : string -> option JSON;
  json_dumps : JSON -> string
}.

Record World : Type := {
  journal : list Call;
  ticks : nat
}.

Definition World_new : World := {| journal := []; ticks := 0 |}.

(** [class BaseLLMProvider]: the state of an adapter object. *)
Record Provider : Type := {
  kind : LLMProvider;
  provider_name : string;
  config : Config;
  usage_stats : LLMUsageStats;
  chat_model : option ChatModel
}.

(** The arguments of a generation call.  The adapters accept further
    keyword arguments and ignore them. *)
Record Request : Type := {
  prompt : string;
  system_message : option string;
  temperature : Q;
  max_tokens : option Z
}.

(** [class LLMService] *)
Record LLMService : Type := {
  providers : dict Provider;
  default_provider : string;
  initialized : bool
}.

(** ** Provider adapters *)

Definition set_usage_stats (p : Provider) (st : LLMUsageStats) : Provider :=
  {| kind := kind p; provider_name := provider_name p; config := config p;
     usage_stats := st; chat_model := chat_model p |}.

Definition set_chat_model (p : Provider) (cm : option ChatModel) : Provider :=
  {| kind := kind p; provider_name := provider_name p; config := config p;
     usage_stats := usage_stats p; chat_model := cm |}.

Definition with_temperature (cm : ChatModel) (t : Q) : ChatModel :=
  {| cm_class := cm_class cm; cm_credentials := cm_credentials cm;
     cm_model_name := cm_model_name cm; cm_temperature := t;
     cm_max_tokens := cm_max_tokens cm |}.

Definition with_max_tokens (cm : ChatModel) (n : option Z) : ChatModel :=
  {| cm_class := cm_class cm; cm_credentials := cm_credentials cm;
     cm_model_name := cm_model_name cm; cm_temperature := cm_temperature cm;
     cm_max_tokens := n |}.

Definition with_error_count (st : LLMUsageStats) (n : N) : LLMUsageStats :=
  {| total_requests := total_requests st; total_tokens := total_tokens st;
     total_cost := total_cost st; average_latency := average_latency st;
     error_count := n; last_request := last_request st |}.

Definition record_call (w : World) (c : Call) : World :=
  {| journal := (journal w ++ [c])%list; ticks := ticks w |}.

Definition advance (w : World) : World :=
  {| journal := journal w; ticks := S (ticks w) |}.

(** [BaseLLMProvider.__init__] *)
Definition BaseLLMProvider_new (k : LLMProvider) (name : string) (cfg : Config)
  : Provider :=
  {| kind := k; provider_name := name; config := cfg;
     usage_stats := LLMUsageStats_new; chat_model := None |}.

Definition OpenAIProvider_new (cfg : Config) : Provider :=
  BaseLLMProvider_new OPENAI "openai" cfg.
Definition AzureOpenAIProvider_new (cfg : Config) : Provider :=
  BaseLLMProvider_new AZURE_OPENAI "azure" cfg.
Definition ClaudeProvider_new (cfg : Config) : Provider :=
  BaseLLMProvider_new ANTHROPIC_CLAUDE "claude" cfg.
Definition GeminiProvider_new (cfg : Config) : Provider :=
  BaseLLMProvider_new GOOGLE_GEMINI "gemini" cfg.
Definition OllamaProvider_new (cfg : Config) : Provider :=
  BaseLLMProvider_new OLLAMA "ollama" cfg.

(** The messages the chat adapters send. *)
Definition build_messages (req : Request) : list Message :=
  ((if truthy_opt_str (system_message req)
    then [SystemMessage (get_default (system_message req) "")]
    else []) ++ [HumanMessage (prompt req)])%list.

(** The single prompt the Gemini adapter sends. *)
Definition build_full_prompt (req : Request) : string :=
  if truthy_opt_str (system_message req)
  then get_default (system_message req) "" ++ newline ++ newline ++ prompt req
  else prompt req.

(** [OpenAIProvider._estimate_cost] *)
Definition _estimate_cost (tokens : Z) : Q :=
  let input_cost_per_1k := (3 # 100)%Q in
  let output_cost_per_1k := (6 # 100)%Q in
  ((inject_Z tokens / 1000) * ((input_cost_per_1k + output_cost_per_1k) / 2))%Q.

(** [llm_output["token_usage"].get("total_tokens")] when [llm_output] is
    truthy and has the key, [None] otherwise. *)
Definition reported_tokens (r : LLMResult) : option Z :=
  match llm_output r with
  | Some out =>
      match token_usage out with
      | Some tu => total_tokens_reported tu
      | None => None
      end
  | None => None
  end.

Section Adapters.
Variable env : Env.

(** The state an adapter method runs in: the adapter object and the world
    outside. *)
Definition AState : Type := (Provider * World)%type.

Local Open Scope py_scope.

(** [time.time()] *)
Definition time_time : M AState Q :=
  fun '(p, w) => (Return (clock env (ticks w)), (p, advance w)).

(** [datetime.utcnow()] *)
Definition utcnow : M AState datetime :=
  fun '(p, w) => (Return (clock env (ticks w)), (p, advance w)).

Definition none_has_no (attr : string) : Exception :=
  AttributeError ("'NoneType' object has no attribute '" ++ attr ++ "'").

(** [self.chat_model.temperature = temperature] *)
Definition assign_temperature (t : Q) : M AState unit :=
  fun '(p, w) =>
    match chat_model p with
    | Some cm => (Return tt, (set_chat_model p (Some (with_temperature cm t)), w))
    | None => (Raise (none_has_no "temperature"), (p, w))
    end.

(** [if max_tokens: self.chat_model.max_tokens = max_tokens] *)
Definition assign_max_tokens (n : option Z) : M AState unit :=
  fun '(p, w) =>
    if truthy_opt_Z n then
      match chat_model p with
      | Some cm => (Return tt, (set_chat_model p (Some (with_max_tokens cm n)), w))
      | None => (Raise (none_has_no "max_tokens"), (p, w))
      end
    else (Return tt, (p, w)).

(** [await self.chat_model.apredict(text)] *)
Definition chat_apredict (text : string) : M AState string :=
  fun '(p, w) =>
    match chat_model p with
    | Some cm =>
        let w' := record_call w (APredict cm text) in
        (apredict env (journal w'), (p, w'))
    | None => (Raise (none_has_no "apredict"), (p, w))
    end.

(** [await self.chat_model.agenerate([messages])] *)
Definition chat_agenerate (messages : list Message) : M AState LLMResult :=
  fun '(p, w) =>
    match chat_model p with
    | Some cm =>
        let w' := record_call w (AGenerate cm messages) in
        (agenerate env (journal w'), (p, w'))
    | None => (Raise (none_has_no "agenerate"), (p, w))
    end.

(** [response.generations[0][0].text] *)
Definition first_generation_text (r : LLMResult) : M AState string :=
  match generations r with
  | (g :: _) :: _ => ret (text g)
  | _ => raise (IndexError "list index out of range")
  end.

(** [self.usage_stats.error_count += 1] *)
Definition count_error : M AState unit :=
  fun '(p, w) =>
    let st := usage_stats p in
    (Return tt, (set_usage_stats p (with_error_count st (error_count st + 1)), w)).

(** [BaseLLMProvider.update_usage_stats], on the statistics alone; [now] is
    the reading of [datetime.utcnow()]. *)
Definition updated_stats (st : LLMUsageStats) (response : LLMResponse)
  (now : datetime) : LLMUsageStats :=
  let requests := (total_requests st + 1)%N in
  let tokens :=
    if truthy_opt_Z (tokens_used response)
    then (total_tokens st + get_default (tokens_used response) 0)%Z
    else total_tokens st in
  let spent :=
    if truthy_opt_Q (cost response)
    then (total_cost st + get_default (cost response) 0)%Q
    else total_cost st in
  let average :=
    if truthy_opt_Q (latency response) then
      let total_latency :=
        (average_latency st * inject_Z (Z.of_N requests - 1))%Q in
      ((total_latency + get_default (latency response) 0)
         / inject_Z (Z.of_N requests))%Q
    else average_latency st in
  {| total_requests := requests; total_tokens := tokens; total_cost := spent;
     average_latency := average; error_count := error_count st;
     last_request := Some now |}.

(** [BaseLLMProvider.update_usage_stats] *)
Definition update_usage_stats (response : LLMResponse) : M AState unit :=
  now <- utcnow ;;
  modify (fun '(p, w) => (set_usage_stats p (updated_stats (usage_stats p) response now), w)).

Definition self_config : M AState Config :=
  fun '(p, w) => (Return (config p), (p, w)).

(** *** [generate_text], class by class *)

Definition OpenAIProvider_generate_text (req : Request) : M AState LLMResponse :=
  start_time <- time_time ;;
  try_except
    (let messages := build_messages req in
     assign_temperature (temperature req) ;;;
     assign_max_tokens (max_tokens req) ;;;
     response <- chat_agenerate messages ;;
     content <- first_generation_text response ;;
     now <- time_time ;;
     let latency := (now - start_time)%Q in
     let tokens_used := reported_tokens response in
     let cost :=
       if truthy_opt_Z tokens_used
       then Some (_estimate_cost (get_default tokens_used 0%Z))
       else None in
     cfg <- self_config ;;
     let llm_response :=
       {| content := content;
          provider := "openai";
          model := get_default (cfg_model cfg) "gpt-4-turbo-preview";
          tokens_used := tokens_used;
          cost := cost;
          latency := Some latency;
          metadata := llm_output response |} in
     update_usage_stats llm_response ;;;
     ret llm_response)
    (fun e => count_error ;;; raise e).

Definition AzureOpenAIProvider_generate_text (req : Request) : M AState LLMResponse :=
  start_time <- time_time ;;
  try_except
    (let messages := build_messages req in
     assign_temperature (temperature req) ;;;
     assign_max_tokens (max_tokens req) ;;;
     response <- chat_agenerate messages ;;
     content <- first_generation_text response ;;
     now <- time_time ;;
     let latency := (now - start_time)%Q in
     let tokens_used := reported_tokens response in
     cfg <- self_config ;;
     let llm_response :=
       {| content := content;
          provider := "azure";
          model := get_default (cfg_deployment_name cfg) "gpt-4";
          tokens_used := tokens_used;
          cost := None;
          latency := Some latency;
          metadata := llm_output response |} in
     update_usage_stats llm_response ;;;
     ret llm_response)
    (fun e => count_error ;;; raise e).

Definition ClaudeProvider_generate_text (req : Request) : M AState LLMResponse :=
  start_time <- time_time ;;
  try_except
    (let messages := build_messages req in
     assign_temperature (temperature req) ;;;
     assign_max_tokens (max_tokens req) ;;;
     response <- chat_agenerate messages ;;
     content <- first_generation_text response ;;
     now <- time_time ;;
     let latency := (now - start_time)%Q in
     cfg <- self_config ;;
     let llm_response :=
       {| content := content;
          provider := "claude";
          model := get_default (cfg_model cfg) "claude-3-sonnet";
          tokens_used := None;
          cost := None;
          latency := Some latency;
          metadata := llm_output response |} in
     update_usage_stats llm_response ;;;
     ret llm_response)
    (fun e => count_error ;;; raise e).

Definition GeminiProvider_generate_text (req : Request) : M AState LLMResponse :=
  start_time <- time_time ;;
  try_except
    (let full_prompt := build_full_prompt req in
     assign_temperature (temperature req) ;;;
     response <- chat_apredict full_prompt ;;
     now <- time_time ;;
     let latency := (now - start_time)%Q in
     cfg <- self_config ;;
     let llm_response :=
       {| content := response;
          provider := "gemini";
          model := get_default (cfg_model cfg) "gemini-pro";
          tokens_used := None;
          cost := None;
          latency := Some latency;
          metadata := None |} in
     update_usage_stats llm_response ;;;
     ret llm_response)
    (fun e => count_error ;;; raise e).

Definition OllamaProvider_generate_text (req : Request) : M AState LLMResponse :=
  start_time <- time_time ;;
  try_except
    (let messages := build_messages req in
     assign_temperature (temperature req) ;;;
     response <- chat_agenerate messages ;;
     content <- first_generation_text response ;;
     now <- time_time ;;
     let latency := (now - start_time)%Q in
     cfg <- self_config ;;
     let llm_response :=
       {| content := content;
          provider := "ollama";
          model := get_default (cfg_model cfg) "llama2";
          tokens_used := None;
          cost := Some 0%Q;
          latency := Some latency;
          metadata := None |} in
     update_usage_stats llm_response ;;;
     ret llm_response)
    (fun e => count_error ;;; raise e).

(** Method dispatch on the adapter's class. *)
Definition provider_generate_text (req : Request) : M AState LLMResponse :=
  fun '(p, w) =>
    match kind p with
    | OPENAI => OpenAIProvider_generate_text req (p, w)
    | AZURE_OPENAI => AzureOpenAIProvider_generate_text req (p, w)
    | ANTHROPIC_CLAUDE => ClaudeProvider_generate_text req (p, w)
    | GOOGLE_GEMINI => GeminiProvider_generate_text req (p, w)
    | OLLAMA => OllamaProvider_generate_text req (p, w)
    end.

(** *** [generate_streaming], class by class *)

(** [async for token in self.chat_model.astream(messages): yield ...] *)
Definition chat_astream (messages : list Message) : AState -> Stream * AState :=
  fun '(p, w) =>
    match chat_model p with
    | Some cm =>
        let w' := record_call w (AStream cm messages) in
        (astream env (journal w'), (p, w'))
    | None =>
        ({| fragments := []; failure := Some (none_has_no "astream") |}, (p, w))
    end.

(** A generator body that runs [setup], which yields nothing, and then
    yields from [body]. *)
Definition stream_after {A} (setup : M AState A)
  (body : A -> AState -> Stream * AState) : AState -> Stream * AState :=
  fun s =>
    match setup s with
    | (Return a, s') => body a s'
    | (Raise e, s') => ({| fragments := []; failure := Some e |}, s')
    end.

Definition chat_generate_streaming (with_max_tokens : bool) (req : Request)
  : AState -> Stream * AState :=
  stream_after
    (assign_temperature (temperature req) ;;;
     (if with_max_tokens then assign_max_tokens (max_tokens req) else ret tt))
    (fun _ => chat_astream (build_messages req)).

Definition OpenAIProvider_generate_streaming := chat_generate_streaming true.
Definition AzureOpenAIProvider_generate_streaming := chat_generate_streaming true.
Definition ClaudeProvider_generate_streaming := chat_generate_streaming true.
Definition OllamaProvider_generate_streaming := chat_generate_streaming false.

(** The chunks the Gemini adapter yields for a backend answer. *)
Definition chunk_size : nat := 20.

Definition chunks (response : string) : list string :=
  map (fun i => slice response i (i + chunk_size))
      (range3 0 (String.length response) chunk_size).

Definition GeminiProvider_generate_streaming (req : Request)
  : AState -> Stream * AState :=
  stream_after
    (assign_temperature (temperature req) ;;;
     chat_apredict (build_full_prompt req))
    (fun response s => ({| fragments := chunks response; failure := None |}, s)).

Definition provider_generate_streaming (req : Request)
  : AState -> Stream * AState :=
  fun '(p, w) =>
    match kind p with
    | OPENAI => OpenAIProvider_generate_streaming req (p, w)
    | AZURE_OPENAI => AzureOpenAIProvider_generate_streaming req (p, w)
    | ANTHROPIC_CLAUDE => ClaudeProvider_generate_streaming req (p, w)
    | GOOGLE_GEMINI => GeminiProvider_generate_streaming req (p, w)
    | OLLAMA => OllamaProvider_generate_streaming req (p, w)
    end.

(** *** [initialize], class by class

    Each one builds the client, sends the probe ["Hello"] and answers
    [True]; every exception on the way is caught and answered [False]. *)

Definition require_installed (k : LLMProvider) (what : string) : M AState unit :=
  if installed env k then ret tt
  else raise (ImportError (what ++ " package not installed")).

Definition require_field (field : option string) (msg : string) : M AState unit :=
  if truthy_opt_str field then ret tt else raise (ValueError msg).

(** [self.chat_model = cm] *)
Definition assign_chat_model (cm : ChatModel) : M AState unit :=
  modify (fun '(p, w) => (set_chat_model p (Some cm), w)).

Definition default_temperature : Q := (1 # 10)%Q.

Definition OpenAIProvider_initialize : M AState bool :=
  try_except
    (require_installed OPENAI "OpenAI" ;;;
     cfg <- self_config ;;
     require_field (cfg_api_key cfg) "OpenAI API key not provided" ;;;
     assign_chat_model
       {| cm_class := OPENAI;
          cm_credentials := cfg;
          cm_model_name := get_default (cfg_model cfg) "gpt-4-turbo-preview";
          cm_temperature := get_default (cfg_temperature cfg) default_temperature;
          cm_max_tokens := cfg_max_tokens cfg |} ;;;
     _ <- chat_apredict "Hello" ;;
     ret true)
    (fun _ => ret false).

Definition AzureOpenAIProvider_initialize : M AState bool :=
  try_except
    (require_installed AZURE_OPENAI "Azure OpenAI" ;;;
     cfg <- self_config ;;
     require_field (cfg_api_key cfg) "Azure OpenAI api_key not provided" ;;;
     require_field (cfg_endpoint cfg) "Azure OpenAI endpoint not provided" ;;;
     require_field (cfg_deployment_name cfg)
       "Azure OpenAI deployment_name not provided" ;;;
     assign_chat_model
       {| cm_class := AZURE_OPENAI;
          cm_credentials := cfg;
          cm_model_name := get_default (cfg_deployment_name cfg) "";
          cm_temperature := get_default (cfg_temperature cfg) default_temperature;
          cm_max_tokens := None |} ;;;
     _ <- chat_apredict "Hello" ;;
     ret true)
    (fun _ => ret false).

Definition ClaudeProvider_initialize : M AState bool :=
  try_except
    (require_installed ANTHROPIC_CLAUDE "Anthropic" ;;;
     cfg <- self_config ;;
     require_field (cfg_api_key cfg) "Claude API key not provided" ;;;
     assign_chat_model
       {| cm_class := ANTHROPIC_CLAUDE;
          cm_credentials := cfg;
          cm_model_name := get_default (cfg_model cfg) "claude-3-sonnet-20240229";
          cm_temperature := get_default (cfg_temperature cfg) default_temperature;
          cm_max_tokens := Some (get_default (cfg_max_tokens cfg) 4000%Z) |} ;;;
     _ <- chat_apredict "Hello" ;;
     ret true)
    (fun _ => ret false).

Definition GeminiProvider_initialize : M AState bool :=
  try_except
    (require_installed GOOGLE_GEMINI "Google AI" ;;;
     cfg <- self_config ;;
     require_field (cfg_api_key cfg) "Gemini API key not provided" ;;;
     assign_chat_model
       {| cm_class := GOOGLE_GEMINI;
          cm_credentials := cfg;
          cm_model_name := get_default (cfg_model cfg) "gemini-pro";
          cm_temperature := get_default (cfg_temperature cfg) default_temperature;
          cm_max_tokens := None |} ;;;
     _ <- chat_apredict "Hello" ;;
     ret true)
    (fun _ => ret false).

Definition OllamaProvider_initialize : M AState bool :=
  try_except
    (require_installed OLLAMA "Ollama" ;;;
     cfg <- self_config ;;
     assign_chat_model
       {| cm_class := OLLAMA;
          cm_credentials := cfg;
          cm_model_name := get_default (cfg_model cfg) "llama2";
          cm_temperature := get_default (cfg_temperature cfg) default_temperature;
          cm_max_tokens := None |} ;;;
     _ <- chat_apredict "Hello" ;;
     ret true)
    (fun _ => ret false).

Definition provider_initialize : M AState bool :=
  fun '(p, w) =>
    match kind p with
    | OPENAI => OpenAIProvider_initialize (p, w)
    | AZURE_OPENAI => AzureOpenAIProvider_initialize (p, w)
    | ANTHROPIC_CLAUDE => ClaudeProvider_initialize (p, w)
    | GOOGLE_GEMINI => GeminiProvider_initialize (p, w)
    | OLLAMA => OllamaProvider_initialize (p, w)
    end.

End Adapters.

(** ** The regular expression of the extraction fallback

    [re.search(r'\[.*\]', text, re.DOTALL)]: the leftmost match, and at that
    start the longest one, since [.*] is greedy; with [re.DOTALL] the dot
    matches every character, the newline too. *)

Definition lbracket : ascii := "["%char.
Definition rbracket : ascii := "]"%char.

(** [.*\]] anchored at the head of [s]: the longest prefix of [s] that ends
    with a closing bracket. *)
Fixpoint match_dotstar_rbracket (s : list ascii) : option (list ascii) :=
  match s with
  | [] => None
  | c :: r =>
      match match_dotstar_rbracket r with
      | Some m => Some (c :: m)
      | None => if Ascii.eqb c rbracket then Some [c] else None
      end
  end.

(** The whole pattern anchored at the head of [s]. *)
Definition match_here (s : list ascii) : option (list ascii) :=
  match s with
  | c :: r =>
      if Ascii.eqb c lbracket then
        match match_dotstar_rbracket r with
        | Some m => Some (c :: m)
        | None => None
        end
      else None
  | [] => None
  end.

(** The search: the first position where the pattern matches. *)
Fixpoint search_from (s : list ascii) : option (list ascii) :=
  match match_here s with
  | Some m => Some m
  | None =>
      match s with
      | _ :: r => search_from r
      | [] => None
      end
  end.

(** [json_match = re.search(...)]: [json_match.group()] when there is a
    match. *)
Definition re_search_brackets (text : string) : option string :=
  option_map string_of_list_ascii (search_from (list_ascii_of_string text)).

(** ** The service *)

Definition set_providers (svc : LLMService) (d : dict Provider) : LLMService :=
  {| providers := d; default_provider := default_provider svc;
     initialized := initialized svc |}.

Definition set_default_provider (svc : LLMService) (name : string) : LLMService :=
  {| providers := providers svc; default_provider := name;
     initialized := initialized svc |}.

Definition set_initialized (svc : LLMService) (b : bool) : LLMService :=
  {| providers := providers svc; default_provider := default_provider svc;
     initialized := b |}.

(** [provider_classes[provider_name](config)] *)
Definition provider_class (name : LLMProvider) (cfg : Config) : Provider :=
  match name with
  | OPENAI => OpenAIProvider_new cfg
  | AZURE_OPENAI => AzureOpenAIProvider_new cfg
  | ANTHROPIC_CLAUDE => ClaudeProvider_new cfg
  | GOOGLE_GEMINI => GeminiProvider_new cfg
  | OLLAMA => OllamaProvider_new cfg
  end.

Definition not_initialized : Exception :=
  RuntimeError "LLM service not initialized".

Definition not_available (provider_name : string) (available : list string)
  : Exception :=
  ValueError ("Provider '" ++ provider_name ++ "' not available. Available: "
              ++ repr_str_list available).

Definition not_found (provider_name : string) : Exception :=
  ValueError ("Provider '" ++ provider_name ++ "' not found").

Section Service.
Variable env : Env.
Variable settings : Settings.

Local Open Scope py_scope.

(** The state a service method runs in: the service object, which owns the
    registered adapters, and the world outside. *)
Definition SState : Type := (LLMService * World)%type.

(** [LLMService.__init__] *)
Definition LLMService_new : LLMService :=
  {| providers := [];
     default_provider := DEFAULT_LLM_PROVIDER settings;
     initialized := false |}.

(** [Settings.llm_config] (src/config.py): the entry of the selected
    provider, or the empty dictionary. *)
Definition llm_config : Config :=
  let d := DEFAULT_LLM_PROVIDER settings in
  if String.eqb d "openai" then
    {| cfg_api_key := OPENAI_API_KEY settings;
       cfg_model := Some (OPENAI_MODEL settings);
       cfg_temperature := Some (OPENAI_TEMPERATURE settings);
       cfg_max_tokens := None; cfg_endpoint := None;
       cfg_deployment_name := None; cfg_api_version := None;
       cfg_base_url := None |}
  else if String.eqb d "azure" then
    {| cfg_api_key := AZURE_OPENAI_API_KEY settings;
       cfg_model := None; cfg_temperature := None; cfg_max_tokens := None;
       cfg_endpoint := AZURE_OPENAI_ENDPOINT settings;
       cfg_deployment_name := AZURE_OPENAI_DEPLOYMENT_NAME settings;
       cfg_api_version := Some (AZURE_OPENAI_API_VERSION settings);
       cfg_base_url := None |}
  else if String.eqb d "gemini" then
    {| cfg_api_key := GEMINI_API_KEY settings;
       cfg_model := Some (GEMINI_MODEL settings);
       cfg_temperature := None; cfg_max_tokens := None; cfg_endpoint := None;
       cfg_deployment_name := None; cfg_api_version := None;
       cfg_base_url := None |}
  else if String.eqb d "claude" then
    {| cfg_api_key := CLAUDE_API_KEY settings;
       cfg_model := Some (CLAUDE_MODEL settings);
       cfg_temperature := None; cfg_max_tokens := None; cfg_endpoint := None;
       cfg_deployment_name := None; cfg_api_version := None;
       cfg_base_url := None |}
  else if String.eqb d "ollama" then
    {| cfg_api_key := None;
       cfg_model := Some (OLLAMA_MODEL settings);
       cfg_temperature := None; cfg_max_tokens := None; cfg_endpoint := None;
       cfg_deployment_name := None; cfg_api_version := None;
       cfg_base_url := Some (OLLAMA_BASE_URL settings) |}
  else empty_config.

Definition _get_azure_config : option Config :=
  if truthy_opt_str (AZURE_OPENAI_API_KEY settings)
     && truthy_opt_str (AZURE_OPENAI_ENDPOINT settings)
     && truthy_opt_str (AZURE_OPENAI_DEPLOYMENT_NAME settings)
  then Some {| cfg_api_key := AZURE_OPENAI_API_KEY settings;
               cfg_model := None; cfg_temperature := None;
               cfg_max_tokens := None;
               cfg_endpoint := AZURE_OPENAI_ENDPOINT settings;
               cfg_deployment_name := AZURE_OPENAI_DEPLOYMENT_NAME settings;
               cfg_api_version := Some (AZURE_OPENAI_API_VERSION settings);
               cfg_base_url := None |}
  else None.

Definition _get_claude_config : option Config :=
  if truthy_opt_str (CLAUDE_API_KEY settings)
  then Some {| cfg_api_key := CLAUDE_API_KEY settings;
               cfg_model := Some (CLAUDE_MODEL settings);
               cfg_temperature := None; cfg_max_tokens := None;
               cfg_endpoint := None; cfg_deployment_name := None;
               cfg_api_version := None; cfg_base_url := None |}
  else None.

Definition _get_gemini_config : option Config :=
  if truthy_opt_str (GEMINI_API_KEY settings)
  then Some {| cfg_api_key := GEMINI_API_KEY settings;
               cfg_model := Some (GEMINI_MODEL settings);
               cfg_temperature := None; cfg_max_tokens := None;
               cfg_endpoint := None; cfg_deployment_name := None;
               cfg_api_version := None; cfg_base_url := None |}
  else None.

Definition _get_ollama_config : option Config :=
  Some {| cfg_api_key := None;
          cfg_model := Some (OLLAMA_MODEL settings);
          cfg_temperature := None; cfg_max_tokens := None;
          cfg_endpoint := None; cfg_deployment_name := None;
          cfg_api_version := None;
          cfg_base_url := Some (OLLAMA_BASE_URL settings) |}.

(** The dictionary [provider_configs] of [initialize], in its order. *)
Definition provider_configs : list (LLMProvider * option Config) :=
  [ (OPENAI,
     if String.eqb (DEFAULT_LLM_PROVIDER settings) "openai"
     then Some llm_config else None);
    (AZURE_OPENAI, _get_azure_config);
    (ANTHROPIC_CLAUDE, _get_claude_config);
    (GOOGLE_GEMINI, _get_gemini_config);
    (OLLAMA, _get_ollama_config) ].

(** [config and config.get("api_key") or provider_name == LLMProvider.OLLAMA] *)
Definition is_configured (provider_name : LLMProvider) (cfg : option Config)
  : bool :=
  match cfg with
  | Some c => truthy_opt_str (cfg_api_key c)
  | None => false
  end || LLMProvider_eqb provider_name OLLAMA.

(** One turn of the loop of [initialize]: construct the adapter, probe it,
    register it if the probe answers [True].  The result is the new value
    of [initialized_count]. *)
Definition initialize_one (provider_name : LLMProvider) (cfg : option Config)
  (initialized_count : nat) : M SState nat :=
  fun '(svc, w) =>
    if is_configured provider_name cfg then
      match cfg with
      | Some c =>
          let provider := provider_class provider_name c in
          match provider_initialize env (provider, w) with
          | (Return true, (provider', w')) =>
              (Return (initialized_count + 1),
               (set_providers svc
                  (dict_set (providers svc) (value provider_name) provider'),
                w'))
          | (_, (_, w')) => (Return initialized_count, (svc, w'))
          end
      | None =>
          (* the constructor's argument is None: [initialize] raises on
             [self.config.get] and answers False *)
          (Return initialized_count, (svc, w))
      end
    else (Return initialized_count, (svc, w)).

Fixpoint initialize_loop (configs : list (LLMProvider * option Config))
  (initialized_count : nat) : M SState nat :=
  match configs with
  | [] => ret initialized_count
  | (provider_name, cfg) :: rest =>
      n <- initialize_one provider_name cfg initialized_count ;;
      initialize_loop rest n
  end.

(** [LLMService.initialize] *)
Definition initialize : M SState bool :=
  try_except
    (initialized_count <- initialize_loop provider_configs 0 ;;
     if (initialized_count =? 0)%nat then ret false
     else
       svc <- (fun s => (Return (fst s), s)) ;;
       (if dict_mem (providers svc) (default_provider svc) then ret tt
        else
          match keys (providers svc) with
          | first :: _ =>
              modify (fun '(svc, w) => (set_default_provider svc first, w))
          | [] => raise (IndexError "list index out of range")
          end) ;;;
       modify (fun '(svc, w) => (set_initialized svc true, w)) ;;;
       ret true)
    (fun _ => ret false).

(** [await self.providers[name].m(...)]: run an adapter method on the
    registered adapter, which is mutated in place. *)
Definition on_provider {A} (name : string) (m : M AState A) : M SState A :=
  fun '(svc, w) =>
    match dict_get (providers svc) name with
    | Some p =>
        let '(r, (p', w')) := m (p, w) in
        (r, (set_providers svc (dict_set (providers svc) name p'), w'))
    | None => (Raise (KeyError name), (svc, w))
    end.

(** The fallback loop of [generate_text]; [None] when it ran to its end. *)
Fixpoint try_fallbacks (req : Request) (fallback_providers : list string)
  : M SState (option LLMResponse) :=
  match fallback_providers with
  | [] => ret None
  | fallback :: rest =>
      fun s =>
        match on_provider fallback (provider_generate_text env req) s with
        | (Return response, s') => (Return (Some response), s')
        | (Raise fallback_error, s') => try_fallbacks req rest s'
        end
  end.

(** [[p for p in self.providers.keys() if p != provider_name]] *)
Definition fallback_providers (svc : LLMService) (provider_name : string)
  : list string :=
  filter (fun p => negb (String.eqb p provider_name)) (keys (providers svc)).

(** [LLMService.generate_text] *)
Definition generate_text (req : Request) (provider : option string)
  : M SState LLMResponse :=
  fun '(svc, w) =>
    if negb (initialized svc) then (Raise not_initialized, (svc, w))
    else
      let provider_name := py_or provider (default_provider svc) in
      if negb (dict_mem (providers svc) provider_name) then
        (Raise (not_available provider_name (keys (providers svc))), (svc, w))
      else
        try_except
          (on_provider provider_name (provider_generate_text env req))
          (fun e =>
             fun '(svc', w') =>
               if (1 <? List.length (providers svc'))%nat then
                 match try_fallbacks req (fallback_providers svc' provider_name)
                         (svc', w') with
                 | (Return (Some response), s'') => (Return response, s'')
                 | (_, s'') => (Raise e, s'')
                 end
               else (Raise e, (svc', w')))
          (svc, w).

(** [LLMService.generate_streaming]: an async generator; nothing of its
    body runs before the consumer asks for the first fragment. *)
Definition generate_streaming (req : Request) (provider : option string)
  : SState -> Stream * SState :=
  fun '(svc, w) =>
    if negb (initialized svc) then
      ({| fragments := []; failure := Some not_initialized |}, (svc, w))
    else
      let provider_name := py_or provider (default_provider svc) in
      match dict_get (providers svc) provider_name with
      | None =>
          ({| fragments := [];
              failure := Some (not_available provider_name
                                 (keys (providers svc))) |}, (svc, w))
      | Some llm_provider =>
          let '(stream, (p', w')) :=
            provider_generate_streaming env req (llm_provider, w) in
          (stream,
           (set_providers svc (dict_set (providers svc) provider_name p'), w'))
      end.

(** The fixed system message of [generate_user_stories]. *)
Definition quoted (s : string) : string := dquote ++ s ++ dquote.

Definition indented (n : nat) (s : string) : string :=
  string_of_list_ascii (repeat " "%char n) ++ s.

Definition user_stories_system_message : string :=
  String.concat newline
    [ "";
      indented 8 "You are an expert business analyst and product manager. Your task is to generate well-structured user stories from the given requirements.";
      indented 8 "";
      indented 8 "Guidelines:";
      indented 8 ("1. Follow the format: "
                  ++ quoted "As a [type of user], I want [goal] so that [reason]");
      indented 8 "2. Make stories specific, measurable, and testable";
      indented 8 "3. Include acceptance criteria for each story";
      indented 8 "4. Assign appropriate priority levels (High, Medium, Low)";
      indented 8 "5. Estimate story points (1, 2, 3, 5, 8, 13, 21)";
      indented 8 "6. Break down large features into smaller, manageable stories";
      indented 8 "7. Ensure stories are independent and deliverable";
      indented 8 "";
      indented 8 "Return the response as a JSON array of user stories with the following structure:";
      indented 8 "[";
      indented 12 "{";
      indented 16 (quoted "title" ++ ": " ++ quoted "Brief story title" ++ ",");
      indented 16 (quoted "description" ++ ": "
                   ++ quoted "As a [user], I want [goal] so that [reason]" ++ ",");
      indented 16 (quoted "acceptance_criteria" ++ ": [" ++ quoted "Given..."
                   ++ ", " ++ quoted "When..." ++ ", " ++ quoted "Then..." ++ "],");
      indented 16 (quoted "priority" ++ ": " ++ quoted "High|Medium|Low" ++ ",");
      indented 16 (quoted "story_points" ++ ": 1-21,");
      indented 16 (quoted "labels" ++ ": [" ++ quoted "feature" ++ ", "
                   ++ quoted "enhancement" ++ ", etc.],");
      indented 16 (quoted "epic" ++ ": " ++ quoted "Epic name if applicable");
      indented 12 "}";
      indented 8 "]";
      indented 8 "" ].

(** [project_preferences or {}] *)
Definition preferences_or_empty (project_preferences : option (list (string * JSON)))
  : JSON :=
  match project_preferences with
  | Some (kv :: d) => JDict (kv :: d)
  | _ => JDict []
  end.

(** The prompt of [generate_user_stories]; [json_dumps env] stands for
    [json.dumps(., indent=2)]. *)
Definition user_stories_prompt (requirements : string) (context : option string)
  (project_preferences : option (list (string * JSON))) : string :=
  String.concat newline
    [ "";
      indented 8 "Requirements:";
      indented 8 requirements;
      indented 8 "";
      indented 8 (if truthy_opt_str context
                  then "Additional Context: " ++ get_default context ""
                  else "");
      indented 8 "";
      indented 8 "Project Preferences:";
      indented 8 (json_dumps env (preferences_or_empty project_preferences));
      indented 8 "";
      indented 8 "Generate user stories based on these requirements.";
      indented 8 "" ].

(** [len(user_stories)], evaluated for the log line. *)
Definition py_len (v : JSON) : Result nat :=
  match v with
  | JList l => Return (List.length l)
  | JDict d => Return (List.length d)
  | JStr s => Return (String.length s)
  | JNull => Raise (TypeError "object of type 'NoneType' has no len()")
  | JBool _ => Raise (TypeError "object of type 'bool' has no len()")
  | JInt _ => Raise (TypeError "object of type 'int' has no len()")
  | JFloat _ => Raise (TypeError "object of type 'float' has no len()")
  end.

Definition decode_error : Exception := JSONDecodeError "Expecting value".

(** The two parsing stages of [generate_user_stories], applied to the text
    of the response. *)
Definition parse_user_stories (text : string) : Result JSON :=
  match json_loads env text with
  | Some user_stories =>
      match py_len user_stories with
      | Return _ => Return user_stories
      | Raise e => Raise e
      end
  | None =>
      (* except json.JSONDecodeError *)
      match re_search_brackets text with
      | Some group =>
          match json_loads env group with
          | Some user_stories => Return user_stories
          | None => Raise decode_error
          end
      | None => Return (JList [])
      end
  end.

(** [LLMService.generate_user_stories] *)
Definition generate_user_stories (requirements : string)
  (context : option string)
  (project_preferences : option (list (string * JSON)))
  (provider : option string) : M SState JSON :=
  let system_message := user_stories_system_message in
  let prompt := user_stories_prompt requirements context project_preferences in
  try_except
    (response <- generate_text
                   {| prompt := prompt;
                      system_message := Some system_message;
                      temperature := (1 # 10)%Q;
                      max_tokens := Some 4000%Z |} provider ;;
     fun s => (parse_user_stories (content response), s))
    (fun e => raise e).

(** [LLMService.get_available_providers] *)
Definition get_available_providers (svc : LLMService) : list string :=
  keys (providers svc).

(** The two shapes of the dictionary [get_provider_stats] returns. *)
Inductive StatsReport : Type :=
| OneProvider (provider : string) (stats : LLMUsageStats)
| AllProviders (stats : dict LLMUsageStats).

(** [LLMService.get_provider_stats] *)
Definition get_provider_stats (provider : option string) : M SState StatsReport :=
  fun '(svc, w) =>
    if truthy_opt_str provider then
      let name := get_default provider "" in
      match dict_get (providers svc) name with
      | Some p => (Return (OneProvider name (usage_stats p)), (svc, w))
      | None => (Raise (not_found name), (svc, w))
      end
    else
      (Return (AllProviders
                 (map (fun '(provider_name, p) => (provider_name, usage_stats p))
                      (providers svc))), (svc, w)).

(** One entry of the ["providers"] part of a health report. *)
Inductive ProviderHealth : Type :=
| Healthy (latency : Q) (error_count : N) (total_requests : N)
| Unhealthy (error : string) (error_count : N).

Record HealthStatus : Type := {
  hs_initialized : bool;
  hs_default_provider : string;
  hs_providers : dict ProviderHealth
}.

(** The probe of [health_check]: [generate_text("Hello", max_tokens=10)]. *)
Definition probe_request : Request :=
  {| prompt := "Hello"; system_message := None;
     temperature := (1 # 10)%Q; max_tokens := Some 10%Z |}.

(** [time.time()], read by the service. *)
Definition service_time : M SState Q :=
  fun '(svc, w) => (Return (clock env (ticks w)), (svc, advance w)).

Definition stats_of (name : string) : M SState LLMUsageStats :=
  fun '(svc, w) =>
    match dict_get (providers svc) name with
    | Some p => (Return (usage_stats p), (svc, w))
    | None => (Raise (KeyError name), (svc, w))
    end.

(** The body of the loop of [health_check] for one registered adapter. *)
Definition health_probe (provider_name : string) : M SState ProviderHealth :=
  try_except
    (start_time <- service_time ;;
     _ <- on_provider provider_name (provider_generate_text env probe_request) ;;
     now <- service_time ;;
     let latency := (now - start_time)%Q in
     st <- stats_of provider_name ;;
     ret (Healthy latency (error_count st) (total_requests st)))
    (fun e =>
       st <- stats_of provider_name ;;
       ret (Unhealthy (exc_str e) (error_count st))).

Fixpoint health_loop (names : list string) (report : dict ProviderHealth)
  : M SState (dict ProviderHealth) :=
  match names with
  | [] => ret report
  | provider_name :: rest =>
      h <- health_probe provider_name ;;
      health_loop rest (dict_set report provider_name h)
  end.

(** [LLMService.health_check] *)
Definition health_check : M SState HealthStatus :=
  fun '(svc, w) =>
    (report <- health_loop (keys (providers svc)) [] ;;
     ret {| hs_initialized := initialized svc;
            hs_default_provider := default_provider svc;
            hs_providers := report |}) (svc, w).

(** [LLMService.close] *)
Definition close : M SState unit :=
  modify (fun '(svc, w) => (set_initialized (set_providers svc []) false, w)).

End Service.

(** ** The extraction fallback as the specification words it

    "Scan for the first balanced [[...]] span": from an opening bracket,
    count the depth up on every opening and down on every closing bracket;
    the span ends where the depth returns to zero.  The scan starts at the
    first opening bracket that has such an end. *)

(** The balanced span that starts before [s], [depth] brackets being open. *)
Fixpoint balanced_prefix (s : list ascii) (depth : nat) : option (list ascii) :=
  match s with
  | [] => None
  | c :: r =>
      if Ascii.eqb c lbracket then
        option_map (cons c) (balanced_prefix r (S depth))
      else if Ascii.eqb c rbracket then
        match depth with
        | O => Some [c]
        | S d => option_map (cons c) (balanced_prefix r d)
        end
      else option_map (cons c) (balanced_prefix r depth)
  end.

Fixpoint first_balanced_from (s : list ascii) : option (list ascii) :=
  match s with
  | [] => None
  | c :: r =>
      if Ascii.eqb c lbracket then
        match balanced_prefix r 0 with
        | Some m => Some (c :: m)
        | None => first_balanced_from r
        end
      else first_balanced_from r
  end.

Definition first_balanced_span (text : string) : option string :=
  option_map string_of_list_ascii (first_balanced_from (list_ascii_of_string text)).

(** ** Concrete environments, to run the service *)

Module Fixture.

(** Single quotes stand for double quotes in the texts below. *)
Definition dq (s : string) : string :=
  string_of_list_ascii
    (map (fun c => if Ascii.eqb c "'"%char then "034"%char else c)
         (list_ascii_of_string s)).

Definition call_class (c : Call) : LLMProvider :=
  match c with
  | APredict cm _ | AGenerate cm _ | AStream cm _ => cm_class cm
  end.

Definition last_class (j : list Call) : LLMProvider :=
  match rev j with c :: _ => call_class c | [] => OLLAMA end.

Definition is_probe (j : list Call) : bool :=
  match rev j with
  | APredict _ p :: _ => String.eqb p "Hello"
  | _ => false
  end.

Definition down_error (k : LLMProvider) : Exception :=
  ClientError (value k ++ " is down").

(** Backends that answer by class: the classes in [down] fail every
    generation call, those in [unreachable] fail the start-up probe too;
    the others answer [answer k], and report 1200 tokens where the client
    reports usage.  The clock advances by a quarter of a second per
    reading. *)
Definition scripted (unreachable down : LLMProvider -> bool)
  (answer : LLMProvider -> string) : Env :=
  {| installed := fun _ => true;
     apredict := fun j =>
       let k := last_class j in
       if is_probe j then
         if unreachable k then Raise (down_error k) else Return "Hi"
       else if down k then Raise (down_error k) else Return (answer k);
     agenerate := fun j =>
       let k := last_class j in
       if down k then Raise (down_error k)
       else Return {| generations := [[ {| text := answer k |} ]];
                      llm_output :=
                        Some {| token_usage :=
                                  Some {| total_tokens_reported := Some 1200%Z |} |} |};
     astream := fun j =>
       let k := last_class j in
       if down k then {| fragments := []; failure := Some (down_error k) |}
       else {| fragments := [answer k]; failure := None |};
     clock := fun n => (Z.of_nat n # 4)%Q;
     json_loads := json.loads;
     json_dumps := fun _ => "{}" |}.

(** The same backends behind a clock that stands still. *)
Definition frozen (e : Env) : Env :=
  {| installed := installed e; apredict := apredict e;
     agenerate := agenerate e; astream := astream e;
     clock := fun _ => 100%Q;
     json_loads := json_loads e; json_dumps := json_dumps e |}.

Definition nobody (_ : LLMProvider) : bool := false.
Definition everybody (_ : LLMProvider) : bool := true.
Definition only (k : LLMProvider) (k' : LLMProvider) : bool := LLMProvider_eqb k k'.
Definition all_but (k : LLMProvider) (k' : LLMProvider) : bool :=
  negb (LLMProvider_eqb k k').

Definition says (k : LLMProvider) : string := "from " ++ value k.

(** Settings with credentials for Azure, Claude and Gemini, and [default]
    as the configured default provider. *)
Definition three_keys (default : string) : Settings :=
  {| DEFAULT_LLM_PROVIDER := default;
     OPENAI_API_KEY := None;
     OPENAI_MODEL := "gpt-4-turbo-preview";
     OPENAI_TEMPERATURE := (1 # 10)%Q;
     AZURE_OPENAI_API_KEY := Some "az-key";
     AZURE_OPENAI_ENDPOINT := Some "https://example.invalid";
     AZURE_OPENAI_DEPLOYMENT_NAME := Some "gpt-4-deployment";
     AZURE_OPENAI_API_VERSION := "2024-02-15-preview";
     GEMINI_API_KEY := Some "g-key";
     GEMINI_MODEL := "gemini-pro";
     CLAUDE_API_KEY := Some "c-key";
     CLAUDE_MODEL := "claude-3-sonnet-20240229";
     OLLAMA_BASE_URL := "http://localhost:11434";
     OLLAMA_MODEL := "llama2" |}.

Definition hello : Request :=
  {| prompt := "Hi there"; system_message := Some "Be brief";
     temperature := (1 # 10)%Q; max_tokens := None |}.

(** The service after [initialize] in environment [e]. *)
Definition started (e : Env) (s : Settings) : SState :=
  snd (initialize e s (LLMService_new s, World_new)).

End Fixture.

(** ** One adapter call, in closed form

    What a [generate_text] call of an adapter of class [k] amounts to: the
    client it leaves in [self.chat_model], the round trip it makes, how it
    reads the backend's answer and the response it builds. *)

Definition client_for (k : LLMProvider) (cm : ChatModel) (req : Request)
  : ChatModel :=
  let cm1 := with_temperature cm (temperature req) in
  match k with
  | OPENAI | AZURE_OPENAI | ANTHROPIC_CLAUDE =>
      if truthy_opt_Z (max_tokens req)
      then with_max_tokens cm1 (max_tokens req) else cm1
  | GOOGLE_GEMINI | OLLAMA => cm1
  end.

Definition call_for (k : LLMProvider) (cm : ChatModel) (req : Request) : Call :=
  match k with
  | GOOGLE_GEMINI => APredict (client_for k cm req) (build_full_prompt req)
  | _ => AGenerate (client_for k cm req) (build_messages req)
  end.

(** The text of the answer and, for the chat clients, the result it was
    taken from. *)
Definition backend_answer (env : Env) (k : LLMProvider) (j : list Call)
  : Result (string * option LLMResult) :=
  match k with
  | GOOGLE_GEMINI =>
      match apredict env j with
      | Return s => Return (s, None)
      | Raise e => Raise e
      end
  | _ =>
      match agenerate env j with
      | Return res =>
          match generations res with
          | (g :: _) :: _ => Return (text g, Some res)
          | _ => Raise (IndexError "list index out of range")
          end
      | Raise e => Raise e
      end
  end.

(** The model identifier an adapter writes into its responses. *)
Definition model_id (k : LLMProvider) (cfg : Config) : string :=
  match k with
  | OPENAI => get_default (cfg_model cfg) "gpt-4-turbo-preview"
  | AZURE_OPENAI => get_default (cfg_deployment_name cfg) "gpt-4"
  | ANTHROPIC_CLAUDE => get_default (cfg_model cfg) "claude-3-sonnet"
  | GOOGLE_GEMINI => get_default (cfg_model cfg) "gemini-pro"
  | OLLAMA => get_default (cfg_model cfg) "llama2"
  end.

Definition response_for (k : LLMProvider) (cfg : Config) (content : string)
  (res : option LLMResult) (latency : Q) : LLMResponse :=
  let reported :=
    match res with Some r => reported_tokens r | None => None end in
  let output :=
    match res with Some r => llm_output r | None => None end in
  {| content := content;
     provider := value k;
     model := model_id k cfg;
     tokens_used :=
       match k with OPENAI | AZURE_OPENAI => reported | _ => None end;
     cost :=
       match k with
       | OPENAI =>
           if truthy_opt_Z reported
           then Some (_estimate_cost (get_default reported 0%Z)) else None
       | OLLAMA => Some 0%Q
       | _ => None
       end;
     latency := Some latency;
     metadata :=
       match k with
       | OPENAI | AZURE_OPENAI | ANTHROPIC_CLAUDE => output
       | _ => None
       end |}.

Definition failed_once (st : LLMUsageStats) : LLMUsageStats :=
  with_error_count st (error_count st + 1).

Definition generate_text_closed (env : Env) (req : Request) (p : Provider)
  (w : World) : Result LLMResponse * AState :=
  match chat_model p with
  | None =>
      (Raise (none_has_no "temperature"),
       (set_usage_stats p (failed_once (usage_stats p)), advance w))
  | Some cm =>
      let p1 := set_chat_model p (Some (client_for (kind p) cm req)) in
      let w1 := record_call (advance w) (call_for (kind p) cm req) in
      match backend_answer env (kind p) (journal w1) with
      | Raise e =>
          (Raise e, (set_usage_stats p1 (failed_once (usage_stats p)), w1))
      | Return (content, res) =>
          let latency := (clock env (ticks w1) - clock env (ticks w))%Q in
          let r := response_for (kind p) (config p) content res latency in
          (Return r,
           (set_usage_stats p1
              (updated_stats (usage_stats p) r (clock env (S (ticks w1)))),
            advance (advance w1)))
      end
  end.

(** More of the concrete runs used below. *)
Module Runs.
Import Fixture.

(** Azure, Claude and Gemini answer the start-up probe; afterwards Azure
    and Claude are down. *)
Definition env_two_down : Env :=
  scripted (only OLLAMA)
    (fun k => only AZURE_OPENAI k || only ANTHROPIC_CLAUDE k) says.

(** The same start; afterwards every backend is down. *)
Definition env_all_down : Env := scripted (only OLLAMA) everybody says.

(** Only Gemini answers the start-up probe; it stays up. *)
Definition env_gemini_only : Env := scripted (all_but GOOGLE_GEMINI) nobody says.

(** No backend answers the start-up probe. *)
Definition env_dark : Env := scripted everybody everybody says.

Definition svc3 : SState := started env_two_down (three_keys "openai").

Definition adapter (name : string) (s : SState) : Provider :=
  match dict_get (providers (fst s)) name with
  | Some p => p
  | None => OllamaProvider_new empty_config
  end.

End Runs.

(** ** Vocabulary for the statements about failover *)

(** [await self.providers[name].generate_text(...)]: one call on the
    adapter registered under [name], with the request [req]. *)
Definition attempt (env : Env) (req : Request) (name : string)
  : M SState LLMResponse :=
  on_provider name (provider_generate_text env req).

(** [all_fail env req names s s']: called one after the other from state
    [s], each with the request [req], the adapters [names] all raise, and
    leave the state [s']. *)
Inductive all_fail (env : Env) (req : Request)
  : list string -> SState -> SState -> Prop :=
| all_fail_nil : forall s, all_fail env req [] s s
| all_fail_cons : forall name names s e s1 s2,
    attempt env req name s = (Raise e, s1) ->
    all_fail env req names s1 s2 ->
    all_fail env req (name :: names) s s2.

(** Every adapter is registered under the identifier of its class, as
    [initialize] registers them. *)
Definition registry_wf (d : dict Provider) : Prop :=
  forall name p, dict_get d name = Some p -> value (kind p) = name.

(** ** Vocabulary for the statements about initialization *)

(** The adapters a run of [initialize] constructs and probes, in order,
    each with what its [initialize()] answered; the run starts in the world
    [w]. *)
Fixpoint probe_outcomes (env : Env)
  (configs : list (LLMProvider * option Config)) (w : World)
  : list (LLMProvider * bool) :=
  match configs with
  | [] => []
  | (provider_name, cfg) :: rest =>
      if is_configured provider_name cfg then
        match cfg with
        | Some c =>
            let '(r, (_, w')) :=
              provider_initialize env (provider_class provider_name c, w) in
            (provider_name, match r with Return true => true | _ => false end)
              :: probe_outcomes env rest w'
        | None => (provider_name, false) :: probe_outcomes env rest w
        end
      else probe_outcomes env rest w
  end.

(** The adapters whose probe answered [True]. *)
Definition survivors (env : Env) (settings : Settings) (w : World)
  : list LLMProvider :=
  map fst (filter snd (probe_outcomes env (provider_configs settings) w)).

(** The order in which [initialize] goes through the providers. *)
Definition registration_order : list string :=
  ["openai"; "azure"; "claude"; "gemini"; "ollama"].

(** ** Vocabulary for the statements about the extraction fallback *)

(** [group] is the part of [text] from its first opening bracket to its
    last closing bracket. *)
Definition spans_first_to_last (text group : string) : Prop :=
  exists pre inner post,
    list_ascii_of_string text
    = (pre ++ list_ascii_of_string group ++ post)%list
    /\ list_ascii_of_string group = (lbracket :: inner ++ [rbracket])%list
    /\ ~ In lbracket pre
    /\ ~ In rbracket post.

(** [text] has no opening bracket with a closing bracket after it. *)
Definition no_bracketed_span (text : string) : Prop :=
  forall pre inner post,
    list_ascii_of_string text
    <> (pre ++ (lbracket :: inner ++ [rbracket]) ++ post)%list.

Module Extraction.
Import Fixture.

(** A model answer with two arrays in it. *)
Definition two_arrays : string :=
  dq "[{'title':'A'}] and, as an alternative, [{'title':'B'}]".

(** A model answer with a bracket and no JSON in it. *)
Definition apology : string :=
  "I need more details [about the users] before I can write stories.".

(** A service with the Gemini adapter alone, which answers [text] to every
    generation call. *)
Definition answering (text : string) : Env :=
  scripted (all_but GOOGLE_GEMINI) nobody (fun _ => text).

Definition ready (text : string) : SState :=
  started (answering text) (three_keys "gemini").

End Extraction.

(** ** Vocabulary for the statements about health checks *)

(** The running average [update_usage_stats] computes once the request
    count has been raised to [requests]. *)
Definition running_mean (average : Q) (requests : N) (latency : Q) : Q :=
  ((average * inject_Z (Z.of_N requests - 1) + latency)
     / inject_Z (Z.of_N requests))%Q.

(** The number of [generate_text] calls an adapter has accounted for. *)
Definition calls_made (st : LLMUsageStats) : N :=
  (total_requests st + error_count st)%N.


Module Stalling.
Import Fixture.

(** Gemini alone is registered and answers; the clock reads 0 once and a
    quarter of a second ever after. *)
Definition env : Env :=
  let e := scripted (all_but GOOGLE_GEMINI) nobody says in
  {| installed := installed e; apredict := apredict e;
     agenerate := agenerate e; astream := astream e;
     clock := fun n => match n with O => 0%Q | S _ => (1 # 4)%Q end;
     json_loads := json_loads e; json_dumps := json_dumps e |}.

(** The service after start-up and one answered request. *)
Definition after_one_request : SState :=
  snd (generate_text env hello None (started env (three_keys "gemini"))).

End Stalling.

(** ** Vocabulary for further statements *)

(** The client a round trip went through. *)
Definition call_client (c : Call) : ChatModel :=
  match c with
  | APredict cm _ | AGenerate cm _ | AStream cm _ => cm
  end.

(** The adapters that assign [max_tokens] to their client. *)
Definition caps_tokens (k : LLMProvider) : bool :=
  match k with
  | OPENAI | AZURE_OPENAI | ANTHROPIC_CLAUDE => true
  | GOOGLE_GEMINI | OLLAMA => false
  end.

(** The client an adapter of class [k] constructs in [initialize]. *)
Definition client_new (k : LLMProvider) (cfg : Config) : ChatModel :=
  {| cm_class := k;
     cm_credentials := cfg;
     cm_model_name :=
       match k with
       | OPENAI => get_default (cfg_model cfg) "gpt-4-turbo-preview"
       | AZURE_OPENAI => get_default (cfg_deployment_name cfg) ""
       | ANTHROPIC_CLAUDE => get_default (cfg_model cfg) "claude-3-sonnet-20240229"
       | GOOGLE_GEMINI => get_default (cfg_model cfg) "gemini-pro"
       | OLLAMA => get_default (cfg_model cfg) "llama2"
       end;
     cm_temperature := get_default (cfg_temperature cfg) default_temperature;
     cm_max_tokens :=
       match k with
       | OPENAI => cfg_max_tokens cfg
       | ANTHROPIC_CLAUDE => Some (get_default (cfg_max_tokens cfg) 4000%Z)
       | _ => None
       end |}.

(** The fields an adapter of class [k] insists on before it builds its
    client. *)
Definition has_required_fields (k : LLMProvider) (cfg : Config) : bool :=
  match k with
  | OPENAI | ANTHROPIC_CLAUDE | GOOGLE_GEMINI => truthy_opt_str (cfg_api_key cfg)
  | AZURE_OPENAI =>
      truthy_opt_str (cfg_api_key cfg) && truthy_opt_str (cfg_endpoint cfg)
      && truthy_opt_str (cfg_deployment_name cfg)
  | OLLAMA => true
  end.

(** An adapter as [initialize] registers it under [name]: of the class
    with that identifier, its statistics at zero, its client built. *)
Definition registered_fresh (name : string) (p : Provider) : Prop :=
  value (kind p) = name
  /\ usage_stats p = LLMUsageStats_new
  /\ chat_model p = Some (client_new (kind p) (config p)).

Module OpenAIFirst.
Import Fixture.

(** Settings with an OpenAI key and OpenAI as the configured default. *)
Definition settings : Settings :=
  {| DEFAULT_LLM_PROVIDER := "openai";
     OPENAI_API_KEY := Some "sk-key";
     OPENAI_MODEL := "gpt-4-turbo-preview";
     OPENAI_TEMPERATURE := (1 # 10)%Q;
     AZURE_OPENAI_API_KEY := None;
     AZURE_OPENAI_ENDPOINT := None;
     AZURE_OPENAI_DEPLOYMENT_NAME := None;
     AZURE_OPENAI_API_VERSION := "2024-02-15-preview";
     GEMINI_API_KEY := Some "g-key";
     GEMINI_MODEL := "gemini-pro";
     CLAUDE_API_KEY := None;
     CLAUDE_MODEL := "claude-3-sonnet-20240229";
     OLLAMA_BASE_URL := "http://localhost:11434";
     OLLAMA_MODEL := "llama2" |}.

(** Every backend answers, the local Ollama server too. *)
Definition env : Env := scripted nobody nobody says.

Definition ready : SState := started env settings.

End OpenAIFirst.

(** The usage statistics of every registered adapter, as
    [get_provider_stats()] lists them. *)
Definition stats_snapshot (svc : LLMService) : dict LLMUsageStats :=
  map (fun kp => (fst kp, usage_stats (snd kp))) (providers svc).

(** The number of round trips made so far. *)
Definition round_trips (s : SState) : nat := List.length (journal (snd s)).

Module Restart.
Import Fixture.

(** The configured default is Gemini.  At first Gemini's backend does not
    answer the probe, Azure's and Claude's do. *)
Definition before : Env := scripted (fun k => only GOOGLE_GEMINI k || only OLLAMA k) nobody says.

(** Later every backend but Ollama's answers. *)
Definition after : Env := scripted (only OLLAMA) nobody says.

Definition first_start : SState := started before (three_keys "gemini").

End Restart.

Module Shapes.
Import Fixture.

(** A model answer that is a JSON object, not an array. *)
Definition an_object : string := dq "{'stories': []}".

(** A model answer that is an array cut short and closed by hand. *)
Definition a_broken_array : string := dq "[{'title': 'A', 'labels': ]".

End Shapes.

(** * Properties *)

(** ** Dictionaries *)

Section DictFacts.
Context {V : Type}.
Implicit Types (d : dict V) (k : string) (v : V).

Lemma dict_get_set_same d k v : dict_get (dict_set d k v) k = Some v.
Proof.
  induction d as [|[k' v'] d IH]; simpl.
  - now rewrite String.eqb_refl.
  - destruct (String.eqb k' k) eqn:E; simpl; rewrite E; auto.
Qed.

Lemma dict_get_set_other d k k' v :
  k <> k' -> dict_get (dict_set d k v) k' = dict_get d k'.
Proof.
  intros Hne. induction d as [|[k0 v0] d IH]; simpl.
  - destruct (String.eqb_spec k k'); congruence.
  - destruct (String.eqb_spec k0 k) as [->|Hk]; simpl.
    + destruct (String.eqb_spec k k'); congruence.
    + destruct (String.eqb_spec k0 k'); auto.
Qed.

Lemma keys_set_present d k v :
  dict_mem d k = true -> keys (dict_set d k v) = keys d.
Proof.
  unfold dict_mem. induction d as [|[k0 v0] d IH]; simpl; [discriminate|].
  destruct (String.eqb_spec k0 k) as [->|Hk]; simpl; auto.
  intros H. now rewrite IH.
Qed.

Lemma keys_set_absent d k v :
  dict_mem d k = false -> keys (dict_set d k v) = (keys d ++ [k])%list.
Proof.
  unfold dict_mem. induction d as [|[k0 v0] d IH]; simpl; auto.
  destruct (String.eqb_spec k0 k) as [->|Hk]; simpl; [discriminate|].
  intros H. now rewrite IH.
Qed.

Lemma dict_mem_In d k : dict_mem d k = true <-> In k (keys d).
Proof.
  unfold dict_mem. induction d as [|[k0 v0] d IH]; simpl.
  - split; [discriminate | tauto].
  - destruct (String.eqb_spec k0 k) as [->|Hk].
    + split; auto.
    + rewrite IH. split; [auto | intros [?|?]; congruence].
Qed.

Lemma dict_mem_get d k :
  dict_mem d k = true <-> exists v, dict_get d k = Some v.
Proof.
  unfold dict_mem. destruct (dict_get d k).
  - split; eauto.
  - split; [discriminate | intros [? ?]; discriminate].
Qed.

Lemma dict_set_length_present d k v :
  dict_mem d k = true -> List.length (dict_set d k v) = List.length d.
Proof.
  intros H. rewrite <- (length_map fst (dict_set d k v)), <- (length_map fst d).
  change (List.length (keys (dict_set d k v)) = List.length (keys d)).
  now rewrite keys_set_present.
Qed.

Lemma dict_mem_set d k k' v :
  dict_mem (dict_set d k v) k' = String.eqb k k' || dict_mem d k'.
Proof.
  unfold dict_mem. destruct (String.eqb_spec k k') as [->|Hne].
  - now rewrite dict_get_set_same.
  - now rewrite dict_get_set_other.
Qed.

End DictFacts.

(** ** Strings and chunks *)

Lemma substring_as_list (s : string) (i n : nat) :
  list_ascii_of_string (substring i n s)
  = firstn n (skipn i (list_ascii_of_string s)).
Proof.
  revert i n. induction s as [|c s IH]; intros i n.
  - destruct i, n; reflexivity.
  - destruct i as [|i]; simpl.
    + destruct n as [|n]; simpl; [reflexivity|]. now rewrite IH.
    + apply IH.
Qed.

Lemma list_ascii_of_string_app (a b : string) :
  list_ascii_of_string (a ++ b)
  = (list_ascii_of_string a ++ list_ascii_of_string b)%list.
Proof. induction a as [|c a IH]; simpl; [reflexivity | now rewrite IH]. Qed.

Lemma list_ascii_of_concat (l : list string) :
  list_ascii_of_string (String.concat "" l)
  = List.concat (map list_ascii_of_string l).
Proof.
  induction l as [|a l IH]; [reflexivity|].
  destruct l as [|b l].
  - simpl. now rewrite app_nil_r.
  - change (String.concat "" (a :: b :: l))
      with (a ++ "" ++ String.concat "" (b :: l)).
    rewrite !list_ascii_of_string_app, IH. reflexivity.
Qed.

Lemma length_as_list (s : string) :
  String.length s = List.length (list_ascii_of_string s).
Proof. induction s; simpl; auto. Qed.

(** Cutting a list into [m] pieces of [n] items and gluing them again. *)
Lemma concat_pieces {A} (n m : nat) (l : list A) :
  List.length l <= m * n ->
  List.concat (map (fun k => firstn n (skipn (k * n) l)) (seq 0 m)) = l.
Proof.
  revert l. induction m as [|m IH]; intros l Hlen.
  - simpl in *. destruct l; [reflexivity | simpl in Hlen; lia].
  - rewrite <- cons_seq, <- seq_shift. cbn [map List.concat].
    rewrite map_map. change (0 * n) with 0. cbn [skipn].
    transitivity (firstn n l ++ skipn n l)%list; [|apply firstn_skipn].
    f_equal. rewrite <- (IH (skipn n l)).
    + f_equal. apply map_ext. intros k.
      rewrite skipn_skipn. f_equal. f_equal. simpl. lia.
    + rewrite length_skipn. simpl in Hlen. lia.
Qed.

Lemma chunks_concat (response : string) :
  String.concat "" (chunks response) = response.
Proof.
  rewrite <- (string_of_list_ascii_of_string (String.concat "" (chunks response))).
  rewrite <- (string_of_list_ascii_of_string response) at 2.
  f_equal. rewrite list_ascii_of_concat.
  unfold chunks, range3, slice. rewrite !map_map.
  rewrite (map_ext _ (fun k => firstn chunk_size
                          (skipn (k * chunk_size) (list_ascii_of_string response)))).
  - apply concat_pieces. rewrite <- length_as_list.
    unfold chunk_size.
    pose proof (Nat.div_mod_eq (String.length response - 0 + 20 - 1) 20) as E.
    assert (H : (String.length response - 0 + 20 - 1) mod 20 < 20)
      by (apply Nat.mod_upper_bound; discriminate).
    revert E H.
    generalize ((String.length response - 0 + 20 - 1) / 20).
    generalize ((String.length response - 0 + 20 - 1) mod 20).
    intros r q E H. lia.
  - intros k. rewrite substring_as_list. unfold chunk_size.
    replace (0 + k * 20 + 20 - (0 + k * 20)) with 20 by lia.
    reflexivity.
Qed.

(** ** One adapter call *)

Section AdapterFacts.
Variable env : Env.

Ltac run_adapter :=
  unfold OpenAIProvider_generate_text, AzureOpenAIProvider_generate_text,
    ClaudeProvider_generate_text, GeminiProvider_generate_text,
    OllamaProvider_generate_text, update_usage_stats, utcnow, time_time,
    assign_temperature, assign_max_tokens, chat_agenerate, chat_apredict,
    first_generation_text, count_error, self_config, try_except, bind, ret,
    raise, modify;
  cbn -[updated_stats Qminus].

Ltac split_adapter :=
  match goal with
  | |- context [truthy_opt_Z (max_tokens ?req)] =>
      destruct (truthy_opt_Z (max_tokens req))
  | |- context [agenerate ?e ?j] => destruct (agenerate e j) as [?res|?e]
  | |- context [apredict ?e ?j] => destruct (apredict e j) as [?res|?e]
  | |- context [generations ?r] =>
      destruct (generations r) as [|[|? ?] ?]
  end.

Lemma provider_generate_text_closed req p w :
  provider_generate_text env req (p, w) = generate_text_closed env req p w.
Proof.
  unfold provider_generate_text, generate_text_closed.
  destruct p as [k name cfg st cm]; cbn [kind chat_model usage_stats config].
  destruct k, cm as [cm|]; run_adapter; try reflexivity;
    repeat (split_adapter; cbn -[updated_stats Qminus]); reflexivity.
Qed.
Lemma adapter_failure req p w e p' w' :
  provider_generate_text env req (p, w) = (Raise e, (p', w')) ->
  usage_stats p' = failed_once (usage_stats p)
  /\ kind p' = kind p /\ provider_name p' = provider_name p
  /\ config p' = config p.
Proof.
  rewrite provider_generate_text_closed. unfold generate_text_closed.
  destruct (chat_model p) as [cm|].
  - destruct (backend_answer env (kind p) _) as [[c res]|e0]; [discriminate|].
    intros H. inversion H; subst. now destruct p.
  - intros H. inversion H; subst. now destruct p.
Qed.

Lemma adapter_success req p w r p' w' :
  provider_generate_text env req (p, w) = (Return r, (p', w')) ->
  usage_stats p'
  = updated_stats (usage_stats p) r (clock env (S (S (ticks w))))
  /\ provider r = value (kind p)
  /\ model r = model_id (kind p) (config p)
  /\ latency r = Some (clock env (S (ticks w)) - clock env (ticks w))%Q
  /\ kind p' = kind p /\ provider_name p' = provider_name p
  /\ config p' = config p.
Proof.
  rewrite provider_generate_text_closed. unfold generate_text_closed.
  destruct (chat_model p) as [cm|]; [|discriminate].
  destruct (backend_answer env (kind p) _) as [[c res]|e0]; [|discriminate].
  intros H. inversion H; subst. now destruct p.
Qed.

End AdapterFacts.

(** ** Usage statistics of a failing call (C7) *)

(** C7. Whenever the [generate_text] of an adapter, of whichever class,
    raises, the adapter's usage statistics differ from what they were
    before the call in [error_count] alone, which is one higher;
    [total_requests], [total_tokens], [total_cost], [average_latency] and
    [last_request] are what they were. *)
Theorem failing_call_changes_error_count_only
  (env : Env) (req : Request) (p : Provider) (w : World)
  (e : Exception) (p' : Provider) (w' : World) :
  provider_generate_text env req (p, w) = (Raise e, (p', w')) ->
  error_count (usage_stats p') = (error_count (usage_stats p) + 1)%N
  /\ total_requests (usage_stats p') = total_requests (usage_stats p)
  /\ total_tokens (usage_stats p') = total_tokens (usage_stats p)
  /\ total_cost (usage_stats p') = total_cost (usage_stats p)
  /\ average_latency (usage_stats p') = average_latency (usage_stats p)
  /\ last_request (usage_stats p') = last_request (usage_stats p).
Proof.
  intros H. apply adapter_failure in H as (-> & _).
  repeat split.
Qed.

(** The Azure adapter of a started service, its backend down. *)
Lemma failing_call_changes_error_count_only_witness :
  let s := Runs.svc3 in
  let p := Runs.adapter "azure" s in
  let out := provider_generate_text Runs.env_two_down Fixture.hello (p, snd s) in
  fst out = Raise (Fixture.down_error AZURE_OPENAI)
  /\ error_count (usage_stats (fst (snd out))) = 1%N
  /\ total_requests (usage_stats (fst (snd out))) = 0%N.
Proof.
  intros s p out.
  destruct (failing_call_changes_error_count_only
              Runs.env_two_down Fixture.hello p (snd s)
              (Fixture.down_error AZURE_OPENAI) (fst (snd out)) (snd (snd out)))
    as (He & Hr & _).
  - vm_compute. reflexivity.
  - split; [vm_compute; reflexivity|]. split.
    + rewrite He. reflexivity.
    + rewrite Hr. reflexivity.
Defined.


(** ** Streaming in chunks (C8) *)

(** C8. The fragments the Gemini adapter yields for a backend answer are
    the answer cut into pieces of 20 characters: glued together in the
    order of emission they give the answer back, whatever the answer.  The
    stream of [GeminiProvider.generate_streaming] consists of exactly these
    fragments when the backend answers, and of no fragment, ending in the
    backend's exception, when it does not. *)
Theorem gemini_stream_reassembles :
  (forall response : string,
      String.concat "" (chunks response) = response)
  /\ (forall (env : Env) (req : Request) (p : Provider) (w : World),
        let stream := fst (GeminiProvider_generate_streaming env req (p, w)) in
        match chat_model p with
        | Some cm =>
            let sent := APredict (with_temperature cm (temperature req))
                          (build_full_prompt req) in
            match apredict env (journal w ++ [sent])%list with
            | Return response =>
                failure stream = None
                /\ String.concat "" (fragments stream) = response
            | Raise e => failure stream = Some e /\ fragments stream = []
            end
        | None => failure stream <> None /\ fragments stream = []
        end).
Proof.
  split; [exact chunks_concat|].
  intros env req p w.
  unfold GeminiProvider_generate_streaming, stream_after, bind,
    assign_temperature, chat_apredict.
  destruct (chat_model p) as [cm|] eqn:Hcm.
  - cbn. destruct (apredict env _) as [response|e]; cbn.
    + split; [reflexivity | apply chunks_concat].
    + split; reflexivity.
  - cbn. split; [discriminate | reflexivity].
Qed.

(** ** Calls on registered adapters *)

Section ServiceFacts.
Variable env : Env.

Lemma attempt_registered req name svc w p :
  dict_get (providers svc) name = Some p ->
  attempt env req name (svc, w)
  = let '(r, (p', w')) := provider_generate_text env req (p, w) in
    (r, (set_providers svc (dict_set (providers svc) name p'), w')).
Proof. intros H. unfold attempt, on_provider. now rewrite H. Qed.

(** A call on a registered adapter leaves the registry's keys, the default
    provider and the ready flag as they were. *)
Lemma attempt_frame req name s r s' :
  dict_mem (providers (fst s)) name = true ->
  attempt env req name s = (r, s') ->
  keys (providers (fst s')) = keys (providers (fst s))
  /\ default_provider (fst s') = default_provider (fst s)
  /\ initialized (fst s') = initialized (fst s).
Proof.
  destruct s as [svc w]. cbn [fst]. intros Hmem.
  destruct (proj1 (dict_mem_get _ _) Hmem) as [p Hp].
  rewrite (attempt_registered _ _ _ _ _ Hp).
  destruct (provider_generate_text env req (p, w)) as [r0 [p' w']].
  intros H. inversion H; subst. cbn.
  split; [now apply keys_set_present | split; reflexivity].
Qed.

Lemma attempt_other req name s r s' other :
  other <> name ->
  attempt env req name s = (r, s') ->
  dict_get (providers (fst s')) other = dict_get (providers (fst s)) other.
Proof.
  destruct s as [svc w]. intros Hne. unfold attempt, on_provider.
  destruct (dict_get (providers svc) name) as [p|].
  - destruct (provider_generate_text env req (p, w)) as [r0 [p' w']].
    intros H. inversion H; subst. cbn.
    apply dict_get_set_other. congruence.
  - intros H. now inversion H.
Qed.

Lemma attempt_wf req name s r s' :
  registry_wf (providers (fst s)) ->
  attempt env req name s = (r, s') ->
  registry_wf (providers (fst s')).
Proof.
  destruct s as [svc w]. cbn [fst]. intros Hwf. unfold attempt, on_provider.
  destruct (dict_get (providers svc) name) as [p|] eqn:Hp.
  - destruct (provider_generate_text env req (p, w)) as [r0 [p' w']] eqn:Hrun.
    intros H. inversion H; subst. cbn. clear H.
    assert (Hk : kind p' = kind p).
    { destruct r; [apply adapter_success in Hrun | apply adapter_failure in Hrun];
        tauto. }
    intros n q. destruct (String.eqb_spec name n) as [->|Hne].
    + rewrite dict_get_set_same. intros [= <-]. rewrite Hk. eauto.
    + rewrite dict_get_set_other by assumption. apply Hwf.
  - intros H. now inversion H.
Qed.

Lemma all_fail_frame req names s s' :
  (forall n, In n names -> dict_mem (providers (fst s)) n = true) ->
  all_fail env req names s s' ->
  keys (providers (fst s')) = keys (providers (fst s))
  /\ default_provider (fst s') = default_provider (fst s)
  /\ initialized (fst s') = initialized (fst s).
Proof.
  intros Hin H. induction H as [s|name names s e s1 s2 Hcall Hrest IH].
  - auto.
  - destruct (attempt_frame _ _ _ _ _ (Hin name (or_introl eq_refl)) Hcall)
      as (Hk & Hd & Hi).
    destruct IH as (Hk' & Hd' & Hi').
    + intros n Hn. apply dict_mem_In. rewrite Hk. apply dict_mem_In.
      apply Hin. now right.
    + repeat split; congruence.
Qed.

Lemma all_fail_wf req names s s' :
  registry_wf (providers (fst s)) ->
  all_fail env req names s s' ->
  registry_wf (providers (fst s')).
Proof.
  intros Hwf H. induction H; eauto using attempt_wf.
Qed.

(** The fallback loop: either some adapter of the list answers, all those
    before it having failed, or all fail. *)
Lemma try_fallbacks_spec req names s :
  (exists pre b post r s2 s',
      names = (pre ++ b :: post)%list
      /\ all_fail env req pre s s2
      /\ attempt env req b s2 = (Return r, s')
      /\ try_fallbacks env req names s = (Return (Some r), s'))
  \/ (exists s',
         all_fail env req names s s'
         /\ try_fallbacks env req names s = (Return None, s')).
Proof.
  revert s. induction names as [|b names IH]; intros s.
  - right. exists s. split; [constructor | reflexivity].
  - cbn [try_fallbacks]. fold (attempt env req b).
    destruct (attempt env req b s) as [[r|e] s1] eqn:Hb.
    + left. exists [], b, names, r, s, s1.
      repeat split; auto. constructor.
    + destruct (IH s1) as [(pre & c & post & r & s2 & s' & -> & Hf & Hc & Ht)
                          |(s' & Hf & Ht)].
      * left. exists (b :: pre), c, post, r, s2, s'.
        repeat split; auto. econstructor; eauto.
      * right. exists s'. split; [econstructor; eauto | assumption].
Qed.

Lemma fallbacks_registered svc target n :
  In n (fallback_providers svc target) ->
  dict_mem (providers svc) n = true /\ n <> target.
Proof.
  unfold fallback_providers. rewrite filter_In, negb_true_iff.
  intros [Hin Hne]. split; [now apply dict_mem_In|].
  now apply String.eqb_neq.
Qed.

Lemma single_registry_no_fallback svc target :
  dict_mem (providers svc) target = true ->
  List.length (providers svc) <= 1 ->
  fallback_providers svc target = [].
Proof.
  unfold fallback_providers, dict_mem, keys.
  destruct (providers svc) as [|[k p] [|? ?]]; cbn; try discriminate; try lia.
  destruct (String.eqb_spec k target); [reflexivity | discriminate].
Qed.

(** [generate_text] once the target adapter has raised. *)
Lemma generate_text_after_failure req provider svc w e s1 :
  initialized svc = true ->
  dict_mem (providers svc) (py_or provider (default_provider svc)) = true ->
  attempt env req (py_or provider (default_provider svc)) (svc, w)
  = (Raise e, s1) ->
  generate_text env req provider (svc, w)
  = if (1 <? List.length (providers svc))%nat then
      match try_fallbacks env req
              (fallback_providers svc (py_or provider (default_provider svc)))
              s1 with
      | (Return (Some response), s'') => (Return response, s'')
      | (_, s'') => (Raise e, s'')
      end
    else (Raise e, s1).
Proof.
  intros Hi Hm Ha. unfold generate_text. rewrite Hi, Hm. cbn [negb].
  unfold try_except. fold (attempt env req (py_or provider (default_provider svc))).
  rewrite Ha. destruct s1 as [svc1 w1].
  destruct (attempt_frame req _ (svc, w) _ _ Hm Ha) as (Hk & _).
  cbn [fst] in Hk.
  unfold fallback_providers. rewrite Hk.
  replace (List.length (providers svc1)) with (List.length (providers svc)).
  - reflexivity.
  - rewrite <- (length_map fst (providers svc)), <- (length_map fst (providers svc1)).
    unfold keys in Hk. now rewrite Hk.
Qed.

End ServiceFacts.

(** ** Failover (C1) *)

Lemma failover_cases
  (env : Env) (req : Request) (provider : option string)
  (svc : LLMService) (w : World) (e : Exception) (s1 : SState) :
  initialized svc = true ->
  dict_mem (providers svc) (py_or provider (default_provider svc)) = true ->
  attempt env req (py_or provider (default_provider svc)) (svc, w)
  = (Raise e, s1) ->
  (exists pre b post r s2 s',
      fallback_providers svc (py_or provider (default_provider svc))
      = (pre ++ b :: post)%list
      /\ all_fail env req pre s1 s2
      /\ attempt env req b s2 = (Return r, s')
      /\ generate_text env req provider (svc, w) = (Return r, s'))
  \/ (exists s',
         all_fail env req
           (fallback_providers svc (py_or provider (default_provider svc)))
           s1 s'
         /\ generate_text env req provider (svc, w) = (Raise e, s')).
Proof.
  intros Hi Hm Ha.
  pose proof (generate_text_after_failure env req provider svc w e s1 Hi Hm Ha)
    as Hg.
  set (target := py_or provider (default_provider svc)) in *.
  set (others := fallback_providers svc target) in *.
  destruct (Nat.ltb_spec 1 (List.length (providers svc))) as [Hlt|Hle].
  - destruct (try_fallbacks_spec env req others s1)
      as [(pre & b & post & r & s2 & s' & Ho & Hf & Hb & Ht)|(s' & Hf & Ht)].
    + left. exists pre, b, post, r, s2, s'. rewrite Hg, Ht. auto.
    + right. exists s'. rewrite Hg, Ht. auto.
  - right. exists s1. split; [|assumption].
    unfold others. rewrite (single_registry_no_fallback svc target Hm Hle).
    constructor.
Qed.

(** The fallback list is the registry's list of keys with the target taken
    out, the order kept. *)
Lemma fallback_providers_split svc target before after :
  keys (providers svc) = (before ++ target :: after)%list ->
  ~ In target before ->
  ~ In target after ->
  fallback_providers svc target = (before ++ after)%list.
Proof.
  intros Hkeys Hb Ha. unfold fallback_providers. rewrite Hkeys.
  assert (Hkeep : forall l, ~ In target l ->
            filter (fun p => negb (String.eqb p target)) l = l).
  { induction l as [|k l IH]; cbn; [reflexivity|]. intros Hn.
    destruct (String.eqb_spec k target) as [->|Hne]; cbn.
    - exfalso. apply Hn. now left.
    - rewrite IH; [reflexivity|]. intros Hin. apply Hn. now right. }
  rewrite filter_app. cbn [filter]. rewrite String.eqb_refl. cbn [negb].
  now rewrite (Hkeep before Hb), (Hkeep after Ha).
Qed.

(** C1. Let a ready service resolve a [generate_text] call to the
    registered adapter [target], let [before] and [after] be the keys of
    the registry that come before and after [target], and let the target
    raise [e], leaving the state [s1].  Then the other registered
    adapters, which are [before ++ after] in the order of the registry,
    are called one after the other, each with the same request, until one
    answers, and its response is returned; if every one of them raises,
    the call raises [e], the error of the target, not an error of a
    fallback.  With a single registered adapter there is no other adapter
    to call: the call raises [e] in the very state the target left. *)
Theorem failover_retries_in_registry_order
  (env : Env) (req : Request) (provider : option string)
  (svc : LLMService) (w : World) (e : Exception) (s1 : SState)
  (before after : list string) :
  let target := py_or provider (default_provider svc) in
  let others := (before ++ after)%list in
  initialized svc = true ->
  NoDup (keys (providers svc)) ->
  keys (providers svc) = (before ++ target :: after)%list ->
  attempt env req target (svc, w) = (Raise e, s1) ->
  ((exists pre b post r s2 s',
       others = (pre ++ b :: post)%list
       /\ all_fail env req pre s1 s2
       /\ attempt env req b s2 = (Return r, s')
       /\ generate_text env req provider (svc, w) = (Return r, s'))
   \/ (exists s',
          all_fail env req others s1 s'
          /\ generate_text env req provider (svc, w) = (Raise e, s')))
  /\ (List.length (providers svc) = 1 ->
      others = []
      /\ generate_text env req provider (svc, w) = (Raise e, s1)).
Proof.
  intros target others Hi Hnd Hkeys Ha.
  assert (Hm : dict_mem (providers svc) target = true).
  { apply dict_mem_In. rewrite Hkeys. apply in_or_app. right. now left. }
  assert (Hsplit : fallback_providers svc target = others).
  { rewrite Hkeys in Hnd.
    apply (fallback_providers_split svc target before after Hkeys).
    - intros Hin. apply NoDup_remove_2 in Hnd. apply Hnd.
      apply in_or_app. now left.
    - intros Hin. apply NoDup_remove_2 in Hnd. apply Hnd.
      apply in_or_app. now right. }
  split.
  - rewrite <- Hsplit.
    exact (failover_cases env req provider svc w e s1 Hi Hm Ha).
  - intros Hlen. split.
    + rewrite <- Hsplit.
      apply single_registry_no_fallback; [assumption | lia].
    + rewrite (generate_text_after_failure env req provider svc w e s1 Hi Hm Ha),
        Hlen.
      reflexivity.
Qed.

(** Azure, Claude and Gemini are registered, in this order; the call goes
    to Azure, the default, whose backend is down: the others are Claude
    and Gemini, in this order. *)
Lemma failover_retries_in_registry_order_witness :
  let env := Runs.env_two_down in
  let req := Fixture.hello in
  let svc := fst Runs.svc3 in
  let w := snd Runs.svc3 in
  let e := Fixture.down_error AZURE_OPENAI in
  let s1 := snd (attempt env req "azure" (svc, w)) in
  let others := ([] ++ ["claude"; "gemini"])%list in
  keys (providers svc) = ["azure"; "claude"; "gemini"]
  /\ ((exists pre b post r s2 s',
          others = (pre ++ b :: post)%list
          /\ all_fail env req pre s1 s2
          /\ attempt env req b s2 = (Return r, s')
          /\ generate_text env req None (svc, w) = (Return r, s'))
      \/ (exists s',
             all_fail env req others s1 s'
             /\ generate_text env req None (svc, w) = (Raise e, s')))
  /\ (List.length (providers svc) = 1 ->
      others = []
      /\ generate_text env req None (svc, w) = (Raise e, s1)).
Proof.
  intros env req svc w e s1 others.
  split; [vm_compute; reflexivity|].
  apply (failover_retries_in_registry_order env req None svc w e s1
           [] ["claude"; "gemini"]).
  - vm_compute. reflexivity.
  - vm_compute. repeat constructor; cbn; intuition discriminate.
  - vm_compute. reflexivity.
  - vm_compute. reflexivity.
Defined.

(** A fails, B fails, C answers: the content returned is C's. *)
Example failover_reaches_the_third :
  keys (providers (fst Runs.svc3)) = ["azure"; "claude"; "gemini"]
  /\ default_provider (fst Runs.svc3) = "azure"
  /\ option_map content
       (match fst (generate_text Runs.env_two_down Fixture.hello None Runs.svc3)
        with Return r => Some r | Raise _ => None end)
     = Some "from gemini".
Proof. vm_compute. repeat split. Qed.

(** A, B and C all fail: the error is A's. *)
Example failover_exhausted_raises_the_first :
  fst (generate_text Runs.env_all_down Fixture.hello None Runs.svc3)
  = Raise (Fixture.down_error AZURE_OPENAI).
Proof. vm_compute. reflexivity. Qed.

(** A single registered adapter that fails is called once: the journal
    grows by one call. *)
Example single_adapter_is_called_once :
  let s := Fixture.started Runs.env_gemini_only (Fixture.three_keys "gemini") in
  let out := generate_text Runs.env_dark Fixture.hello None s in
  keys (providers (fst s)) = ["gemini"]
  /\ fst out = Raise (Fixture.down_error GOOGLE_GEMINI)
  /\ List.length (journal (snd (snd out))) = S (List.length (journal (snd s))).
Proof. vm_compute. repeat split. Qed.

(** ** The response names the adapter that produced it (C9) *)

Lemma attempt_success_names env req name s r s' :
  registry_wf (providers (fst s)) ->
  attempt env req name s = (Return r, s') ->
  exists p,
    dict_get (providers (fst s)) name = Some p
    /\ provider r = name
    /\ model r = model_id (kind p) (config p).
Proof.
  destruct s as [svc w]. cbn [fst]. intros Hwf. unfold attempt, on_provider.
  destruct (dict_get (providers svc) name) as [p|] eqn:Hp; [|discriminate].
  destruct (provider_generate_text env req (p, w)) as [r0 [p' w']] eqn:Hrun.
  intros H. inversion H; subst. clear H.
  apply adapter_success in Hrun as (_ & Hprov & Hmodel & _).
  exists p. rewrite Hprov, (Hwf _ _ Hp). auto.
Qed.

(** C9. In a registry that holds every adapter under the identifier of its
    class, a response returned by [generate_text] was produced by a call
    on some registered adapter [name], and its [provider] field is [name]
    and its [model] field that adapter's model.  That adapter is the
    resolved target, or else the target raised and [name] is one of the
    other registered adapters: the response then carries the fallback's
    identifier, which differs from the target's. *)
Theorem response_names_its_producer
  (env : Env) (req : Request) (requested : option string)
  (svc : LLMService) (w : World) (r : LLMResponse) (s' : SState) :
  let target := py_or requested (default_provider svc) in
  registry_wf (providers svc) ->
  generate_text env req requested (svc, w) = (Return r, s') ->
  exists name p s0,
    attempt env req name s0 = (Return r, s')
    /\ dict_get (providers (fst s0)) name = Some p
    /\ provider r = name
    /\ model r = model_id (kind p) (config p)
    /\ ((name = target /\ s0 = (svc, w))
        \/ (exists e s1,
               attempt env req target (svc, w) = (Raise e, s1)
               /\ In name (fallback_providers svc target)
               /\ provider r <> target)).
Proof.
  intros target Hwf Hg.
  assert (Hi : initialized svc = true).
  { unfold generate_text in Hg. destruct (initialized svc); [reflexivity|].
    discriminate. }
  assert (Hm : dict_mem (providers svc) target = true).
  { unfold generate_text in Hg. rewrite Hi in Hg. cbn [negb] in Hg.
    fold target in Hg.
    destruct (dict_mem (providers svc) target); [reflexivity | discriminate]. }
  destruct (attempt env req target (svc, w)) as [[r0|e] s1] eqn:Ha.
  - (* the target answered *)
    assert (Hret : generate_text env req requested (svc, w) = (Return r0, s1)).
    { unfold generate_text. rewrite Hi. cbn [negb]. fold target. rewrite Hm.
      cbn [negb]. unfold try_except. fold (attempt env req target).
      now rewrite Ha. }
    rewrite Hret in Hg. inversion Hg; subst r0 s1. clear Hg.
    destruct (attempt_success_names env req target (svc, w) r s' Hwf Ha)
      as (p & Hp & Hprov & Hmodel).
    exists target, p, (svc, w). auto 10.
  - (* the target raised *)
    destruct (failover_cases env req requested svc w e s1
                Hi Hm Ha)
      as [(pre & b & post & r1 & s2 & s3 & Ho & Hf & Hb & Hg1)|(s3 & _ & Hg1)];
      fold target in Hg1; rewrite Hg1 in Hg; [|discriminate].
    inversion Hg; subst r1 s3. clear Hg.
    assert (Hin : In b (fallback_providers svc target)).
    { fold target in Ho. rewrite Ho. apply in_or_app. right. now left. }
    assert (Hwf2 : registry_wf (providers (fst s2))).
    { eapply all_fail_wf; [|exact Hf].
      eapply attempt_wf; [|exact Ha]. exact Hwf. }
    destruct (attempt_success_names env req b s2 r s' Hwf2 Hb)
      as (p & Hp & Hprov & Hmodel).
    exists b, p, s2. repeat split; auto.
    right. exists e, s1. repeat split; auto.
    rewrite Hprov. now apply (fallbacks_registered svc target b).
Qed.

Lemma registry_wf_check (d : dict Provider) :
  forallb (fun kp => String.eqb (value (kind (snd kp))) (fst kp)) d = true ->
  registry_wf d.
Proof.
  induction d as [|[k p] d IH]; intros H name q; cbn in *.
  - discriminate.
  - apply andb_prop in H as [Hk Hd].
    destruct (String.eqb_spec k name) as [<-|Hne].
    + intros [= <-]. now apply String.eqb_eq.
    + now apply IH.
Qed.

(** The call goes to Azure, which is down, as is Claude: Gemini answers. *)
Lemma response_names_its_producer_witness :
  let env := Runs.env_two_down in
  let req := Fixture.hello in
  let svc := fst Runs.svc3 in
  let w := snd Runs.svc3 in
  let target := py_or None (default_provider svc) in
  let out := generate_text env req None (svc, w) in
  let r := match fst out with
           | Return r => r
           | Raise _ => response_for GOOGLE_GEMINI empty_config "" None 0%Q
           end in
  let s' := snd out in
  content r = "from gemini" /\
  exists name p s0,
    attempt env req name s0 = (Return r, s')
    /\ dict_get (providers (fst s0)) name = Some p
    /\ provider r = name
    /\ model r = model_id (kind p) (config p)
    /\ ((name = target /\ s0 = (svc, w))
        \/ (exists e s1,
               attempt env req target (svc, w) = (Raise e, s1)
               /\ In name (fallback_providers svc target)
               /\ provider r <> target)).
Proof.
  intros env req svc w target out r s'.
  split; [vm_compute; reflexivity|].
  apply (response_names_its_producer env req None svc w r s').
  - apply registry_wf_check. vm_compute. reflexivity.
  - vm_compute. reflexivity.
Defined.

(** ** Initialization (C5, C6) *)

Section InitializeFacts.
Variable env : Env.

Lemma provider_initialize_kind p w r p' w' :
  provider_initialize env (p, w) = (r, (p', w')) -> kind p' = kind p.
Proof.
  unfold provider_initialize.
  destruct p as [k name cfg st cm]; cbn [kind].
  destruct k;
    unfold OpenAIProvider_initialize, AzureOpenAIProvider_initialize,
      ClaudeProvider_initialize, GeminiProvider_initialize,
      OllamaProvider_initialize, try_except, bind, require_installed,
      require_field, self_config, assign_chat_model, chat_apredict, modify,
      ret, raise;
    cbn;
    repeat match goal with
           | |- context [if ?b then _ else _] => destruct b; cbn
           | |- context [apredict ?e ?j] => destruct (apredict e j); cbn
           end;
    intros H; inversion H; reflexivity.
Qed.

Lemma provider_class_kind k c : kind (provider_class k c) = k.
Proof. now destruct k. Qed.

Lemma value_injective a b : value a = value b -> a = b.
Proof. destruct a, b; cbn; congruence. Qed.

(** The loop of [initialize], over configurations of distinct providers
    none of which is registered yet: it registers, in order, exactly the
    adapters whose probe answered [True], and counts them. *)
Lemma initialize_loop_spec configs :
  NoDup (map (fun c => value (fst c)) configs) ->
  forall n svc w,
    (forall c, In c configs -> dict_mem (providers svc) (value (fst c)) = false) ->
    let alive := map fst (filter snd (probe_outcomes env configs w)) in
    exists svc' w',
      initialize_loop env configs n (svc, w)
      = (Return (n + List.length alive), (svc', w'))
      /\ keys (providers svc') = (keys (providers svc) ++ map value alive)%list
      /\ default_provider svc' = default_provider svc
      /\ initialized svc' = initialized svc.
Proof.
  induction configs as [|[k cfg] rest IH]; intros Hnd n svc w Hfresh.
  - exists svc, w. cbn. rewrite Nat.add_0_r, app_nil_r. auto.
  - cbn [map fst] in Hnd. apply NoDup_cons_iff in Hnd as [Hk Hnd].
    cbn [initialize_loop probe_outcomes]. unfold bind, initialize_one.
    destruct (is_configured k cfg) eqn:Hc.
    + destruct cfg as [c|].
      * destruct (provider_initialize env (provider_class k c, w))
          as [r [p' w1]] eqn:Hp.
        assert (Hskip :
                  forall svc1,
                    providers svc1 = providers svc ->
                    forall c0, In c0 rest ->
                      dict_mem (providers svc1) (value (fst c0)) = false).
        { intros svc1 E c0 Hin. rewrite E. apply Hfresh. now right. }
        destruct r as [[|]|e].
        -- (* the probe answered True *)
           destruct (IH Hnd (n + 1)
                       (set_providers svc (dict_set (providers svc) (value k) p'))
                       w1) as (svc' & w' & Hrun & Hkeys & Hd & Hi).
           { intros c0 Hin. cbn. rewrite dict_mem_set.
             rewrite (Hfresh c0 (or_intror Hin)), orb_false_r.
             apply String.eqb_neq. intros E. apply Hk.
             rewrite E. now apply (in_map (fun c => value (fst c))). }
           exists svc', w'. cbn. rewrite Hrun. split; [do 2 f_equal; lia|].
           rewrite Hkeys. cbn [providers set_providers].
           rewrite keys_set_absent by (apply (Hfresh (k, Some c)); now left).
           rewrite <- app_assoc. auto.
        -- destruct (IH Hnd n svc w1 (Hskip svc eq_refl))
             as (svc' & w' & Hrun & Hkeys & Hd & Hi).
           exists svc', w'. cbn. rewrite Hrun. auto.
        -- destruct (IH Hnd n svc w1 (Hskip svc eq_refl))
             as (svc' & w' & Hrun & Hkeys & Hd & Hi).
           exists svc', w'. cbn. rewrite Hrun. auto.
      * destruct (IH Hnd n svc w) as (svc' & w' & Hrun & Hkeys & Hd & Hi).
        { intros c0 Hin. apply Hfresh. now right. }
        exists svc', w'. cbn. rewrite Hrun. auto.
    + destruct (IH Hnd n svc w) as (svc' & w' & Hrun & Hkeys & Hd & Hi).
      { intros c0 Hin. apply Hfresh. now right. }
      exists svc', w'. rewrite Hrun. auto.
Qed.

Variable settings : Settings.

Lemma provider_configs_distinct :
  NoDup (map (fun c => value (fst c)) (provider_configs settings)).
Proof.
  cbn. repeat constructor; cbn; intuition discriminate.
Qed.

(** [initialize] on a service whose registry is empty. *)
Lemma initialize_spec svc w :
  providers svc = [] ->
  let alive := survivors env settings w in
  exists svc' w',
    initialize env settings (svc, w)
    = (Return (negb (List.length alive =? 0)%nat), (svc', w'))
    /\ keys (providers svc') = map value alive
    /\ initialized svc'
       = (if (List.length alive =? 0)%nat then initialized svc else true)
    /\ default_provider svc'
       = (if (List.length alive =? 0)%nat then default_provider svc
          else if dict_mem (providers svc') (default_provider svc)
               then default_provider svc
               else hd (default_provider svc) (map value alive)).
Proof.
  intros Hempty alive.
  destruct (initialize_loop_spec (provider_configs settings)
              provider_configs_distinct 0 svc w)
    as (svc1 & w1 & Hrun & Hkeys & Hd & Hi).
  { intros c _. now rewrite Hempty. }
  fold (survivors env settings w) in Hrun, Hkeys. fold alive in Hrun, Hkeys.
  rewrite Hempty in Hkeys. cbn [keys map app] in Hkeys.
  fold (keys (providers svc1)) in Hkeys. clearbody alive.
  unfold initialize, try_except, bind. rewrite Hrun. cbn [Nat.add].
  destruct (List.length alive =? 0)%nat eqn:Hlen.
  - exists svc1, w1. cbn. auto.
  - cbn. destruct (dict_mem (providers svc1) (default_provider svc1)) eqn:Hmem.
    + cbn. eexists _, _. split; [reflexivity|]. cbn.
      rewrite <- Hd, Hmem. auto.
    + destruct (keys (providers svc1)) as [|first others] eqn:Ha.
      { destruct alive; [discriminate Hlen | discriminate Hkeys]. }
      cbn. eexists _, _. split; [reflexivity|]. cbn.
      rewrite <- Hd, Hmem, <- Hkeys. auto.
Qed.

End InitializeFacts.

(** ** Health checks *)

Section HealthFacts.
Variable env : Env.

(** The probe of one registered adapter, in closed form. *)
Lemma health_probe_registered name svc w p :
  dict_get (providers svc) name = Some p ->
  health_probe env name (svc, w)
  = let '(r, (p', w1)) :=
      provider_generate_text env probe_request (p, advance w) in
    let svc' := set_providers svc (dict_set (providers svc) name p') in
    match r with
    | Return _ =>
        (Return (Healthy (clock env (ticks w1) - clock env (ticks w))%Q
                   (error_count (usage_stats p'))
                   (total_requests (usage_stats p'))),
         (svc', advance w1))
    | Raise e =>
        (Return (Unhealthy (exc_str e) (error_count (usage_stats p'))),
         (svc', w1))
    end.
Proof.
  intros Hp. unfold health_probe, try_except, bind, service_time, on_provider.
  cbn [advance journal ticks providers]. rewrite Hp.
  destruct (provider_generate_text env probe_request (p, advance w))
    as [[r|e] [p' w1]]; unfold stats_of; cbn;
    rewrite dict_get_set_same; reflexivity.
Qed.

(** A probe never raises, and touches no adapter but its own. *)
Lemma health_probe_frame name s :
  dict_mem (providers (fst s)) name = true ->
  exists h s',
    health_probe env name s = (Return h, s')
    /\ keys (providers (fst s')) = keys (providers (fst s))
    /\ (forall other, other <> name ->
          dict_get (providers (fst s')) other
          = dict_get (providers (fst s)) other).
Proof.
  destruct s as [svc w]. cbn [fst]. intros Hmem.
  destruct (proj1 (dict_mem_get _ _) Hmem) as [p Hp].
  rewrite (health_probe_registered name svc w p Hp).
  destruct (provider_generate_text env probe_request (p, advance w))
    as [[r|e] [p' w1]]; eexists _, _; (split; [reflexivity|]); cbn;
    (split; [now apply keys_set_present|]);
    intros other Hne; apply dict_get_set_other; congruence.
Qed.

Lemma health_loop_returns names :
  forall report s,
    (forall n, In n names -> dict_mem (providers (fst s)) n = true) ->
    exists report' s',
      health_loop env names report s = (Return report', s')
      /\ keys (providers (fst s')) = keys (providers (fst s)).
Proof.
  induction names as [|name names IH]; intros report s Hin.
  - exists report, s. auto.
  - cbn [health_loop]. unfold bind.
    destruct (health_probe_frame name s (Hin name (or_introl eq_refl)))
      as (h & s1 & Hprobe & Hkeys & _).
    rewrite Hprobe.
    destruct (IH (dict_set report name h) s1) as (report' & s' & Hrun & Hk').
    + intros n Hn. apply dict_mem_In. rewrite Hkeys. apply dict_mem_In.
      apply Hin. now right.
    + exists report', s'. split; [assumption | congruence].
Qed.

(** [health_check] always returns, and reports the ready flag and the
    default provider of the service as they stand. *)
Lemma health_check_returns svc w :
  exists report s',
    health_check env (svc, w) = (Return report, s')
    /\ hs_initialized report = initialized svc
    /\ hs_default_provider report = default_provider svc.
Proof.
  unfold health_check, bind.
  destruct (health_loop_returns (keys (providers svc)) [] (svc, w))
    as (report & s' & Hrun & _).
  - intros n Hn. now apply dict_mem_In.
  - rewrite Hrun. eexists _, _. split; [reflexivity|]. cbn. auto.
Qed.

End HealthFacts.

Lemma probe_outcomes_names env configs :
  forall w k b,
    In (k, b) (probe_outcomes env configs w) -> In k (map fst configs).
Proof.
  induction configs as [|[k0 cfg] rest IH]; intros w k b;
    cbn [probe_outcomes map fst In]; [tauto|].
  destruct (is_configured k0 cfg).
  - destruct cfg as [c|].
    + destruct (provider_initialize env (provider_class k0 c, w))
        as [r [p' w1]].
      cbn. intros [E|Hin]; [inversion E; auto | eauto].
    + cbn. intros [E|Hin]; [inversion E; auto | eauto].
  - eauto.
Qed.

Lemma probe_outcomes_functional env configs :
  NoDup (map fst configs) ->
  forall w k,
    In (k, true) (probe_outcomes env configs w) ->
    In (k, false) (probe_outcomes env configs w) -> False.
Proof.
  induction configs as [|[k0 cfg] rest IH]; intros Hnd w k;
    cbn [probe_outcomes map fst In]; [tauto|].
  cbn in Hnd. apply NoDup_cons_iff in Hnd as [Hk0 Hnd].
  destruct (is_configured k0 cfg); [|now apply IH].
  destruct cfg as [c|].
  - destruct (provider_initialize env (provider_class k0 c, w)) as [r [p' w1]].
    cbn. intros [Ht|Ht] [Hf|Hf].
    + congruence.
    + inversion Ht; subst. eauto using probe_outcomes_names.
    + inversion Hf; subst. eauto using probe_outcomes_names.
    + eapply IH; eauto.
  - cbn. intros [Ht|Ht] [Hf|Hf].
    + congruence.
    + discriminate.
    + inversion Hf; subst. eauto using probe_outcomes_names.
    + eapply IH; eauto.
Qed.

Lemma provider_configs_names settings :
  NoDup (map fst (provider_configs settings)).
Proof. cbn. repeat constructor; cbn; intuition discriminate. Qed.

(** No probe answers: [initialize] returns [False] and the service is not
    ready. *)
Example initialize_without_survivor :
  let out := initialize Runs.env_dark (Fixture.three_keys "openai")
               (LLMService_new (Fixture.three_keys "openai"), World_new) in
  fst out = Return false
  /\ initialized (fst (snd out)) = false
  /\ providers (fst (snd out)) = [].
Proof. vm_compute. repeat split. Qed.

Remark provider_configs_order (settings : Settings) :
  map (fun c => value (fst c)) (provider_configs settings) = registration_order.
Proof. reflexivity. Qed.



(** ** Readiness (C2) *)

(** C2, as the code has it.  On a service that is not ready,
    [generate_text], [generate_user_stories] and, once its stream is
    consumed, [generate_streaming] raise the not-initialized error and
    change nothing.  [health_check] and [get_provider_stats] do not test
    readiness: the first returns a report whose [initialized] field is
    false, the second answers as it does on a ready service, with the
    statistics of the registered adapters or the not-found error. *)
Theorem readiness_is_checked_by_generation_only
  (env : Env) (svc : LLMService) (w : World) :
  initialized svc = false ->
  (forall req requested,
      generate_text env req requested (svc, w)
      = (Raise not_initialized, (svc, w)))
  /\ (forall req requested,
         generate_streaming env req requested (svc, w)
         = ({| fragments := []; failure := Some not_initialized |}, (svc, w)))
  /\ (forall requirements context preferences requested,
         generate_user_stories env requirements context preferences requested
           (svc, w)
         = (Raise not_initialized, (svc, w)))
  /\ (exists report s',
         health_check env (svc, w) = (Return report, s')
         /\ hs_initialized report = false)
  /\ get_provider_stats None (svc, w)
     = (Return (AllProviders
                  (map (fun kp => (fst kp, usage_stats (snd kp))) (providers svc))),
        (svc, w))
  /\ (forall name,
         truthy_str name = true ->
         get_provider_stats (Some name) (svc, w)
         = match dict_get (providers svc) name with
           | Some p => (Return (OneProvider name (usage_stats p)), (svc, w))
           | None => (Raise (not_found name), (svc, w))
           end).
Proof.
  intros Hnot. repeat split.
  - intros req requested. unfold generate_text. now rewrite Hnot.
  - intros req requested. unfold generate_streaming. now rewrite Hnot.
  - intros requirements context preferences requested.
    unfold generate_user_stories, try_except, bind, generate_text.
    now rewrite Hnot.
  - destruct (health_check_returns env svc w) as (report & s' & Hh & Hi & _).
    exists report, s'. rewrite Hi. auto.
  - unfold get_provider_stats. cbn. do 3 f_equal.
    apply map_ext. now intros [k p].
  - intros name Hname. unfold get_provider_stats. cbn. rewrite Hname.
    now destruct (dict_get (providers svc) name).
Qed.

Lemma readiness_is_checked_by_generation_only_witness :
  let env := Runs.env_dark in
  let svc := LLMService_new (Fixture.three_keys "openai") in
  let w := World_new in
  (forall req requested,
      generate_text env req requested (svc, w)
      = (Raise not_initialized, (svc, w)))
  /\ (forall req requested,
         generate_streaming env req requested (svc, w)
         = ({| fragments := []; failure := Some not_initialized |}, (svc, w)))
  /\ (forall requirements context preferences requested,
         generate_user_stories env requirements context preferences requested
           (svc, w)
         = (Raise not_initialized, (svc, w)))
  /\ (exists report s',
         health_check env (svc, w) = (Return report, s')
         /\ hs_initialized report = false)
  /\ get_provider_stats None (svc, w)
     = (Return (AllProviders
                  (map (fun kp => (fst kp, usage_stats (snd kp))) (providers svc))),
        (svc, w))
  /\ (forall name,
         truthy_str name = true ->
         get_provider_stats (Some name) (svc, w)
         = match dict_get (providers svc) name with
           | Some p => (Return (OneProvider name (usage_stats p)), (svc, w))
           | None => (Raise (not_found name), (svc, w))
           end).
Proof.
  intros env svc w.
  apply (readiness_is_checked_by_generation_only env svc w).
  reflexivity.
Defined.

(** On a service that was never initialized, [health_check] returns a
    report and [get_provider_stats] a mapping or the not-found error: none
    of them raises the not-initialized error. *)
Lemma health_check_answers_when_not_ready :
  let svc := LLMService_new (Fixture.three_keys "openai") in
  initialized svc = false
  /\ fst (health_check Runs.env_dark (svc, World_new))
     = Return {| hs_initialized := false;
                 hs_default_provider := "openai";
                 hs_providers := [] |}
  /\ fst (get_provider_stats None (svc, World_new)) = Return (AllProviders [])
  /\ fst (get_provider_stats (Some "openai") (svc, World_new))
     = Raise (not_found "openai")
  /\ not_found "openai" <> not_initialized.
Proof. vm_compute. repeat split. discriminate. Qed.

(** ** The extraction fallback (C3, C4) *)

Lemma match_dotstar_none s :
  match_dotstar_rbracket s = None <-> ~ In rbracket s.
Proof.
  induction s as [|c r IH]; cbn; [tauto|].
  destruct (match_dotstar_rbracket r) as [m|].
  - split; [discriminate|]. intros H. exfalso.
    destruct (proj1 (Decidable.not_or_iff _ _) H) as [_ Hr].
    now apply (proj2 IH) in Hr.
  - destruct (Ascii.eqb_spec c rbracket) as [->|Hne].
    + split; [discriminate | intros H; exfalso; auto].
    + split; [|reflexivity]. intros _ [E|Hin]; [congruence|].
      now apply (proj1 IH).
Qed.

(** The greedy [.*\]]: everything up to the last closing bracket. *)
Lemma match_dotstar_some s m :
  match_dotstar_rbracket s = Some m ->
  exists inner post,
    m = (inner ++ [rbracket])%list /\ s = (m ++ post)%list /\ ~ In rbracket post.
Proof.
  revert m. induction s as [|c r IH]; intros m; cbn; [discriminate|].
  destruct (match_dotstar_rbracket r) as [m'|] eqn:Hr.
  - intros [= <-]. destruct (IH m' eq_refl) as (inner & post & -> & -> & Hpost).
    exists (c :: inner), post. auto.
  - destruct (Ascii.eqb_spec c rbracket) as [->|Hne]; [|discriminate].
    intros [= <-]. exists [], r. repeat split.
    now apply match_dotstar_none.
Qed.

Lemma search_from_some s m :
  search_from s = Some m ->
  exists pre inner post,
    s = (pre ++ m ++ post)%list
    /\ m = (lbracket :: inner ++ [rbracket])%list
    /\ ~ In lbracket pre /\ ~ In rbracket post.
Proof.
  induction s as [|c r IH]; cbn [search_from match_here]; [discriminate|].
  destruct (Ascii.eqb_spec c lbracket) as [->|Hne].
  - destruct (match_dotstar_rbracket r) as [m'|] eqn:Hr.
    + intros [= <-].
      destruct (match_dotstar_some r m' Hr) as (inner & post & -> & -> & Hpost).
      exists [], inner, post. cbn. auto.
    + intros H. apply match_dotstar_none in Hr.
      destruct (IH H) as (pre & inner & post & -> & -> & _ & _).
      exfalso. apply Hr. apply in_or_app. right. cbn. right.
      apply in_or_app. left. apply in_or_app. right. now left.
  - intros H. destruct (IH H) as (pre & inner & post & -> & -> & Hpre & Hpost).
    exists (c :: pre), inner, post. repeat split; auto.
    intros [E|Hin]; [congruence | auto].
Qed.

Lemma search_from_none s :
  search_from s = None ->
  forall pre inner post,
    s <> (pre ++ (lbracket :: inner ++ [rbracket]) ++ post)%list.
Proof.
  induction s as [|c r IH]; cbn [search_from match_here].
  - intros _ [|? ?] inner post; discriminate.
  - destruct (Ascii.eqb_spec c lbracket) as [->|Hne].
    + destruct (match_dotstar_rbracket r) as [m'|] eqn:Hr; [discriminate|].
      intros H pre inner post E. apply match_dotstar_none in Hr.
      destruct pre as [|c' pre]; cbn in E; inversion E; subst.
      * apply Hr. apply in_or_app. left. apply in_or_app. right. now left.
      * apply Hr. apply in_or_app. right. cbn. right.
        apply in_or_app. left. apply in_or_app. right. now left.
    + intros H pre inner post E.
      destruct pre as [|c' pre]; cbn in E; inversion E; subst.
      * congruence.
      * now apply (IH H pre inner post).
Qed.

Lemma re_search_brackets_some text group :
  re_search_brackets text = Some group -> spans_first_to_last text group.
Proof.
  unfold re_search_brackets, spans_first_to_last.
  destruct (search_from (list_ascii_of_string text)) as [m|] eqn:Hs;
    [|discriminate].
  intros [= <-]. rewrite list_ascii_of_string_of_list_ascii.
  now apply search_from_some.
Qed.

Lemma re_search_brackets_none text :
  re_search_brackets text = None -> no_bracketed_span text.
Proof.
  unfold re_search_brackets, no_bracketed_span.
  destruct (search_from (list_ascii_of_string text)) as [m|] eqn:Hs;
    [discriminate|].
  intros _. now apply search_from_none.
Qed.

(** [generate_user_stories] is [generate_text] with the fixed prompt and
    parameters, followed by the two parsing stages; an exception of either
    reaches the caller. *)
Lemma generate_user_stories_unfold
  env requirements context preferences requested s :
  generate_user_stories env requirements context preferences requested s
  = match generate_text env
            {| prompt := user_stories_prompt env requirements context preferences;
               system_message := Some user_stories_system_message;
               temperature := (1 # 10)%Q;
               max_tokens := Some 4000%Z |} requested s with
    | (Return response, s') => (parse_user_stories env (content response), s')
    | (Raise e, s') => (Raise e, s')
    end.
Proof.
  unfold generate_user_stories, try_except, bind, raise.
  destruct (generate_text env _ requested s) as [[response|e] s']; [|reflexivity].
  now destruct (parse_user_stories env (content response)).
Qed.

(** C4, as the code has it.  When the whole text of the response does not
    parse, the fallback takes the part of the text from its first opening
    bracket to its last closing bracket, newlines included, and parses
    exactly that part: the result is what it parses to, or the decoder's
    error.  When the text has no opening bracket with a closing bracket
    after it, the result is the empty list. *)
Theorem fallback_parses_first_to_last_bracket (env : Env) (text : string) :
  json_loads env text = None ->
  match re_search_brackets text with
  | Some group =>
      spans_first_to_last text group
      /\ parse_user_stories env text
         = match json_loads env group with
           | Some user_stories => Return user_stories
           | None => Raise decode_error
           end
  | None =>
      no_bracketed_span text
      /\ parse_user_stories env text = Return (JList [])
  end.
Proof.
  intros Hfail. unfold parse_user_stories. rewrite Hfail.
  destruct (re_search_brackets text) as [group|] eqn:Hs.
  - split; [now apply re_search_brackets_some | reflexivity].
  - split; [now apply re_search_brackets_none | reflexivity].
Qed.

Lemma fallback_parses_first_to_last_bracket_witness :
  let text := Extraction.two_arrays in
  let env := Extraction.answering text in
  json_loads env text = None
  /\ match re_search_brackets text with
     | Some group =>
         spans_first_to_last text group
         /\ parse_user_stories env text
            = match json_loads env group with
              | Some user_stories => Return user_stories
              | None => Raise decode_error
              end
     | None =>
         no_bracketed_span text
         /\ parse_user_stories env text = Return (JList [])
     end.
Proof.
  intros text env.
  assert (H : json_loads env text = None) by (vm_compute; reflexivity).
  split; [exact H|].
  exact (fallback_parses_first_to_last_bracket env text H).
Defined.

(** A text with two arrays in it: the first balanced span is the first
    array, which parses to one record; the code takes the text from the
    first opening to the last closing bracket, which does not parse. *)
Lemma fallback_is_not_the_first_balanced_span :
  let text := Extraction.two_arrays in
  let env := Extraction.answering text in
  let first := Fixture.dq "[{'title':'A'}]" in
  json_loads env text = None
  /\ first_balanced_span text = Some first
  /\ json_loads env first = Some (JList [JDict [("title", JStr "A")]])
  /\ re_search_brackets text = Some text
  /\ re_search_brackets text <> first_balanced_span text
  /\ parse_user_stories env text = Raise decode_error.
Proof. vm_compute. repeat split. discriminate. Qed.

(** The text of the specification's example goes through the fallback and
    gives one record, titled A. *)
Example fallback_recovers_embedded_array :
  let text :=
    Fixture.dq "Here are stories: [{'title':'A','description':'d','acceptance_criteria':[],'priority':'High','story_points':3,'labels':[]}] done" in
  fst (generate_user_stories (Extraction.answering text)
         "requirements" None None None (Extraction.ready text))
  = Return (JList [JDict [("title", JStr "A"); ("description", JStr "d");
                          ("acceptance_criteria", JList []);
                          ("priority", JStr "High"); ("story_points", JInt 3);
                          ("labels", JList [])]]).
Proof. vm_compute. reflexivity. Qed.

(** A text without brackets gives the empty list. *)
Example text_without_brackets_gives_nothing :
  let text := "I cannot help with that." in
  fst (generate_user_stories (Extraction.answering text)
         "requirements" None None None (Extraction.ready text))
  = Return (JList []).
Proof. vm_compute. reflexivity. Qed.

(** C3, at an input where the code departs from it.  The model answers
    with a sentence that has a bracketed remark in it and no JSON: neither
    the whole text nor the bracketed part parses, so no array can be
    recovered from it, and [generate_user_stories] raises the decoder's
    error instead of returning the empty list. *)
Theorem bracketed_text_without_json_raises :
  let text := Extraction.apology in
  let env := Extraction.answering text in
  json_loads env text = None
  /\ re_search_brackets text = Some "[about the users]"
  /\ first_balanced_span text = Some "[about the users]"
  /\ json_loads env "[about the users]" = None
  /\ fst (generate_user_stories env "requirements" None None None
            (Extraction.ready text))
     = Raise decode_error.
Proof. vm_compute. repeat split. Qed.

(** ** Health checks and the usage statistics (C10) *)


(** One entry per registered adapter: the failing probes of Azure and
    Claude do not keep Gemini from being reported. *)
Example health_check_reports_each_adapter :
  option_map (fun report => map fst (hs_providers report))
    (match fst (health_check Runs.env_two_down Runs.svc3) with
     | Return report => Some report
     | Raise _ => None
     end)
  = Some ["azure"; "claude"; "gemini"].
Proof. vm_compute. reflexivity. Qed.

(** C10, at an input where the code departs from it.  The service has
    answered one request, in a quarter of a second.  The clock then stands
    still during a health check, so that the adapter measures a latency of
    zero.  The probe succeeds and is counted: [total_requests] goes from 1
    to 2, as C10 says.  But [update_usage_stats] tests the latency for
    truth, and zero is false: [average_latency] is still a quarter of a
    second, not the average of the two latencies, an eighth. *)
Theorem zero_latency_probe_leaves_the_average :
  let s := Stalling.after_one_request in
  let out := health_check Stalling.env s in
  let before := usage_stats (Runs.adapter "gemini" s) in
  let after := usage_stats (Runs.adapter "gemini" (snd out)) in
  total_requests before = 1%N
  /\ average_latency before = (1 # 4)%Q
  /\ (exists measured,
         fst out = Return {| hs_initialized := true;
                             hs_default_provider := "gemini";
                             hs_providers := [("gemini", Healthy measured 0 2)] |}
         /\ (measured == 0)%Q)
  /\ total_requests after = 2%N
  /\ average_latency after = (1 # 4)%Q
  /\ (running_mean (average_latency before) 2 0 == 1 # 8)%Q
  /\ ~ (average_latency after == running_mean (average_latency before) 2 0)%Q.
Proof.
  vm_compute. repeat split; try discriminate.
  eexists. split; [reflexivity|]. reflexivity.
Qed.

(** * Further properties of the adapters *)

Section AdapterCalls.
Variable env : Env.

(** A call that returns: the response it built, the state it left. *)
Lemma adapter_success_response req p w r p' w' :
  provider_generate_text env req (p, w) = (Return r, (p', w')) ->
  exists cm content res,
    chat_model p = Some cm
    /\ backend_answer env (kind p)
         (journal w ++ [call_for (kind p) cm req])%list = Return (content, res)
    /\ r = response_for (kind p) (config p) content res
             (clock env (S (ticks w)) - clock env (ticks w))%Q
    /\ chat_model p' = Some (client_for (kind p) cm req)
    /\ w' = advance (advance (record_call (advance w) (call_for (kind p) cm req))).
Proof.
  rewrite provider_generate_text_closed. unfold generate_text_closed.
  destruct (chat_model p) as [cm|]; [|discriminate].
  cbn [record_call advance journal ticks].
  destruct (backend_answer env (kind p) _) as [[c res]|e0] eqn:Hb; [|discriminate].
  intros H. inversion H; subst. exists cm, c, res. now destruct p.
Qed.

(** The journal after a call: at most one round trip more. *)
Lemma adapter_call_journal req p w :
  let out := provider_generate_text env req (p, w) in
  match chat_model p with
  | Some cm =>
      journal (snd (snd out)) = (journal w ++ [call_for (kind p) cm req])%list
      /\ chat_model (fst (snd out)) = Some (client_for (kind p) cm req)
  | None =>
      journal (snd (snd out)) = journal w /\ chat_model (fst (snd out)) = None
  end.
Proof.
  cbn zeta. rewrite provider_generate_text_closed. unfold generate_text_closed.
  destruct (chat_model p) as [cm|] eqn:Hcm.
  - cbn [record_call advance journal ticks].
    destruct (backend_answer env (kind p) _) as [[c res]|e0]; cbn; auto.
  - cbn. now destruct p.
Qed.

End AdapterCalls.

Lemma answered_call_counts env req p w r p' w' :
  provider_generate_text env req (p, w) = (Return r, (p', w')) ->
  total_requests (usage_stats p') = (total_requests (usage_stats p) + 1)%N
  /\ error_count (usage_stats p') = error_count (usage_stats p).
Proof.
  intros H. apply adapter_success in H as (-> & _). cbn. auto.
Qed.

(** X1. A [generate_text] call of an adapter that returns raises
    [total_requests] by one, leaves [error_count] alone, sets
    [last_request] to the time read after the call, and adds the tokens
    and the cost of the response, if it carries any, to [total_tokens] and
    [total_cost]. *)
Theorem answered_call_is_accounted
  (env : Env) (req : Request) (p : Provider) (w : World)
  (r : LLMResponse) (p' : Provider) (w' : World) :
  provider_generate_text env req (p, w) = (Return r, (p', w')) ->
  total_requests (usage_stats p') = (total_requests (usage_stats p) + 1)%N
  /\ error_count (usage_stats p') = error_count (usage_stats p)
  /\ last_request (usage_stats p') = Some (clock env (S (S (ticks w))))
  /\ total_tokens (usage_stats p')
     = (total_tokens (usage_stats p) + get_default (tokens_used r) 0)%Z
  /\ (total_cost (usage_stats p')
      == total_cost (usage_stats p) + get_default (cost r) 0)%Q.
Proof.
  intros H. apply adapter_success in H as (-> & _).
  unfold updated_stats. cbn. repeat split.
  - destruct (tokens_used r) as [t|]; cbn; [|lia].
    destruct (Z.eqb_spec t 0); cbn; lia.
  - destruct (cost r) as [c|]; cbn.
    + unfold Q_is_zero. destruct (Z.eqb_spec (Qnum c) 0) as [E|E]; cbn.
      * assert (Hc : (c == 0)%Q) by (unfold Qeq; cbn; lia).
        rewrite Hc. ring.
      * reflexivity.
    + ring.
Qed.

Lemma answered_call_is_accounted_witness :
  let env := Runs.env_two_down in
  let s := Runs.svc3 in
  let p := Runs.adapter "gemini" s in
  let out := provider_generate_text env Fixture.hello (p, snd s) in
  total_requests (usage_stats (fst (snd out))) = 1%N
  /\ error_count (usage_stats (fst (snd out))) = 0%N.
Proof.
  intros env s p out.
  destruct (answered_call_is_accounted env Fixture.hello p (snd s)
              (match fst out with
               | Return r => r
               | Raise _ => response_for OLLAMA empty_config "" None 0%Q
               end)
              (fst (snd out)) (snd (snd out)))
    as (H1 & H2 & _).
  - vm_compute. reflexivity.
  - rewrite H1, H2. vm_compute. auto.
Defined.

(** X2. Every [generate_text] call of an adapter is counted once: whether
    it returns or raises, the sum of [total_requests] and [error_count] is
    one higher after the call. *)
Theorem every_call_is_counted_once
  (env : Env) (req : Request) (p : Provider) (w : World) :
  let p' := fst (snd (provider_generate_text env req (p, w))) in
  (total_requests (usage_stats p') + error_count (usage_stats p'))%N
  = (total_requests (usage_stats p) + error_count (usage_stats p) + 1)%N.
Proof.
  cbn zeta.
  destruct (provider_generate_text env req (p, w)) as [[r|e] [p' w']] eqn:H;
    cbn [fst snd].
  - apply answered_call_counts in H as (H1 & H2). rewrite H1, H2. lia.
  - apply adapter_failure in H as (-> & _). cbn. lia.
Qed.

(** ** Tokens and cost, class by class *)

(** X4. Only the OpenAI adapter accounts for cost and only the OpenAI and
    Azure adapters account for tokens: an answered call of any other
    adapter leaves [total_cost], respectively [total_tokens], exactly as
    it was, whatever usage the backend reports. *)
Theorem cost_and_tokens_by_class
  (env : Env) (req : Request) (p : Provider) (w : World)
  (r : LLMResponse) (p' : Provider) (w' : World) :
  provider_generate_text env req (p, w) = (Return r, (p', w')) ->
  (kind p <> OPENAI ->
   total_cost (usage_stats p') = total_cost (usage_stats p))
  /\ (kind p <> OPENAI -> kind p <> AZURE_OPENAI ->
      tokens_used r = None
      /\ total_tokens (usage_stats p') = total_tokens (usage_stats p)).
Proof.
  intros H.
  destruct (adapter_success_response env req p w r p' w' H)
    as (cm & c & res & _ & _ & Hr & _).
  apply adapter_success in H as (-> & _).
  rewrite Hr. unfold updated_stats, response_for. cbn.
  split.
  - intros Hk. destruct (kind p); try reflexivity. congruence.
  - intros Hk Hk'. destruct (kind p); try (split; reflexivity); congruence.
Qed.

(** The Gemini adapter of a started service answers. *)
Lemma cost_and_tokens_by_class_witness :
  let env := Runs.env_two_down in
  let s := Runs.svc3 in
  let p := Runs.adapter "gemini" s in
  let out := provider_generate_text env Fixture.hello (p, snd s) in
  total_cost (usage_stats (fst (snd out))) = total_cost (usage_stats p)
  /\ total_tokens (usage_stats (fst (snd out))) = total_tokens (usage_stats p).
Proof.
  intros env s p out.
  destruct (cost_and_tokens_by_class env Fixture.hello p (snd s)
              (match fst out with
               | Return r => r
               | Raise _ => response_for OLLAMA empty_config "" None 0%Q
               end)
              (fst (snd out)) (snd (snd out)))
    as (H1 & H2).
  - vm_compute. reflexivity.
  - split.
    + apply H1. vm_compute. discriminate.
    + apply H2; vm_compute; discriminate.
Defined.

(** ** The token bound of a request *)

(** X5. A token bound given with one request stays on the client of an
    OpenAI, Azure or Claude adapter: the next request of that adapter, if
    it gives no bound of its own, is sent with the bound of the request
    before it.  The Gemini and Ollama adapters never pass the bound of a
    request to their client. *)
Theorem token_bound_outlives_its_request
  (env : Env) (first second : Request) (p : Provider) (w : World)
  (cm : ChatModel) (n : Z) :
  chat_model p = Some cm ->
  max_tokens first = Some n ->
  n <> 0%Z ->
  max_tokens second = None ->
  let s1 := snd (provider_generate_text env first (p, w)) in
  let s2 := snd (provider_generate_text env second s1) in
  option_map (fun c => cm_max_tokens (call_client c))
    (last (map Some (journal (snd s2))) None)
  = Some (if caps_tokens (kind p) then Some n else cm_max_tokens cm).
Proof.
  intros Hcm Hfirst Hn Hsecond s1 s2.
  pose proof (adapter_call_journal env first p w) as H1.
  cbn zeta in H1. rewrite Hcm in H1. fold s1 in H1. destruct H1 as (_ & Hcm1).
  assert (Hk1 : kind (fst s1) = kind p).
  { unfold s1.
    destruct (provider_generate_text env first (p, w)) as [[r|e] [p1 w1]] eqn:E;
      cbn [fst snd];
      [apply adapter_success in E | apply adapter_failure in E]; tauto. }
  pose proof (adapter_call_journal env second (fst s1) (snd s1)) as H2.
  cbn zeta in H2. rewrite Hcm1 in H2.
  replace (fst s1, snd s1) with s1 in H2 by now destruct s1.
  fold s2 in H2. destruct H2 as (Hj & _).
  rewrite Hj, map_app. cbn [map]. rewrite last_last.
  cbn [option_map]. f_equal.
  rewrite Hk1. unfold call_for, client_for.
  rewrite Hfirst, Hsecond. cbn [truthy_opt_Z].
  destruct (Z.eqb_spec n 0) as [|_]; [contradiction|]. cbn [negb].
  destruct (kind p); reflexivity.
Qed.

(** The Claude adapter: a request with a bound of 50 tokens, then one
    without a bound. *)
Lemma token_bound_outlives_its_request_witness :
  let env := Runs.env_two_down in
  let p := Runs.adapter "claude" Runs.svc3 in
  let w := snd Runs.svc3 in
  let first := {| prompt := "one"; system_message := None;
                  temperature := (1 # 10)%Q; max_tokens := Some 50%Z |} in
  let second := {| prompt := "two"; system_message := None;
                   temperature := (1 # 10)%Q; max_tokens := None |} in
  let s1 := snd (provider_generate_text env first (p, w)) in
  let s2 := snd (provider_generate_text env second s1) in
  option_map (fun c => cm_max_tokens (call_client c))
    (last (map Some (journal (snd s2))) None)
  = Some (Some 50%Z).
Proof.
  intros env p w first second s1 s2.
  exact (token_bound_outlives_its_request env first second p w
           {| cm_class := ANTHROPIC_CLAUDE;
              cm_credentials := config p;
              cm_model_name := "claude-3-sonnet-20240229";
              cm_temperature := (1 # 10)%Q;
              cm_max_tokens := Some 4000%Z |} 50%Z
           eq_refl eq_refl ltac:(discriminate) eq_refl).
Defined.

(** ** The size of the chunks *)

Lemma length_substring (s : string) (i n : nat) :
  String.length (substring i n s) = Nat.min n (String.length s - i).
Proof.
  rewrite !length_as_list, substring_as_list, length_firstn, length_skipn.
  reflexivity.
Qed.

(** X6. The Gemini adapter cuts an answer of [n] characters into
    [ceil(n / 20)] fragments; every fragment is non-empty, every fragment
    but the last has 20 characters, and the last has what remains. *)
Theorem chunks_are_full_but_the_last (response : string) :
  let n := String.length response in
  List.length (chunks response) = (n + 19) / 20
  /\ forall i,
       i < List.length (chunks response) ->
       String.length (nth i (chunks response) "") = Nat.min 20 (n - 20 * i)
       /\ 1 <= String.length (nth i (chunks response) "").
Proof.
  cbn zeta. unfold chunks, range3, chunk_size, slice.
  rewrite !length_map, length_seq.
  replace (String.length response - 0 + 20 - 1) with (String.length response + 19)
    by lia.
  split; [reflexivity|].
  intros i Hi.
  rewrite map_map.
  rewrite (nth_indep _ "" ((fun k => substring (0 + k * 20)
                                       (0 + k * 20 + 20 - (0 + k * 20)) response) 0))
    by (now rewrite length_map, length_seq).
  rewrite (map_nth (fun k => substring (0 + k * 20)
                               (0 + k * 20 + 20 - (0 + k * 20)) response)).
  rewrite seq_nth by assumption.
  rewrite length_substring.
  replace (0 + (0 + i) * 20 + 20 - (0 + (0 + i) * 20)) with 20 by lia.
  replace (0 + (0 + i) * 20) with (20 * i) by lia.
  split; [reflexivity|].
  pose proof (Nat.div_mod_eq (String.length response + 19) 20) as E.
  assert (H : (String.length response + 19) mod 20 < 20)
    by (apply Nat.mod_upper_bound; discriminate).
  revert E H Hi.
  generalize ((String.length response + 19) / 20).
  generalize ((String.length response + 19) mod 20).
  intros m q E H Hi. lia.
Qed.

(** ** The start-up probe of an adapter *)

Section ProbeOfAdapter.
Variable env : Env.

(** [initialize] of an adapter, in closed form. *)
Lemma provider_initialize_closed p w :
  provider_initialize env (p, w)
  = if installed env (kind p) && has_required_fields (kind p) (config p) then
      let cm := client_new (kind p) (config p) in
      let w' := record_call w (APredict cm "Hello") in
      (Return (match apredict env (journal w') with
               | Return _ => true
               | Raise _ => false
               end),
       (set_chat_model p (Some cm), w'))
    else (Return false, (p, w)).
Proof.
  unfold provider_initialize.
  destruct p as [k name cfg st cm]; cbn [kind config].
  destruct k;
    unfold OpenAIProvider_initialize, AzureOpenAIProvider_initialize,
      ClaudeProvider_initialize, GeminiProvider_initialize,
      OllamaProvider_initialize, try_except, bind, require_installed,
      require_field, self_config, assign_chat_model, chat_apredict, modify,
      ret, raise, has_required_fields, client_new;
    cbn;
    repeat match goal with
           | |- context [installed env ?k] => destruct (installed env k); cbn
           | |- context [truthy_opt_str ?x] => destruct (truthy_opt_str x); cbn
           | |- context [apredict env ?j] => destruct (apredict env j); cbn
           end;
    reflexivity.
Qed.

End ProbeOfAdapter.

(** X7. The [initialize] of an adapter never raises.  When the client
    library is missing or a required configuration field is empty it
    answers [False] without a round trip and without touching the
    adapter.  Otherwise it sends the single prompt ["Hello"] through a
    newly built client and answers whether the backend replied; the usage
    statistics are not touched: the probe is not counted as a request. *)
Theorem adapter_probe_is_one_uncounted_round_trip
  (env : Env) (p : Provider) (w : World) :
  let out := provider_initialize env (p, w) in
  let p' := fst (snd out) in
  let w' := snd (snd out) in
  (exists answer, fst out = Return answer)
  /\ usage_stats p' = usage_stats p
  /\ kind p' = kind p
  /\ config p' = config p
  /\ (installed env (kind p) && has_required_fields (kind p) (config p) = false ->
      fst out = Return false /\ p' = p /\ w' = w)
  /\ (installed env (kind p) && has_required_fields (kind p) (config p) = true ->
      chat_model p' = Some (client_new (kind p) (config p))
      /\ journal w'
         = (journal w ++ [APredict (client_new (kind p) (config p)) "Hello"])%list
      /\ ticks w' = ticks w).
Proof.
  cbn zeta. rewrite provider_initialize_closed.
  destruct (installed env (kind p) && has_required_fields (kind p) (config p));
    cbn [fst snd].
  - repeat split; eauto; try discriminate; now destruct p.
  - repeat split; eauto; discriminate.
Qed.

(** * Further properties of the service *)

(** ** What [initialize] registers *)

Section RegistryFacts.
Variable env : Env.

Lemma initialize_one_fresh k cfg n svc w :
  (forall name p, dict_get (providers svc) name = Some p -> registered_fresh name p) ->
  forall name p,
    dict_get (providers (fst (snd (initialize_one env k cfg n (svc, w))))) name
    = Some p ->
    registered_fresh name p.
Proof.
  intros Hinv. unfold initialize_one.
  destruct (is_configured k cfg); [|exact Hinv].
  destruct cfg as [c|]; [|exact Hinv].
  rewrite provider_initialize_closed, provider_class_kind.
  assert (Hc : config (provider_class k c) = c) by now destruct k.
  rewrite Hc.
  destruct (installed env k && has_required_fields k c); [|exact Hinv].
  cbn zeta. destruct (apredict env _); [|exact Hinv].
  cbn [fst snd providers set_providers]. intros name p.
  destruct (String.eqb_spec (value k) name) as [<-|Hne].
  - rewrite dict_get_set_same. intros [= <-].
    unfold registered_fresh. cbn. rewrite provider_class_kind, Hc.
    repeat split. now destruct k.
  - rewrite dict_get_set_other by assumption. apply Hinv.
Qed.

Lemma initialize_loop_fresh configs :
  forall n svc w,
    (forall name p, dict_get (providers svc) name = Some p -> registered_fresh name p) ->
    forall name p,
      dict_get (providers (fst (snd (initialize_loop env configs n (svc, w))))) name
      = Some p ->
      registered_fresh name p.
Proof.
  induction configs as [|[k cfg] rest IH]; intros n svc w Hinv.
  - exact Hinv.
  - cbn [initialize_loop]. unfold bind.
    pose proof (initialize_one_fresh k cfg n svc w Hinv) as H1.
    destruct (initialize_one env k cfg n (svc, w)) as [[m|e] [svc1 w1]] eqn:E;
      cbn [fst snd] in H1.
    + now apply IH.
    + exact H1.
Qed.

(** [initialize] changes the registry in its loop only. *)
Lemma initialize_providers settings svc w :
  providers (fst (snd (initialize env settings (svc, w))))
  = providers (fst (snd (initialize_loop env (provider_configs settings) 0 (svc, w)))).
Proof.
  unfold initialize, try_except, bind.
  destruct (initialize_loop env (provider_configs settings) 0 (svc, w))
    as [[n|e] [svc1 w1]]; [|reflexivity].
  destruct (n =? 0)%nat; [reflexivity|]. cbn.
  destruct (dict_mem (providers svc1) (default_provider svc1)); [reflexivity|].
  now destruct (keys (providers svc1)).
Qed.

(** An entry of the probe record comes from a configured provider. *)
Lemma probe_outcomes_configured configs :
  forall w k,
    In (k, true) (probe_outcomes env configs w) ->
    exists c, In (k, Some c) configs /\ is_configured k (Some c) = true.
Proof.
  induction configs as [|[k0 cfg] rest IH]; intros w k;
    cbn [probe_outcomes In]; [tauto|].
  assert (Hrest : forall w', In (k, true) (probe_outcomes env rest w') ->
                  exists c, ((k0, cfg) = (k, Some c) \/ In (k, Some c) rest)
                            /\ is_configured k (Some c) = true).
  { intros w' Hin. destruct (IH w' k Hin) as (c' & Hin' & Hc'). eauto. }
  destruct (is_configured k0 cfg) eqn:Hc; [|apply Hrest].
  destruct cfg as [c|].
  - destruct (provider_initialize env (provider_class k0 c, w)) as [r [p' w1]].
    cbn. intros [E|Hin]; [|now apply (Hrest w1)].
    injection E as -> _. exists c. auto.
  - cbn. intros [E|Hin]; [discriminate | now apply (Hrest w)].
Qed.

(** The loop when no probe answers [True]: the service is left alone. *)
Lemma initialize_loop_no_survivor configs :
  forall n svc w,
    (forall k, ~ In (k, true) (probe_outcomes env configs w)) ->
    exists w', initialize_loop env configs n (svc, w) = (Return n, (svc, w')).
Proof.
  induction configs as [|[k cfg] rest IH]; intros n svc w Hnone.
  - exists w. reflexivity.
  - cbn [initialize_loop probe_outcomes] in *. unfold bind, initialize_one.
    destruct (is_configured k cfg).
    + destruct cfg as [c|].
      * destruct (provider_initialize env (provider_class k c, w))
          as [r [p' w1]].
        destruct r as [[|]|e].
        -- exfalso. apply (Hnone k). now left.
        -- apply IH. intros k' Hin. apply (Hnone k'). now right.
        -- apply IH. intros k' Hin. apply (Hnone k'). now right.
      * apply IH. intros k' Hin. apply (Hnone k'). now right.
    + now apply IH.
Qed.

End RegistryFacts.

(** X8. Every adapter a freshly constructed service holds after
    [initialize] is registered under the identifier of its own class, has
    its client built from its configuration, and has its usage statistics
    at zero: the start-up probes are not counted. *)
Theorem registered_adapters_start_fresh
  (env : Env) (settings : Settings) (w : World) (name : string) (p : Provider) :
  let svc' := fst (snd (initialize env settings (LLMService_new settings, w))) in
  dict_get (providers svc') name = Some p ->
  registered_fresh name p.
Proof.
  cbn zeta. rewrite initialize_providers.
  apply initialize_loop_fresh. intros n q. discriminate.
Qed.

Lemma registered_adapters_start_fresh_witness :
  let p := Runs.adapter "claude"
             (Fixture.started Runs.env_two_down (Fixture.three_keys "openai")) in
  kind p = ANTHROPIC_CLAUDE /\ registered_fresh "claude" p.
Proof.
  intros p. split; [vm_compute; reflexivity|].
  apply (registered_adapters_start_fresh Runs.env_two_down
           (Fixture.three_keys "openai") World_new "claude" p).
  vm_compute. reflexivity.
Defined.

(** X9. The OpenAI adapter is registered only when OpenAI is the
    configured default provider and has a key: with another default, an
    OpenAI key alone does not bring the adapter into the registry. *)
Theorem openai_is_registered_only_as_default
  (env : Env) (settings : Settings) (svc : LLMService) (w : World) :
  let svc' := fst (snd (initialize env settings (svc, w))) in
  providers svc = [] ->
  In "openai" (keys (providers svc')) ->
  DEFAULT_LLM_PROVIDER settings = "openai"
  /\ truthy_opt_str (OPENAI_API_KEY settings) = true.
Proof.
  cbn zeta. intros Hempty Hin.
  destruct (initialize_spec env settings svc w Hempty)
    as (svc1 & w1 & Hrun & Hkeys & _).
  rewrite Hrun in Hin. cbn [fst snd] in Hin. rewrite Hkeys in Hin.
  apply in_map_iff in Hin as (k & Hv & Hk).
  assert (k = OPENAI) by (destruct k; cbn in Hv; congruence). subst k.
  unfold survivors in Hk. apply in_map_iff in Hk as ([k b] & Hfst & Hf).
  cbn in Hfst. subst k. apply filter_In in Hf as [Hf Hb]. cbn in Hb. subst b.
  apply probe_outcomes_configured in Hf as (c & Hc & Hconf).
  cbn in Hc. destruct Hc as [E|[E|[E|[E|[E|[]]]]]];
    try (unfold _get_azure_config, _get_claude_config, _get_gemini_config,
           _get_ollama_config in E;
         repeat match type of E with
                | context [if ?b then _ else _] => destruct b
                end; discriminate).
  destruct (String.eqb_spec (DEFAULT_LLM_PROVIDER settings) "openai") as [Hd|Hd];
    [|discriminate].
  split; [assumption|].
  inversion E; subst c. unfold is_configured, llm_config in Hconf.
  rewrite Hd in Hconf. cbn in Hconf. now rewrite orb_false_r in Hconf.
Qed.

Lemma openai_is_registered_only_as_default_witness :
  keys (providers (fst OpenAIFirst.ready)) = ["openai"; "gemini"; "ollama"]
  /\ DEFAULT_LLM_PROVIDER OpenAIFirst.settings = "openai"
  /\ truthy_opt_str (OPENAI_API_KEY OpenAIFirst.settings) = true.
Proof.
  split; [vm_compute; reflexivity|].
  apply (openai_is_registered_only_as_default OpenAIFirst.env
           OpenAIFirst.settings (LLMService_new OpenAIFirst.settings) World_new).
  - reflexivity.
  - vm_compute. auto.
Defined.

(** X10. A run of [initialize] in which no probe answers [True] returns
    [False] and leaves the service as it was, whatever it was: a service
    that was ready stays ready, with the adapters it had. *)
Theorem initialize_without_survivor_changes_nothing
  (env : Env) (settings : Settings) (svc : LLMService) (w : World) :
  survivors env settings w = [] ->
  exists w', initialize env settings (svc, w) = (Return false, (svc, w')).
Proof.
  intros Hnone.
  destruct (initialize_loop_no_survivor env (provider_configs settings) 0 svc w)
    as (w' & Hrun).
  - intros k Hin. unfold survivors in Hnone.
    assert (Hk : In k (map fst (filter snd
                   (probe_outcomes env (provider_configs settings) w)))).
    { apply in_map_iff. exists (k, true). split; [reflexivity|].
      apply filter_In. auto. }
    rewrite Hnone in Hk. contradiction.
  - exists w'. unfold initialize, try_except, bind. now rewrite Hrun.
Qed.

(** A ready service with three adapters is initialized again while no
    backend answers. *)
Lemma initialize_without_survivor_changes_nothing_witness :
  initialized (fst Runs.svc3) = true
  /\ exists w',
       initialize Runs.env_dark (Fixture.three_keys "openai")
         (fst Runs.svc3, snd Runs.svc3)
       = (Return false, (fst Runs.svc3, w')).
Proof.
  split; [vm_compute; reflexivity|].
  apply (initialize_without_survivor_changes_nothing Runs.env_dark
           (Fixture.three_keys "openai") (fst Runs.svc3) (snd Runs.svc3)).
  vm_compute. reflexivity.
Defined.

(** ** Streaming *)

Section StreamingFacts.
Variable env : Env.

(** A streaming call of an adapter touches its client and nothing else
    of it, and makes at most one round trip. *)
Lemma provider_generate_streaming_frame req p w :
  let out := provider_generate_streaming env req (p, w) in
  let p' := fst (snd out) in
  let w' := snd (snd out) in
  usage_stats p' = usage_stats p
  /\ kind p' = kind p
  /\ config p' = config p
  /\ List.length (journal w') <= S (List.length (journal w)).
Proof.
  cbn zeta. unfold provider_generate_streaming.
  destruct p as [k name cfg st cm]; cbn [kind].
  destruct k, cm as [cm|];
    unfold OpenAIProvider_generate_streaming,
      AzureOpenAIProvider_generate_streaming,
      ClaudeProvider_generate_streaming, OllamaProvider_generate_streaming,
      GeminiProvider_generate_streaming, chat_generate_streaming,
      stream_after, bind, ret, assign_temperature, assign_max_tokens,
      chat_astream, chat_apredict;
    cbn;
    repeat match goal with
           | |- context [truthy_opt_Z ?x] => destruct (truthy_opt_Z x); cbn
           | |- context [apredict env ?j] => destruct (apredict env j); cbn
           end;
    rewrite ?length_app; cbn; repeat split; lia.
Qed.

Lemma stats_snapshot_set svc name p p' :
  dict_get (providers svc) name = Some p ->
  usage_stats p' = usage_stats p ->
  stats_snapshot (set_providers svc (dict_set (providers svc) name p'))
  = stats_snapshot svc.
Proof.
  unfold stats_snapshot. cbn [providers set_providers].
  induction (providers svc) as [|[k q] d IH]; cbn; [discriminate|].
  destruct (String.eqb_spec k name) as [->|Hne]; cbn.
  - intros [= ->] ->. reflexivity.
  - intros Hp Hs. now rewrite IH.
Qed.

End StreamingFacts.

(** X11. [generate_streaming] is not accounted for and has no failover:
    whatever the outcome of the stream, the usage statistics of every
    adapter, the registry's keys, the default provider and the ready flag
    are what they were, and at most one round trip has been made, so that
    no second adapter was tried. *)
Theorem streaming_is_unaccounted_and_single
  (env : Env) (req : Request) (requested : option string)
  (svc : LLMService) (w : World) :
  let s' := snd (generate_streaming env req requested (svc, w)) in
  stats_snapshot (fst s') = stats_snapshot svc
  /\ keys (providers (fst s')) = keys (providers svc)
  /\ default_provider (fst s') = default_provider svc
  /\ initialized (fst s') = initialized svc
  /\ round_trips s' <= S (round_trips (svc, w)).
Proof.
  cbn zeta. unfold generate_streaming, round_trips.
  destruct (initialized svc) eqn:Hi; cbn [negb fst snd]; [|auto 10].
  destruct (dict_get (providers svc) (py_or requested (default_provider svc)))
    as [p|] eqn:Hp; cbn [fst snd]; [|auto 10].
  pose proof (provider_generate_streaming_frame env req p w) as H.
  cbn zeta in H.
  destruct (provider_generate_streaming env req (p, w)) as [stream [p' w']].
  cbn [fst snd] in *. destruct H as (Hs & _ & _ & Hj).
  repeat split; auto.
  - now apply stats_snapshot_set with (p := p).
  - apply keys_set_present. apply dict_mem_get. eauto.
Qed.

(** ** Resolution of the provider *)

(** X12. [generate_text] and [generate_streaming] resolve the provider in
    the same way.  The empty string stands for no name: the call goes to
    the default provider.  A name that is not registered makes both fail,
    on a ready service, with the same error, which lists the registered
    providers, and nothing is called or changed. *)
Theorem provider_resolution
  (env : Env) (req : Request) (svc : LLMService) (w : World) :
  generate_text env req (Some "") (svc, w) = generate_text env req None (svc, w)
  /\ generate_streaming env req (Some "") (svc, w)
     = generate_streaming env req None (svc, w)
  /\ forall requested,
       initialized svc = true ->
       dict_mem (providers svc) (py_or requested (default_provider svc)) = false ->
       let e := not_available (py_or requested (default_provider svc))
                  (keys (providers svc)) in
       generate_text env req requested (svc, w) = (Raise e, (svc, w))
       /\ generate_streaming env req requested (svc, w)
          = ({| fragments := []; failure := Some e |}, (svc, w)).
Proof.
  split; [reflexivity|]. split; [reflexivity|].
  intros requested Hi Hm. cbn zeta.
  unfold generate_text, generate_streaming. rewrite Hi, Hm. cbn [negb].
  unfold dict_mem in Hm.
  destruct (dict_get (providers svc) (py_or requested (default_provider svc)));
    [discriminate|].
  auto.
Qed.

(** ** The number of round trips *)

Section RoundTrips.
Variable env : Env.

Lemma attempt_round_trips req name s :
  round_trips (snd (attempt env req name s)) <= S (round_trips s).
Proof.
  destruct s as [svc w]. unfold attempt, on_provider, round_trips.
  destruct (dict_get (providers svc) name) as [p|]; [|cbn; lia].
  pose proof (adapter_call_journal env req p w) as H. cbn zeta in H.
  destruct (provider_generate_text env req (p, w)) as [r [p' w']].
  cbn [fst snd] in *.
  destruct (chat_model p); destruct H as (-> & _); rewrite ?length_app; cbn; lia.
Qed.

Lemma try_fallbacks_round_trips req names :
  forall s,
    round_trips (snd (try_fallbacks env req names s))
    <= round_trips s + List.length names.
Proof.
  induction names as [|b names IH]; intros s; cbn [try_fallbacks List.length].
  - cbn. lia.
  - fold (attempt env req b).
    pose proof (attempt_round_trips req b s) as Hb.
    destruct (attempt env req b s) as [[r|e] s1]; cbn [fst snd] in *.
    + lia.
    + specialize (IH s1). lia.
Qed.

Lemma fallbacks_are_fewer svc target :
  dict_mem (providers svc) target = true ->
  S (List.length (fallback_providers svc target)) <= List.length (providers svc).
Proof.
  unfold fallback_providers, dict_mem, keys.
  induction (providers svc) as [|[k p] d IH]; cbn; [discriminate|].
  destruct (String.eqb_spec k target) as [->|Hne]; cbn.
  - intros _. pose proof (filter_length_le
                            (fun q => negb (String.eqb q target)) (map fst d)) as H.
    rewrite length_map in H. lia.
  - intros H. specialize (IH H). lia.
Qed.

End RoundTrips.

(** ** Failover and the statistics *)

Section FailoverFacts.
Variable env : Env.

Lemma try_fallbacks_other req target names :
  forall s,
    (forall n, In n names -> n <> target) ->
    dict_get (providers (fst (snd (try_fallbacks env req names s)))) target
    = dict_get (providers (fst s)) target.
Proof.
  induction names as [|b names IH]; intros s Hne; cbn [try_fallbacks].
  - reflexivity.
  - fold (attempt env req b).
    assert (Hb : target <> b)
      by (intros ->; now apply (Hne b (or_introl eq_refl))).
    destruct (attempt env req b s) as [[r|e] s1] eqn:E; cbn [fst snd].
    + exact (attempt_other env req b s _ s1 target Hb E).
    + rewrite IH by (intros n Hn; apply Hne; now right).
      exact (attempt_other env req b s _ s1 target Hb E).
Qed.

End FailoverFacts.

(** X14. When the target adapter answers, [generate_text] returns its
    response and stops: the state is the one the single call left, and
    every other registered adapter is as it was. *)
Theorem answering_target_ends_the_call
  (env : Env) (req : Request) (requested : option string)
  (svc : LLMService) (w : World) (r : LLMResponse) (s1 : SState) :
  let target := py_or requested (default_provider svc) in
  initialized svc = true ->
  attempt env req target (svc, w) = (Return r, s1) ->
  generate_text env req requested (svc, w) = (Return r, s1)
  /\ forall other,
       other <> target ->
       dict_get (providers (fst s1)) other = dict_get (providers svc) other.
Proof.
  intros target Hi Ha. split.
  - unfold generate_text. rewrite Hi. cbn [negb]. fold target.
    destruct (dict_mem (providers svc) target) eqn:Hm.
    + cbn [negb]. unfold try_except. fold (attempt env req target).
      now rewrite Ha.
    + exfalso. unfold attempt, on_provider, dict_mem in *.
      destruct (dict_get (providers svc) target); discriminate.
  - intros other Hne.
    exact (attempt_other env req target (svc, w) _ s1 other Hne Ha).
Qed.

Lemma answering_target_ends_the_call_witness :
  let env := Runs.env_two_down in
  let svc := fst Runs.svc3 in
  let w := snd Runs.svc3 in
  let out := attempt env Fixture.hello "gemini" (svc, w) in
  let r := match fst out with
           | Return r => r
           | Raise _ => response_for OLLAMA empty_config "" None 0%Q
           end in
  content r = "from gemini"
  /\ generate_text env Fixture.hello (Some "gemini") (svc, w) = (Return r, snd out)
  /\ forall other,
       other <> py_or (Some "gemini") (default_provider svc) ->
       dict_get (providers (fst (snd out))) other = dict_get (providers svc) other.
Proof.
  intros env svc w out r. split; [vm_compute; reflexivity|].
  apply (answering_target_ends_the_call env Fixture.hello (Some "gemini")
           svc w r (snd out)).
  - vm_compute. reflexivity.
  - vm_compute. reflexivity.
Defined.

(** X15. The failure of the target is counted even when a fallback
    answers: whatever [generate_text] then returns or raises, the target
    adapter's statistics are those before the call with [error_count] one
    higher. *)
Theorem failed_target_is_counted_once
  (env : Env) (req : Request) (requested : option string)
  (svc : LLMService) (w : World) (p : Provider) (e : Exception) (s1 : SState) :
  let target := py_or requested (default_provider svc) in
  initialized svc = true ->
  dict_get (providers svc) target = Some p ->
  attempt env req target (svc, w) = (Raise e, s1) ->
  let s' := snd (generate_text env req requested (svc, w)) in
  exists p',
    dict_get (providers (fst s')) target = Some p'
    /\ usage_stats p' = failed_once (usage_stats p).
Proof.
  intros target Hi Hp Ha s'.
  assert (Hm : dict_mem (providers svc) target = true)
    by (apply dict_mem_get; eauto).
  assert (H1 : exists p', dict_get (providers (fst s1)) target = Some p'
                          /\ usage_stats p' = failed_once (usage_stats p)).
  { rewrite (attempt_registered env req target svc w p Hp) in Ha.
    destruct (provider_generate_text env req (p, w)) as [r0 [p' w']] eqn:Hrun.
    inversion Ha; subst. cbn [fst providers set_providers].
    exists p'. rewrite dict_get_set_same. split; [reflexivity|].
    now apply adapter_failure in Hrun. }
  unfold s'.
  rewrite (generate_text_after_failure env req requested svc w e s1 Hi Hm Ha).
  fold target.
  destruct (1 <? List.length (providers svc))%nat; [|exact H1].
  pose proof (try_fallbacks_other env req target
                (fallback_providers svc target) s1) as Hkeep.
  destruct (try_fallbacks env req (fallback_providers svc target) s1)
    as [[[r|]|e'] s2]; cbn [fst snd] in *;
    rewrite Hkeep; auto; intros n Hn;
    now apply (fallbacks_registered svc target n).
Qed.

(** Azure fails, Claude fails, Gemini answers: Azure has one error. *)
Lemma failed_target_is_counted_once_witness :
  let env := Runs.env_two_down in
  let svc := fst Runs.svc3 in
  let w := snd Runs.svc3 in
  let p := Runs.adapter "azure" Runs.svc3 in
  let s' := snd (generate_text env Fixture.hello None (svc, w)) in
  error_count (usage_stats p) = 0%N
  /\ exists p',
       dict_get (providers (fst s')) (py_or None (default_provider svc)) = Some p'
       /\ usage_stats p' = failed_once (usage_stats p).
Proof.
  intros env svc w p s'. split; [vm_compute; reflexivity|].
  apply (failed_target_is_counted_once env Fixture.hello None svc w p
           (Fixture.down_error AZURE_OPENAI)
           (snd (attempt env Fixture.hello "azure" (svc, w)))).
  - vm_compute. reflexivity.
  - vm_compute. reflexivity.
  - vm_compute. reflexivity.
Defined.

(** ** Shutting down *)

(** X16. [close] empties the registry and clears the ready flag, and
    keeps the default provider, the effective one included when
    [initialize] had replaced it.  After [close], [generate_text] raises
    the not-initialized error, and a further [close] changes nothing. *)
Theorem close_ends_the_service
  (env : Env) (svc : LLMService) (w : World) :
  let s' := snd (close (svc, w)) in
  providers (fst s') = []
  /\ initialized (fst s') = false
  /\ default_provider (fst s') = default_provider svc
  /\ snd s' = w
  /\ close s' = (Return tt, s')
  /\ forall req requested,
       generate_text env req requested s' = (Raise not_initialized, s').
Proof.
  cbn. repeat split.
Qed.

(** X17. The replacement of the default provider outlives a restart.
    When a service is closed and initialized again, it keeps the default
    provider it had before [close] as long as that adapter survives the
    new probes, whatever the configured default is and whether or not the
    configured default survives this time. *)
Theorem restart_keeps_the_effective_default
  (env : Env) (settings : Settings) (svc : LLMService) (w : World) :
  let out := initialize env settings (snd (close (svc, w))) in
  let svc' := fst (snd out) in
  In (default_provider svc) (map value (survivors env settings w)) ->
  fst out = Return true
  /\ initialized svc' = true
  /\ keys (providers svc') = map value (survivors env settings w)
  /\ default_provider svc' = default_provider svc.
Proof.
  cbn zeta. intros Hin.
  change (snd (close (svc, w)))
    with (set_initialized (set_providers svc []) false, w).
  destruct (initialize_spec env settings
              (set_initialized (set_providers svc []) false) w eq_refl)
    as (svc1 & w1 & Hrun & Hkeys & Hi & Hd).
  rewrite Hrun. cbn [fst snd].
  assert (Hlen : (List.length (survivors env settings w) =? 0)%nat = false).
  { destruct (survivors env settings w); [contradiction | reflexivity]. }
  rewrite Hlen in *. cbn [negb].
  cbn [default_provider set_initialized set_providers] in Hd.
  assert (Hm : dict_mem (providers svc1) (default_provider svc) = true).
  { apply dict_mem_In. now rewrite Hkeys. }
  rewrite Hm in Hd. auto.
Qed.

(** Gemini is the configured default.  It fails its first probe, so Azure
    becomes the default; after a restart in which Gemini answers, Azure is
    still the default. *)
Lemma restart_keeps_the_effective_default_witness :
  let svc := fst Restart.first_start in
  let w := snd Restart.first_start in
  let settings := Fixture.three_keys "gemini" in
  let out := initialize Restart.after settings (snd (close (svc, w))) in
  let svc' := fst (snd out) in
  default_provider svc = "azure"
  /\ DEFAULT_LLM_PROVIDER settings = "gemini"
  /\ fst out = Return true
  /\ initialized svc' = true
  /\ keys (providers svc') = map value (survivors Restart.after settings w)
  /\ default_provider svc' = default_provider svc.
Proof.
  intros svc w settings out svc'.
  split; [vm_compute; reflexivity|]. split; [reflexivity|].
  apply (restart_keeps_the_effective_default Restart.after settings svc w).
  vm_compute. auto.
Defined.

(** ** The health report *)

Section ReportFacts.
Variable env : Env.

Lemma health_probe_service name s :
  dict_mem (providers (fst s)) name = true ->
  exists h s',
    health_probe env name s = (Return h, s')
    /\ keys (providers (fst s')) = keys (providers (fst s))
    /\ default_provider (fst s') = default_provider (fst s)
    /\ initialized (fst s') = initialized (fst s).
Proof.
  destruct s as [svc w]. cbn [fst]. intros Hmem.
  destruct (proj1 (dict_mem_get _ _) Hmem) as [p Hp].
  rewrite (health_probe_registered env name svc w p Hp).
  destruct (provider_generate_text env probe_request (p, advance w))
    as [[r|e] [p' w1]]; eexists _, _; (split; [reflexivity|]); cbn;
    (split; [now apply keys_set_present | auto]).
Qed.

Lemma health_loop_report names :
  NoDup names ->
  forall report s,
    (forall n, In n names -> dict_mem (providers (fst s)) n = true) ->
    (forall n, In n names -> dict_mem report n = false) ->
    exists report' s',
      health_loop env names report s = (Return report', s')
      /\ keys report' = (keys report ++ names)%list
      /\ keys (providers (fst s')) = keys (providers (fst s))
      /\ default_provider (fst s') = default_provider (fst s)
      /\ initialized (fst s') = initialized (fst s).
Proof.
  induction names as [|n names IH]; intros Hnd report s Hreg Hnew.
  - exists report, s. rewrite app_nil_r. auto.
  - apply NoDup_cons_iff in Hnd as [Hn Hnd].
    destruct (health_probe_service n s (Hreg n (or_introl eq_refl)))
      as (h & s1 & Hprobe & Hk & Hd & Hi).
    destruct (IH Hnd (dict_set report n h) s1)
      as (report' & s' & Hrun & Hkeys & Hk' & Hd' & Hi').
    + intros m Hm. apply dict_mem_In. rewrite Hk. apply dict_mem_In.
      apply Hreg. now right.
    + intros m Hm. rewrite dict_mem_set, (Hnew m (or_intror Hm)), orb_false_r.
      apply String.eqb_neq. intros ->. contradiction.
    + exists report', s'. cbn [health_loop]. unfold bind. rewrite Hprobe.
      split; [exact Hrun|]. rewrite Hkeys.
      rewrite keys_set_absent by (apply Hnew; now left).
      rewrite <- app_assoc. repeat split; congruence.
Qed.

End ReportFacts.

(** X18. [health_check] never raises.  Its report has exactly one entry
    per registered adapter, in the order of the registry, whether the
    probes succeed or fail, and it leaves the registry's keys, the default
    provider and the ready flag as they were. *)
Theorem health_report_covers_the_registry
  (env : Env) (svc : LLMService) (w : World) :
  NoDup (keys (providers svc)) ->
  exists report s',
    health_check env (svc, w) = (Return report, s')
    /\ keys (hs_providers report) = keys (providers svc)
    /\ hs_initialized report = initialized svc
    /\ hs_default_provider report = default_provider svc
    /\ keys (providers (fst s')) = keys (providers svc)
    /\ default_provider (fst s') = default_provider svc
    /\ initialized (fst s') = initialized svc.
Proof.
  intros Hnd.
  destruct (health_loop_report env (keys (providers svc)) Hnd [] (svc, w))
    as (report & s' & Hrun & Hkeys & Hk & Hd & Hi).
  - intros n Hn. now apply dict_mem_In.
  - reflexivity.
  - unfold health_check, bind. rewrite Hrun.
    eexists _, _. split; [reflexivity|]. cbn. auto 10.
Qed.

Lemma health_report_covers_the_registry_witness :
  let env := Runs.env_two_down in
  let svc := fst Runs.svc3 in
  let w := snd Runs.svc3 in
  keys (providers svc) = ["azure"; "claude"; "gemini"]
  /\ exists report s',
       health_check env (svc, w) = (Return report, s')
       /\ keys (hs_providers report) = keys (providers svc)
       /\ hs_initialized report = initialized svc
       /\ hs_default_provider report = default_provider svc
       /\ keys (providers (fst s')) = keys (providers svc)
       /\ default_provider (fst s') = default_provider svc
       /\ initialized (fst s') = initialized svc.
Proof.
  intros env svc w. split; [vm_compute; reflexivity|].
  apply (health_report_covers_the_registry env svc w).
  vm_compute. repeat constructor; cbn; intuition discriminate.
Defined.

(** ** Answers that parse, but not to a list *)

(** X19. [generate_user_stories] returns whatever the text of the
    response parses to.  A JSON object or a JSON string is returned as it
    is, though it is no list of stories; a number, a boolean or [null]
    makes the call raise a [TypeError], from the [len] of the log line.
    The state is the one [generate_text] left. *)
Theorem parsed_answer_need_not_be_a_list
  (env : Env) (requirements : string) (context : option string)
  (preferences : option (list (string * JSON))) (requested : option string)
  (s : SState) (response : LLMResponse) (s' : SState) (v : JSON) :
  generate_text env
    {| prompt := user_stories_prompt env requirements context preferences;
       system_message := Some user_stories_system_message;
       temperature := (1 # 10)%Q;
       max_tokens := Some 4000%Z |} requested s
  = (Return response, s') ->
  json_loads env (content response) = Some v ->
  let out := generate_user_stories env requirements context preferences
               requested s in
  snd out = s'
  /\ match v with
     | JList _ | JDict _ | JStr _ => fst out = Return v
     | JNull | JBool _ | JInt _ | JFloat _ =>
         exists msg, fst out = Raise (TypeError msg)
     end.
Proof.
  intros Hg Hv. cbn zeta. rewrite generate_user_stories_unfold, Hg.
  unfold parse_user_stories. rewrite Hv. cbn [fst snd].
  split; [reflexivity|]. destruct v; cbn; eauto.
Qed.

(** The model answers with an object: the object is returned. *)
Lemma parsed_answer_need_not_be_a_list_witness :
  let text := Shapes.an_object in
  let env := Extraction.answering text in
  let out := generate_user_stories env "requirements" None None None
               (Extraction.ready text) in
  fst out = Return (JDict [("stories", JList [])]).
Proof.
  intros text env out.
  pose (g := generate_text env
               {| prompt := user_stories_prompt env "requirements" None None;
                  system_message := Some user_stories_system_message;
                  temperature := (1 # 10)%Q;
                  max_tokens := Some 4000%Z |} None (Extraction.ready text)).
  destruct (parsed_answer_need_not_be_a_list env "requirements" None None None
              (Extraction.ready text)
              (match fst g with
               | Return r => r
               | Raise _ => response_for OLLAMA empty_config "" None 0%Q
               end)
              (snd g) (JDict [("stories", JList [])])) as (_ & H).
  - vm_compute. reflexivity.
  - vm_compute. reflexivity.
  - exact H.
Defined.

(** ** Texts in brackets *)

Lemma match_dotstar_closed (l : list ascii) :
  match_dotstar_rbracket (l ++ [rbracket])%list = Some (l ++ [rbracket])%list.
Proof.
  induction l as [|c l IH]; cbn.
  - reflexivity.
  - now rewrite IH.
Qed.

Lemma re_search_brackets_bracketed (inner : string) :
  re_search_brackets ("[" ++ inner ++ "]") = Some ("[" ++ inner ++ "]").
Proof.
  unfold re_search_brackets.
  rewrite !list_ascii_of_string_app.
  change (list_ascii_of_string "[") with [lbracket].
  change (list_ascii_of_string "]") with [rbracket].
  cbn [app search_from match_here]. rewrite Ascii.eqb_refl.
  rewrite match_dotstar_closed. cbn [option_map]. f_equal.
  change (lbracket :: (list_ascii_of_string inner ++ [rbracket])%list)
    with ([lbracket] ++ list_ascii_of_string inner ++ [rbracket])%list.
  change [lbracket] with (list_ascii_of_string "[").
  change [rbracket] with (list_ascii_of_string "]").
  rewrite <- !list_ascii_of_string_app.
  apply string_of_list_ascii_of_string.
Qed.

(** X20. A text that starts with an opening and ends with a closing
    bracket and does not parse is never recovered: the fallback selects
    the whole text again, so the second parse fails as the first did and
    [generate_user_stories] raises the decoder's error. *)
Theorem malformed_array_is_not_recovered
  (env : Env) (requirements : string) (context : option string)
  (preferences : option (list (string * JSON))) (requested : option string)
  (s : SState) (response : LLMResponse) (s' : SState) (inner : string) :
  generate_text env
    {| prompt := user_stories_prompt env requirements context preferences;
       system_message := Some user_stories_system_message;
       temperature := (1 # 10)%Q;
       max_tokens := Some 4000%Z |} requested s
  = (Return response, s') ->
  content response = "[" ++ inner ++ "]" ->
  json_loads env (content response) = None ->
  generate_user_stories env requirements context preferences requested s
  = (Raise decode_error, s').
Proof.
  intros Hg Hshape Hfail.
  rewrite generate_user_stories_unfold, Hg.
  unfold parse_user_stories. rewrite Hfail, Hshape.
  rewrite re_search_brackets_bracketed. rewrite <- Hshape, Hfail. reflexivity.
Qed.

Lemma malformed_array_is_not_recovered_witness :
  let text := Shapes.a_broken_array in
  let env := Extraction.answering text in
  fst (generate_user_stories env "requirements" None None None
         (Extraction.ready text))
  = Raise decode_error.
Proof.
  intros text env.
  pose (g := generate_text env
               {| prompt := user_stories_prompt env "requirements" None None;
                  system_message := Some user_stories_system_message;
                  temperature := (1 # 10)%Q;
                  max_tokens := Some 4000%Z |} None (Extraction.ready text)).
  rewrite (malformed_array_is_not_recovered env "requirements" None None None
             (Extraction.ready text)
             (match fst g with
              | Return r => r
              | Raise _ => response_for OLLAMA empty_config "" None 0%Q
              end)
             (snd g)
             (Fixture.dq "{'title': 'A', 'labels': ")).
  - reflexivity.
  - vm_compute. reflexivity.
  - vm_compute. reflexivity.
  - vm_compute. reflexivity.
Defined.

(** ** What a stream delivers *)

(** X21. On a ready service, the stream of a registered OpenAI, Azure,
    Claude or Ollama adapter that has its client is the stream of the
    backend, fragment for fragment and with the same end: it is asked for
    once, with the messages of the request, through the client set to the
    temperature of the request and, except for Ollama, to its token
    bound. *)
Theorem stream_is_passed_through
  (env : Env) (req : Request) (requested : option string)
  (svc : LLMService) (w : World) (p : Provider) (cm : ChatModel) :
  let target := py_or requested (default_provider svc) in
  initialized svc = true ->
  dict_get (providers svc) target = Some p ->
  chat_model p = Some cm ->
  kind p <> GOOGLE_GEMINI ->
  let out := generate_streaming env req requested (svc, w) in
  let sent := AStream (client_for (kind p) cm req) (build_messages req) in
  fst out = astream env (journal w ++ [sent])%list
  /\ journal (snd (snd out)) = (journal w ++ [sent])%list.
Proof.
  intros target Hi Hp Hcm Hk. cbn zeta.
  unfold generate_streaming. rewrite Hi. cbn [negb]. fold target. rewrite Hp.
  unfold provider_generate_streaming.
  destruct p as [k name cfg st c]; cbn [kind chat_model] in *. subst c.
  destruct k; try congruence;
    unfold OpenAIProvider_generate_streaming,
      AzureOpenAIProvider_generate_streaming,
      ClaudeProvider_generate_streaming, OllamaProvider_generate_streaming,
      chat_generate_streaming, stream_after, bind, ret, assign_temperature,
      assign_max_tokens, chat_astream, client_for;
    cbn; destruct (truthy_opt_Z (max_tokens req)); cbn; auto.
Qed.

Lemma stream_is_passed_through_witness :
  let env := OpenAIFirst.env in
  let svc := fst OpenAIFirst.ready in
  let w := snd OpenAIFirst.ready in
  let out := generate_streaming env Fixture.hello None (svc, w) in
  fragments (fst out) = ["from openai"] /\ failure (fst out) = None.
Proof.
  intros env svc w out.
  destruct (stream_is_passed_through env Fixture.hello None svc w
              (Runs.adapter "openai" OpenAIFirst.ready)
              (client_new OPENAI (config (Runs.adapter "openai" OpenAIFirst.ready))))
    as (H & _).
  - vm_compute. reflexivity.
  - vm_compute. reflexivity.
  - vm_compute. reflexivity.
  - vm_compute. discriminate.
  - fold out in H. rewrite H. vm_compute. auto.
Defined.

(** ** Every run of [initialize] (C6) *)

Section EveryRun.
Variable env : Env.

(** An adapter whose [initialize()] answered [True] is as [initialize]
    registers it. *)
Lemma probe_true_fresh k c w p' w' :
  provider_initialize env (provider_class k c, w) = (Return true, (p', w')) ->
  registered_fresh (value k) p'.
Proof.
  rewrite provider_initialize_closed, provider_class_kind.
  assert (Hc : config (provider_class k c) = c) by now destruct k.
  rewrite Hc.
  destruct (installed env k && has_required_fields k c); [|discriminate].
  cbn zeta. intros H. inversion H; subst. clear H.
  unfold registered_fresh. cbn. rewrite provider_class_kind, Hc.
  repeat split. now destruct k.
Qed.

(** The loop of [initialize], from any service: the adapters whose probe
    answered [True] are registered, every other entry of the registry is
    what it was. *)
Lemma initialize_loop_every_run configs :
  forall n svc w,
    let alive := map fst (filter snd (probe_outcomes env configs w)) in
    exists svc' w',
      initialize_loop env configs n (svc, w)
      = (Return (n + List.length alive), (svc', w'))
      /\ default_provider svc' = default_provider svc
      /\ initialized svc' = initialized svc
      /\ (forall name,
            ~ In name (map value alive) ->
            dict_get (providers svc') name = dict_get (providers svc) name)
      /\ (forall name,
            In name (map value alive) ->
            exists p,
              dict_get (providers svc') name = Some p
              /\ registered_fresh name p).
Proof.
  induction configs as [|[k cfg] rest IH]; intros n svc w.
  - exists svc, w. cbn. rewrite Nat.add_0_r. repeat split; auto.
    intros name [].
  - cbn [initialize_loop probe_outcomes]. unfold bind, initialize_one.
    destruct (is_configured k cfg).
    + destruct cfg as [c|].
      * destruct (provider_initialize env (provider_class k c, w))
          as [r [p' w1]] eqn:Hp.
        destruct r as [[|]|e].
        -- (* the probe answered True *)
           pose proof (probe_true_fresh k c w p' w1 Hp) as Hfresh.
           destruct (IH (n + 1)
                       (set_providers svc (dict_set (providers svc) (value k) p'))
                       w1)
             as (svc' & w' & Hrun & Hd & Hi & Hout & Hin).
           exists svc', w'. cbn -[In]. rewrite Hrun.
           split; [do 2 f_equal; lia|]. split; [exact Hd|]. split; [exact Hi|].
           cbn [providers set_providers] in Hout.
           split.
           ++ intros name Hname.
              rewrite Hout by (intros H; apply Hname; now right).
              apply dict_get_set_other. intros E. apply Hname. now left.
           ++ intros name [E|Hname].
              ** subst name.
                 destruct (in_dec string_dec (value k)
                             (map value (map fst (filter snd
                                (probe_outcomes env rest w1))))) as [Hagain|Hnot].
                 --- now apply Hin.
                 --- exists p'. rewrite (Hout _ Hnot).
                     split; [apply dict_get_set_same | exact Hfresh].
              ** now apply Hin.
        -- destruct (IH n svc w1) as (svc' & w' & Hrun & Hrest).
           exists svc', w'. cbn -[In]. rewrite Hrun. exact (conj eq_refl Hrest).
        -- destruct (IH n svc w1) as (svc' & w' & Hrun & Hrest).
           exists svc', w'. cbn -[In]. rewrite Hrun. exact (conj eq_refl Hrest).
      * destruct (IH n svc w) as (svc' & w' & Hrun & Hrest).
        exists svc', w'. cbn -[In]. rewrite Hrun. exact (conj eq_refl Hrest).
    + destruct (IH n svc w) as (svc' & w' & Hrun & Hrest).
      exists svc', w'. rewrite Hrun. exact (conj eq_refl Hrest).
Qed.

Variable settings : Settings.

Lemma survivors_outcomes w k :
  In k (survivors env settings w)
  <-> In (k, true) (probe_outcomes env (provider_configs settings) w).
Proof.
  unfold survivors. rewrite in_map_iff. split.
  - intros ([k' b] & <- & Hin). apply filter_In in Hin as [Hin Hb].
    cbn in Hb. now subst b.
  - intros Hin. exists (k, true). split; [reflexivity|].
    apply filter_In. auto.
Qed.

(** [initialize], from any service. *)
Lemma initialize_every_run svc w :
  let alive := survivors env settings w in
  exists svc' w',
    initialize env settings (svc, w)
    = (Return (negb (List.length alive =? 0)%nat), (svc', w'))
    /\ (alive = [] -> svc' = svc)
    /\ (alive <> [] -> initialized svc' = true)
    /\ (forall name,
          ~ In name (map value alive) ->
          dict_get (providers svc') name = dict_get (providers svc) name)
    /\ (forall name,
          In name (map value alive) ->
          exists p,
            dict_get (providers svc') name = Some p /\ registered_fresh name p).
Proof.
  intros alive. subst alive.
  destruct (initialize_loop_every_run (provider_configs settings) 0 svc w)
    as (svc1 & w1 & Hrun & Hd & Hi & Hout & Hin).
  fold (survivors env settings w) in Hrun, Hout, Hin.
  cbn [Nat.add] in Hrun.
  destruct (survivors env settings w) as [|k ks] eqn:Halive.
  - destruct (initialize_loop_no_survivor env (provider_configs settings) 0 svc w)
      as (w2 & Hrun2).
    { intros k Hk. apply survivors_outcomes in Hk. rewrite Halive in Hk.
      contradiction. }
    exists svc, w2. unfold initialize, try_except, bind. rewrite Hrun2.
    cbn. repeat split; auto. intros name [].
  - assert (Hsome : exists p, dict_get (providers svc1) (value k) = Some p).
    { destruct (Hin (value k) (or_introl eq_refl)) as (p & Hp & _). eauto. }
    assert (Hkeys : keys (providers svc1) <> []).
    { destruct Hsome as (p & Hp). intros E.
      assert (Hm : In (value k) (keys (providers svc1)))
        by (apply dict_mem_In; apply dict_mem_get; eauto).
      rewrite E in Hm. contradiction. }
    unfold initialize, try_except, bind. rewrite Hrun. cbn [List.length Nat.eqb negb].
    cbn [fst].
    destruct (dict_mem (providers svc1) (default_provider svc1)).
    + cbn. eexists _, _. split; [reflexivity|]. cbn.
      repeat split; auto. intros; discriminate.
    + destruct (keys (providers svc1)) as [|first others]; [contradiction|].
      cbn. eexists _, _. split; [reflexivity|]. cbn.
      repeat split; auto. intros; discriminate.
Qed.

End EveryRun.

(** C6, as the code has it.  In every run of [initialize], an adapter
    whose [initialize()] answered [False] is not added to the registry:
    the entry under its name is what it was before the run, absent if it
    was absent, and an adapter that an earlier run registered stays.  An
    adapter whose probe answered [True] is registered.  If at least one
    probe answered [True], [initialize] returns [True] and the service is
    ready.  If none did, [initialize] returns [False] and leaves the
    service as it was: a service that was not ready is not ready, a
    service that was ready stays ready.  When the run starts from an empty
    registry, as after construction and after [close], the registry holds
    afterwards exactly the adapters whose probe answered [True], in the
    order they were probed. *)
Theorem initialize_registers_survivors
  (env : Env) (settings : Settings) (svc : LLMService) (w : World) :
  let out := initialize env settings (svc, w) in
  let svc' := fst (snd out) in
  let outcomes := probe_outcomes env (provider_configs settings) w in
  (forall k,
      In (k, false) outcomes ->
      dict_get (providers svc') (value k) = dict_get (providers svc) (value k))
  /\ (forall k,
         In (k, true) outcomes ->
         exists p,
           dict_get (providers svc') (value k) = Some p
           /\ registered_fresh (value k) p)
  /\ ((exists k, In (k, true) outcomes) ->
      fst out = Return true /\ initialized svc' = true)
  /\ ((forall k, ~ In (k, true) outcomes) ->
      fst out = Return false /\ svc' = svc)
  /\ (providers svc = [] ->
      keys (providers svc') = map value (survivors env settings w)
      /\ forall k, In (k, false) outcomes -> ~ In (value k) (keys (providers svc'))).
Proof.
  intros out svc' outcomes.
  destruct (initialize_every_run env settings svc w)
    as (svc1 & w1 & Hrun & Hnone & Hsome & Hout & Hin).
  assert (Hsvc : svc' = svc1) by (unfold svc', out; now rewrite Hrun).
  assert (Hfst : fst out
                 = Return (negb (List.length (survivors env settings w) =? 0)%nat))
    by (unfold out; now rewrite Hrun).
  rewrite Hsvc, Hfst. clear Hsvc Hfst.
  assert (Hfalse : forall k, In (k, false) outcomes ->
                     ~ In (value k) (map value (survivors env settings w))).
  { intros k Hk Hv. apply in_map_iff in Hv as (k' & Hv & Hk').
    apply value_injective in Hv. subst k'.
    apply survivors_outcomes in Hk'.
    exact (probe_outcomes_functional env _ (provider_configs_names settings)
             w k Hk' Hk). }
  split; [|split; [|split; [|split]]].
  - intros k Hk. apply Hout. now apply Hfalse.
  - intros k Hk. apply Hin. apply in_map. now apply survivors_outcomes.
  - intros [k Hk]. apply survivors_outcomes in Hk.
    destruct (survivors env settings w) as [|k0 ks]; [contradiction|].
    split; [reflexivity|]. apply Hsome. discriminate.
  - intros Hno.
    destruct (survivors env settings w) as [|k0 ks] eqn:Hs.
    + split; [reflexivity | now apply Hnone].
    + exfalso. apply (Hno k0). apply survivors_outcomes. rewrite Hs. now left.
  - intros Hempty.
    destruct (initialize_spec env settings svc w Hempty)
      as (svc2 & w2 & Hrun2 & Hkeys & _).
    rewrite Hrun in Hrun2. inversion Hrun2; subst svc2 w2.
    split; [exact Hkeys|].
    intros k Hk. rewrite Hkeys. now apply Hfalse.
Qed.

(** A first start: Azure, Claude and Gemini answer the probe, Ollama does
    not; OpenAI is not constructed, for want of a key. *)
Lemma initialize_registers_survivors_witness :
  let env := Runs.env_two_down in
  let settings := Fixture.three_keys "openai" in
  let svc := LLMService_new settings in
  let out := initialize env settings (svc, World_new) in
  let svc' := fst (snd out) in
  let outcomes := probe_outcomes env (provider_configs settings) World_new in
  outcomes = [(AZURE_OPENAI, true); (ANTHROPIC_CLAUDE, true);
              (GOOGLE_GEMINI, true); (OLLAMA, false)]
  /\ keys (providers svc') = ["azure"; "claude"; "gemini"]
  /\ fst out = Return true
  /\ initialized svc' = true.
Proof.
  intros env settings svc out svc' outcomes.
  destruct (initialize_registers_survivors env settings svc World_new)
    as (_ & _ & Hready & _ & Hkeys).
  split; [vm_compute; reflexivity|].
  split.
  - fold out svc' in Hkeys. rewrite (proj1 (Hkeys eq_refl)).
    vm_compute. reflexivity.
  - apply Hready. exists AZURE_OPENAI. vm_compute. auto.
Defined.

(** A ready service is initialized again, without [close], while no
    backend answers: every probe answers [False], [initialize] returns
    [False], yet the adapters of the first run are still registered and
    the service is still ready. *)
Lemma reinitialization_keeps_failed_adapters :
  let settings := Fixture.three_keys "openai" in
  let out := initialize Runs.env_dark settings Runs.svc3 in
  let svc' := fst (snd out) in
  probe_outcomes Runs.env_dark (provider_configs settings) (snd Runs.svc3)
  = [(AZURE_OPENAI, false); (ANTHROPIC_CLAUDE, false);
     (GOOGLE_GEMINI, false); (OLLAMA, false)]
  /\ fst out = Return false
  /\ keys (providers svc') = ["azure"; "claude"; "gemini"]
  /\ initialized svc' = true.
Proof. vm_compute. repeat split. Qed.

(** ** Health checks and the usage statistics *)

Section ProbeFacts.
Variable env : Env.




End ProbeFacts.



(** ** No adapter is called twice *)

Section CallCounts.
Variable env : Env.

(** A call on a registered adapter is accounted for, once. *)
Lemma attempt_counts req name s r s' p :
  dict_get (providers (fst s)) name = Some p ->
  attempt env req name s = (r, s') ->
  exists p',
    dict_get (providers (fst s')) name = Some p'
    /\ calls_made (usage_stats p') = (calls_made (usage_stats p) + 1)%N.
Proof.
  destruct s as [svc w]. cbn [fst]. intros Hp.
  rewrite (attempt_registered env req name svc w p Hp).
  destruct (provider_generate_text env req (p, w)) as [r0 [p' w']] eqn:Hrun.
  intros H. inversion H; subst. clear H. cbn [fst providers set_providers].
  exists p'. rewrite dict_get_set_same. split; [reflexivity|].
  unfold calls_made. destruct r.
  - apply answered_call_counts in Hrun as (-> & ->). lia.
  - apply adapter_failure in Hrun as (-> & _). cbn. lia.
Qed.

(** The fallback loop over distinct names calls each adapter at most
    once. *)
Lemma try_fallbacks_counts req names :
  NoDup names ->
  forall s name p,
    dict_get (providers (fst s)) name = Some p ->
    exists p',
      dict_get (providers (fst (snd (try_fallbacks env req names s)))) name
      = Some p'
      /\ (calls_made (usage_stats p') = calls_made (usage_stats p)
          \/ (In name names
              /\ calls_made (usage_stats p')
                 = (calls_made (usage_stats p) + 1)%N)).
Proof.
  induction names as [|b names IH]; intros Hnd s name p Hp.
  - cbn. eauto.
  - apply NoDup_cons_iff in Hnd as [Hb Hnd].
    cbn [try_fallbacks]. fold (attempt env req b).
    destruct (attempt env req b s) as [r s1] eqn:E.
    destruct (String.eqb_spec name b) as [->|Hne].
    + destruct (attempt_counts req b s r s1 p Hp E) as (p1 & Hp1 & Hc1).
      destruct r as [r|e]; cbn [fst snd].
      * exists p1. split; [assumption|]. right. split; [now left | assumption].
      * rewrite (try_fallbacks_other env req b names s1)
          by (intros n Hn ->; contradiction).
        exists p1. split; [assumption|]. right. split; [now left | assumption].
    + assert (Hp1 : dict_get (providers (fst s1)) name = Some p).
      { rewrite (attempt_other env req b s r s1 name Hne E). exact Hp. }
      destruct r as [r|e]; cbn [fst snd].
      * exists p. auto.
      * destruct (IH Hnd s1 name p Hp1) as (p' & Hp' & [Hsame|[Hin Hone]]).
        -- exists p'. auto.
        -- exists p'. split; [assumption|]. right. split; [now right | assumption].
Qed.

End CallCounts.

(** X13. During one [generate_text] call no adapter is called twice:
    every registered adapter has accounted for the same number of calls
    as before, or for one more.  The call makes at most one round trip
    per registered adapter.  When the service is not ready or the provider
    is not registered, nothing is called and nothing changes. *)
Theorem at_most_one_round_trip_per_adapter
  (env : Env) (req : Request) (requested : option string)
  (svc : LLMService) (w : World) :
  NoDup (keys (providers svc)) ->
  let target := py_or requested (default_provider svc) in
  let s' := snd (generate_text env req requested (svc, w)) in
  (forall name p,
      dict_get (providers svc) name = Some p ->
      exists p',
        dict_get (providers (fst s')) name = Some p'
        /\ (calls_made (usage_stats p') = calls_made (usage_stats p)
            \/ calls_made (usage_stats p') = (calls_made (usage_stats p) + 1)%N))
  /\ round_trips s' <= round_trips (svc, w) + List.length (providers svc)
  /\ (initialized svc = false \/ dict_mem (providers svc) target = false ->
      s' = (svc, w)).
Proof.
  intros Hnd target s'.
  destruct (initialized svc) eqn:Hi.
  2:{ assert (Hs : s' = (svc, w))
        by (unfold s', generate_text; now rewrite Hi).
      rewrite Hs. cbn [fst]. repeat split; eauto. unfold round_trips. cbn. lia. }
  destruct (dict_mem (providers svc) target) eqn:Hm.
  2:{ assert (Hs : s' = (svc, w))
        by (unfold s', generate_text; fold target; now rewrite Hi, Hm).
      rewrite Hs. cbn [fst]. repeat split; eauto. unfold round_trips. cbn. lia. }
  pose proof (fallbacks_are_fewer svc target Hm) as Hfew.
  pose proof (attempt_round_trips env req target (svc, w)) as Hrt.
  destruct (attempt env req target (svc, w)) as [[r|e] s1] eqn:E; cbn [snd] in Hrt.
  - (* the target answered *)
    assert (Hs : s' = s1).
    { unfold s', generate_text. rewrite Hi. cbn [negb]. fold target. rewrite Hm.
      cbn [negb]. unfold try_except. fold (attempt env req target).
      now rewrite E. }
    rewrite Hs. split; [|split; [lia | intros [?|?]; discriminate]].
    intros name p Hp. destruct (String.eqb_spec name target) as [->|Hne].
    + destruct (attempt_counts env req target (svc, w) _ s1 p Hp E)
        as (p' & Hp' & Hc). eauto.
    + exists p. rewrite (attempt_other env req target (svc, w) _ s1 name Hne E).
      auto.
  - (* the target raised *)
    assert (Hs : s' = if (1 <? List.length (providers svc))%nat
                      then snd (try_fallbacks env req
                                  (fallback_providers svc target) s1)
                      else s1).
    { unfold s'.
      rewrite (generate_text_after_failure env req requested svc w e s1 Hi Hm E).
      fold target. destruct (1 <? List.length (providers svc))%nat; [|reflexivity].
      now destruct (try_fallbacks env req (fallback_providers svc target) s1)
        as [[[r|]|e'] s2]. }
    assert (Hothers : NoDup (fallback_providers svc target))
      by (apply NoDup_filter; exact Hnd).
    assert (Hnot : forall n, In n (fallback_providers svc target) -> n <> target)
      by (intros n Hn; now apply (fallbacks_registered svc target n)).
    pose proof (try_fallbacks_round_trips env req
                  (fallback_providers svc target) s1) as Hrt2.
    rewrite Hs. split; [|split; [|intros [?|?]; discriminate]].
    + intros name p Hp. destruct (String.eqb_spec name target) as [->|Hne].
      * destruct (attempt_counts env req target (svc, w) _ s1 p Hp E)
          as (p1 & Hp1 & Hc).
        exists p1. split; [|auto].
        destruct (1 <? List.length (providers svc))%nat; [|assumption].
        now rewrite (try_fallbacks_other env req target _ s1 Hnot).
      * assert (Hp1 : dict_get (providers (fst s1)) name = Some p).
        { rewrite (attempt_other env req target (svc, w) _ s1 name Hne E).
          exact Hp. }
        destruct (1 <? List.length (providers svc))%nat; [|eauto].
        destruct (try_fallbacks_counts env req _ Hothers s1 name p Hp1)
          as (p' & Hp' & [Hsame|[_ Hone]]); eauto.
    + destruct (1 <? List.length (providers svc))%nat; lia.
Qed.

(** Azure fails, Claude fails, Gemini answers: each has accounted for one
    call more. *)
Lemma at_most_one_round_trip_per_adapter_witness :
  let env := Runs.env_two_down in
  let svc := fst Runs.svc3 in
  let w := snd Runs.svc3 in
  let s' := snd (generate_text env Fixture.hello None (svc, w)) in
  map (fun kp => calls_made (usage_stats (snd kp))) (providers svc)
  = [0%N; 0%N; 0%N]
  /\ map (fun kp => calls_made (usage_stats (snd kp))) (providers (fst s'))
     = [1%N; 1%N; 1%N]
  /\ (forall name p,
         dict_get (providers svc) name = Some p ->
         exists p',
           dict_get (providers (fst s')) name = Some p'
           /\ (calls_made (usage_stats p') = calls_made (usage_stats p)
               \/ calls_made (usage_stats p')
                  = (calls_made (usage_stats p) + 1)%N))
  /\ round_trips s' <= round_trips (svc, w) + List.length (providers svc)
  /\ (initialized svc = false
      \/ dict_mem (providers svc) (py_or None (default_provider svc)) = false ->
      s' = (svc, w)).
Proof.
  intros env svc w s'.
  split; [vm_compute; reflexivity|]. split; [vm_compute; reflexivity|].
  apply (at_most_one_round_trip_per_adapter env Fixture.hello None svc w).
  vm_compute. repeat constructor; cbn; intuition discriminate.
Defined.
